(** * wiki_project: the checkpointed fetch scripts, embedded and checked

    A shallow embedding of the scripts [missing.py], [wiki_birth.py],
    [wiki_german_de.py], [birthlabel.py] and [wiki.py].  Every script is
    sequential: the embedding threads one [world] (request counter, text
    files, CSV files, event trace) through a small state-and-exception monad.
    The network is an oracle that answers the n-th request of a run. *)

From Stdlib Require Import String Ascii List ZArith Lia Bool Arith.
From stdpp Require Import base option list gmap strings pretty.

Local Open Scope string_scope.
Local Open Scope list_scope.
Local Open Scope nat_scope.

Local Set Warnings "-register-all".

(** ** Python strings

    A [string] is read as a sequence of code points below 256. *)

(** [str.isspace] on the code points below 256. *)
Definition is_space (c : ascii) : bool :=
  let n := nat_of_ascii c in
  ((9 <=? n) && (n <=? 13)) || ((28 <=? n) && (n <=? 32))
  || (n =? 133) || (n =? 160).

Fixpoint lstrip (s : string) : string :=
  match s with
  | EmptyString => EmptyString
  | String c s' => if is_space c then lstrip s' else s
  end.

Fixpoint rstrip (s : string) : string :=
  match s with
  | EmptyString => EmptyString
  | String c s' =>
      match rstrip s' with
      | EmptyString => if is_space c then EmptyString else String c EmptyString
      | r => String c r
      end
  end.

(** [s.strip()] *)
Definition strip (s : string) : string := rstrip (lstrip s).

Definition LF : ascii := ascii_of_nat 10.
Definition CR : ascii := ascii_of_nat 13.

(** Reading a file opened in text mode: every ["\r\n"] and every lone
    ["\r"] comes back as ["\n"]. *)
Fixpoint universal_newlines (s : string) : string :=
  match s with
  | EmptyString => EmptyString
  | String c s' =>
      if Ascii.eqb c CR then
        match s' with
        | String c' s'' =>
            if Ascii.eqb c' LF then String LF (universal_newlines s'')
            else String LF (universal_newlines s')
        | EmptyString => String LF EmptyString
        end
      else String c (universal_newlines s')
  end.

(** [s.split(sep)] for a one-character separator. *)
Fixpoint split_on (sep : ascii) (s : string) : list string :=
  match s with
  | EmptyString => [EmptyString]
  | String c s' =>
      if Ascii.eqb c sep then EmptyString :: split_on sep s'
      else match split_on sep s' with
           | h :: t => String c h :: t
           | [] => [String c EmptyString]
           end
  end.

(** [sep in s] for a one-character [sep]. *)
Fixpoint contains_char (sep : ascii) (s : string) : bool :=
  match s with
  | EmptyString => false
  | String c s' => Ascii.eqb c sep || contains_char sep s'
  end.

(** [s.split("/")[-1]] *)
Definition last_segment (s : string) : string :=
  List.last (split_on "/"%char s) EmptyString.

(** The distinct elements of a list, in order of first appearance. *)
Fixpoint unique (l : list string) : list string :=
  match l with
  | [] => []
  | x :: l' => x :: List.filter (fun y => negb (String.eqb y x)) (unique l')
  end.

(** ** Python values

    A [scalar] is what a cell read from a CSV file holds; a [value] is what a
    decoded JSON body holds: a scalar or a dict. *)

Inductive scalar : Type :=
| SNone
| SNaN
| SInt (z : Z)
| SStr (s : string).

Inductive value : Type :=
| Atom (a : scalar)
| VDict (d : list (string * value)).

(** [d.get(k)] on a dict kept as an association list (first entry wins). *)
Fixpoint dict_get {A : Type} (k : string) (d : list (string * A)) : option A :=
  match d with
  | [] => None
  | (k', v) :: d' => if String.eqb k k' then Some v else dict_get k d'
  end.

(** [d[k] = v]: replace in place, or add at the end. *)
Fixpoint dict_set {A : Type} (k : string) (v : A) (d : list (string * A))
  : list (string * A) :=
  match d with
  | [] => [(k, v)]
  | (k', v') :: d' =>
      if String.eqb k k' then (k', v) :: d' else (k', v') :: dict_set k v d'
  end.

(** [str(x)] *)
Definition scalar_str (a : scalar) : string :=
  match a with
  | SNone => "None"
  | SNaN => "nan"
  | SInt z => pretty z
  | SStr s => s
  end.

(** What [nan] is in a cell type, and [pd.isna] on one cell. *)
Class Cell (C : Type) : Type := {
  nan : C;
  isna : C -> bool
}.

#[global] Instance scalar_cell : Cell scalar := {|
  nan := SNaN;
  isna a := match a with SNone | SNaN => true | _ => false end
|}.

#[global] Instance value_cell : Cell value := {|
  nan := Atom SNaN;
  isna v := match v with Atom a => isna a | VDict _ => false end
|}.

(** [pd.notna] *)
Definition notna {C : Type} `{Cell C} (x : C) : bool := negb (isna x).

(** Truth value of an object in a condition. *)
Definition truthy (v : value) : bool :=
  match v with
  | Atom SNone => false
  | Atom SNaN => true
  | Atom (SInt z) => negb (Z.eqb z 0)
  | Atom (SStr s) => negb (String.eqb s EmptyString)
  | VDict d => match d with [] => false | _ => true end
  end.

(** ** DataFrames, column by column *)

Record DataFrame (C : Type) : Type := mkDF {
  df_len : nat;                          (* len(df): length of the index *)
  df_series : list (string * list C)     (* the columns, in order *)
}.
Arguments mkDF {C} df_len df_series.
Arguments df_len {C} d.
Arguments df_series {C} d.

Section Frames.
Context {C : Type} `{Cell C}.

(** [pd.DataFrame()] *)
Definition empty_frame : DataFrame C := mkDF 0 [].

(** [df.columns] *)
Definition df_columns (df : DataFrame C) : list string :=
  map fst (df_series df).


(** Column labels of [from_records]: the keys in order of first
    appearance. *)
Definition record_columns (rs : list (list (string * C))) : list string :=
  unique (concat (map (map fst) rs)).

(** [pd.DataFrame.from_records(rs)] and [pd.DataFrame(rs)] on a list of
    dicts: a key a record lacks reads NaN. *)
Definition from_records (rs : list (list (string * C))) : DataFrame C :=
  mkDF (length rs)
       (map (fun c => (c, map (fun r => default nan (dict_get c r)) rs))
            (record_columns rs)).

(** [df.empty]: some axis has length zero. *)
Definition df_empty (df : DataFrame C) : bool :=
  (df_len df =? 0) || (length (df_series df) =? 0).

(** [df[col]]; [None] stands for the [KeyError]. *)
Definition df_getitem (col : string) (df : DataFrame C) : option (list C) :=
  dict_get col (df_series df).

(** [series.iloc[-1]]; [None] stands for the [IndexError]. *)
Definition iloc_last (s : list C) : option C := List.last (map Some s) None.

(** [df.to_dict(orient="records")], and the rows [df.iterrows()] yields:
    one dict per row. *)
Definition to_records (df : DataFrame C) : list (list (string * C)) :=
  map (fun i => map (fun cs => (fst cs, default nan (snd cs !! i))) (df_series df))
      (seq 0 (df_len df)).

(** The part of one frame in a column of [pd.concat]. *)
Definition column_or_nan (col : string) (df : DataFrame C) : list C :=
  match df_getitem col df with
  | Some s => s
  | None => replicate (df_len df) nan
  end.

(** [pd.concat(frames, ignore_index=True)]: rows in order, columns in
    order of first appearance, NaN where a frame lacks a column. *)
Definition pd_concat (frames : list (DataFrame C)) : DataFrame C :=
  mkDF (sum_list (map df_len frames))
       (map (fun c => (c, concat (map (column_or_nan c) frames)))
            (unique (concat (map df_columns frames)))).
End Frames.

(** The lambda of [process_results]:
    [x.get("value", None) if isinstance(x, dict) else x]. *)
Definition unwrap (x : value) : value :=
  match x with
  | VDict d => default (Atom SNone) (dict_get "value" d)
  | Atom _ => x
  end.

(** [process_results(df)], the same function in [missing.py],
    [wiki_birth.py] and [wiki_german_de.py]: every column is replaced by its
    image under the lambda. *)
Definition process_results (df : DataFrame value) : DataFrame value :=
  mkDF (df_len df) (map (fun cs => (fst cs, map unwrap (snd cs))) (df_series df)).

Definition binding : Type := list (string * value).

(** ** Exceptions, requests, events and the world *)

Inductive exn : Type :=
| RequestException
| KeyError | IndexError | ValueError | TypeError | AttributeError | OSError
| ParserError.

Inductive level : Type := ERROR | WARNING.

(** The SPARQL queries, by the parameters their text is built from.  The
    pagination filter of [fetch_data] is [after]. *)
Inductive query : Type :=
| QYears (start_year end_year : Z) (after : option (string * string))
| QPerson (wikidata_id : string)
| QOccupation (person_id : string).

Inductive request : Type :=
| ReqSparql (q : query)
| ReqEntities (ids : string)
| ReqSummary (wiki_code article : string)
| ReqPageviews (wiki_code article : string).

(** Lines logged at level ERROR or WARNING (lines at INFO and DEBUG are left
    out of the trace). *)
Inductive message : Type :=
| MsgRequestError (attempt max_retries : nat)
| MsgMaxRetries
| MsgPointerReadError
| MsgFileNotFound
| MsgNoIdColumn
| MsgCsvError
| MsgNoIds
| MsgPointerNotFound (pointer : string)
| MsgFetchFailedSkipping (wikidata_id : string)
| MsgNoData
| MsgTooManyFailures
| MsgMissingCursor
| MsgPointerExtract
| MsgAttemptFailed (attempt : nat) (entity_id : string)
| MsgGaveUp (entity_id : string) (retries : nat)
| MsgBatchFailed
| MsgBatchFatal
| MsgProcessFailed (entity_id : string)
| MsgLoadFailed
| MsgDescriptionError (article : string)
| MsgPageviewsError (article : string)
| MsgNoPersonData (person_id : string)
| MsgPersonError (person_id : string)
| MsgInputError
| MsgCheckpointError
| MsgRowError (person_id : string).

(** [EvSnapshot] and [EvFinal] are the CSV files the fetch scripts write and
    never read back: [pd.concat(frames).to_csv(...)], to a file named by a
    prefix and the time, or to the final path. *)
Inductive event : Type :=
| EvRequest (r : request)
| EvSleep (milliseconds : Z)
| EvLog (l : level) (m : message)
| EvSnapshot (filename_prefix : string) (frames : list (DataFrame value))
| EvFinal (filename : string) (frames : list (DataFrame value)).

(** A text file; [Unreadable] is a path that exists and whose reading
    raises. *)
Inductive file : Type :=
| Text (content : string)
| Unreadable.

(** A CSV file a script reads, kept as the table [pd.read_csv] returns for
    it (the text form of the cells is not modelled); [BadCsv] is a path that
    exists and on which [pd.read_csv] raises. *)
Inductive csv_file : Type :=
| Csv (table : DataFrame scalar)
| BadCsv.

Record world : Type := mkWorld {
  clock : nat;                     (* requests issued so far *)
  files : gmap string file;        (* text files of the working directory *)
  tables : gmap string csv_file;   (* CSV files of the working directory *)
  trace : list event               (* newest event first *)
}.

(** ** The monad of the scripts: state, exceptions, and fuel for [while True] *)

Inductive result (A : Type) : Type :=
| Ok (a : A)
| Raise (e : exn)
| OutOfFuel.
Arguments Ok {A} a.
Arguments Raise {A} e.
Arguments OutOfFuel {A}.

Definition M (A : Type) : Type := world -> result A * world.

#[global] Instance M_ret : MRet M := fun A a w => (Ok a, w).

#[global] Instance M_bind : MBind M := fun A B f m w =>
  match m w with
  | (Ok a, w') => f a w'
  | (Raise e, w') => (Raise e, w')
  | (OutOfFuel, w') => (OutOfFuel, w')
  end.

Definition raise {A : Type} (e : exn) : M A := fun w => (Raise e, w).

Definition out_of_fuel {A : Type} : M A := fun w => (OutOfFuel, w).

(** [try: body  except Exception: handler] *)
Definition try_except {A : Type} (body : M A) (handler : exn -> M A) : M A :=
  fun w =>
    match body w with
    | (Raise e, w') => handler e w'
    | r => r
    end.

Definition emit (e : event) : M unit :=
  fun w => (Ok tt, mkWorld (clock w) (files w) (tables w) (e :: trace w)).

Definition log (l : level) (m : message) : M unit := emit (EvLog l m).

Definition sleep (milliseconds : Z) : M unit := emit (EvSleep milliseconds).

Definition get_files : M (gmap string file) := fun w => (Ok (files w), w).

Definition get_tables : M (gmap string csv_file) := fun w => (Ok (tables w), w).

(** [with open(path, "w") as f: f.write(content)]: the file is replaced. *)
Definition write_text (path : string) (content : string) : M unit :=
  fun w => (Ok tt, mkWorld (clock w) (<[path := Text content]> (files w))
                           (tables w) (trace w)).

(** What [df.to_csv] leaves in the file: a frame without columns leaves a
    file [pd.read_csv] cannot parse.  What [pd.read_csv] makes of the text of
    a cell is not modelled: the table is read back as it was written, rows in
    order. *)
Definition csv_of (df : DataFrame scalar) : csv_file :=
  match df_series df with
  | [] => BadCsv
  | _ => Csv df
  end.

(** [df.to_csv(path, index=False)]: the file is replaced. *)
Definition to_csv (path : string) (df : DataFrame scalar) : M unit :=
  fun w =>
    (Ok tt, mkWorld (clock w) (files w) (<[path := csv_of df]> (tables w)) (trace w)).

(** [pd.read_csv(path)] *)
Definition read_csv (path : string) : M (DataFrame scalar) :=
  ts ← get_tables;
  match ts !! path with
  | Some (Csv df) => mret df
  | Some BadCsv => raise ParserError
  | None => raise OSError
  end.

(** One request: the oracle answers by the number of the request and its
    content; the request is recorded and the counter advances. *)
Definition send {R : Type} (net : nat -> request -> R) (r : request) : M R :=
  fun w => (Ok (net (clock w) r),
            mkWorld (S (clock w)) (files w) (tables w) (EvRequest r :: trace w)).

(** ** The Fetcher: [query_wikidata]

    What the lines from the request to the decoded body do in one attempt:
    they raise, or they yield the part of the body the code reads.
    [Raises RequestException] is whatever the clause
    [except requests.exceptions.RequestException] catches: a network error,
    a status that is not 2xx and, from requests 2.27 on, a body that is not
    JSON (its [JSONDecodeError] is a [RequestException]).  Any other
    exception stands for a decoded body that is not of the shape the code
    reads, such as a JSON array, on which [data.get] raises
    [AttributeError]. *)

Inductive response (B : Type) : Type :=
| Raises (e : exn)
| Body (b : B).
Arguments Raises {B} e.
Arguments Body {B} b.

Section Fetcher.
(** The body of a SPARQL answer is the list [results.bindings]. *)
Variable net : nat -> request -> response (list binding).
(** Seconds slept after the failure of attempt number [attempt] (from 0):
    [retry_delay * 2 ** attempt] in [missing.py], [(attempt + 1) * 10] in
    [wiki_birth.py] and [wiki_german_de.py]. *)
Variable backoff : nat -> Z.
Variable max_retries : nat.

Fixpoint query_attempts (attempts : list nat) (q : query)
  : M (option (DataFrame value)) :=
  match attempts with
  | [] => log ERROR MsgMaxRetries;; mret None
  | attempt :: rest =>
      r ← send net (ReqSparql q);
      match r with
      | Body results =>
          match results with
          | [] => mret (Some empty_frame)
          | _ => mret (Some (from_records results))
          end
      | Raises RequestException =>
          log ERROR (MsgRequestError (attempt + 1) max_retries);;
          sleep (1000 * backoff attempt);;
          query_attempts rest q
      | Raises e => raise e
      end
  end.

(** [query_wikidata(query)]: [for attempt in range(max_retries)]. *)
Definition query_wikidata (q : query) : M (option (DataFrame value)) :=
  query_attempts (seq 0 max_retries) q.
End Fetcher.

(** ** Control flow of a loop body *)

Inductive ctl : Type :=
| Next       (* the body ran to its end, or [continue] *)
| Break
| Return.    (* [return] from the enclosing function *)

(** [for x in xs: acc = body(acc, x)] *)
Fixpoint for_each {A S : Type} (body : S -> A -> M S) (xs : list A) (st : S) : M S :=
  match xs with
  | [] => mret st
  | x :: rest => st' ← body st x; for_each body rest st'
  end.

(** [[f(x) for x in xs]], left to right. *)
Fixpoint map_M {A B : Type} (f : A -> M B) (xs : list A) : M (list B) :=
  match xs with
  | [] => mret []
  | x :: rest => y ← f x; ys ← map_M f rest; mret (y :: ys)
  end.

(** [xs.index(x)]; [None] stands for the [ValueError]. *)
Fixpoint list_index (x : string) (xs : list string) : option nat :=
  match xs with
  | [] => None
  | y :: rest => if String.eqb y x then Some 0 else S <$> list_index x rest
  end.

(** ** The Checkpoint Store *)

(** [save_pointer(pointer, filename)], the same in the three fetch scripts.
    The path is taken to be writable. *)
Definition save_pointer (filename : string) (pointer : string) : M unit :=
  write_text filename pointer.

(** The body both [load_pointer] functions share: [os.path.exists], then
    [f.read().strip()] on the file opened in text mode. *)
Definition read_pointer (filename : string) : M (option string) :=
  fs ← get_files;
  match fs !! filename with
  | Some (Text content) => mret (Some (strip (universal_newlines content)))
  | Some Unreadable => raise OSError
  | None => mret None
  end.

(** [save_intermediate_results(results, filename_prefix)] *)
Definition save_intermediate_results
    (results : list (DataFrame value)) (filename_prefix : string) : M unit :=
  emit (EvSnapshot filename_prefix results).

(** ** missing.py *)

Module Missing.
Definition MAX_RETRIES : nat := 10.
Definition RETRY_DELAY : Z := 20.
Definition SAVE_EVERY_N_BATCHES : nat := 50.
Definition POINTER_FILE : string := "id_pointer.txt".

(** [retry_delay * (2 ** attempt)] *)
Definition backoff (attempt : nat) : Z := RETRY_DELAY * 2 ^ Z.of_nat attempt.

(** [load_pointer(filename)]: the read sits in [try ... except Exception]. *)
Definition load_pointer (filename : string) : M (option string) :=
  try_except (read_pointer filename)
             (fun _ => log ERROR MsgPointerReadError;; mret None).

(** The lambda applied to the [wikidata_id] column:
    [x.split("/")[-1] if "/" in x else x]. *)
Definition id_of_cell (x : scalar) : M string :=
  match x with
  | SStr s => mret (if contains_char "/"%char s then last_segment s else s)
  | _ => raise TypeError
  end.

(** Lines 106-113: where to resume in the list of identifiers. *)
Definition resume (wikidata_ids : list string) (last_pointer : option string)
  : M (list string) :=
  match last_pointer with
  | Some p =>
      if String.eqb p EmptyString then mret wikidata_ids
      else match list_index p wikidata_ids with
           | Some last_index => mret (drop (last_index + 1) wikidata_ids)
           | None => log WARNING (MsgPointerNotFound p);; mret wikidata_ids
           end
  | None => mret wikidata_ids
  end.

Record locals : Type := mkLocals {
  all_results : list (DataFrame value);
  batch_count : nat
}.

Section Run.
Variable net : nat -> request -> response (list binding).

(** The body of [for wikidata_id in wikidata_ids]. *)
Definition process_id (st : locals) (wikidata_id : string) : M locals :=
  batch_results ← query_wikidata net backoff MAX_RETRIES (QPerson wikidata_id);
  match batch_results with
  | None => log ERROR (MsgFetchFailedSkipping wikidata_id);; mret st
  | Some df =>
      if df_empty df then mret st
      else
        let batch := process_results df in
        let results := all_results st ++ [batch] in
        let count := batch_count st + 1 in
        save_pointer POINTER_FILE wikidata_id;;
        if count mod SAVE_EVERY_N_BATCHES =? 0 then
          save_intermediate_results results "missing_persons_results";;
          mret (mkLocals [] count)
        else mret (mkLocals results count)
  end.

(** Lines 169-178. *)
Definition save_final (st : locals) : M unit :=
  match all_results st with
  | [] => log WARNING MsgNoData
  | frames => emit (EvFinal "missing_persons_geodata.csv" frames)
  end.

(** Lines 92-100: the identifiers of the input file, or [None] when the
    function returns there. *)
Definition read_ids (file_path : string) : M (option (list string)) :=
  try_except
    (df ← read_csv file_path;
     match df_getitem "wikidata_id" df with
     | None => log ERROR MsgNoIdColumn;; mret None
     | Some col => ids ← map_M id_of_cell (List.filter notna col); mret (Some ids)
     end)
    (fun _ => log ERROR MsgCsvError;; mret None).

Definition fetch_data_for_ids (file_path : string) : M unit :=
  ts ← get_tables;
  match ts !! file_path with
  | None => log ERROR MsgFileNotFound
  | Some _ =>
      r ← read_ids file_path;
      match r with
      | None => mret tt
      | Some [] => log WARNING MsgNoIds
      | Some wikidata_ids =>
          last_pointer ← load_pointer POINTER_FILE;
          todo ← resume wikidata_ids last_pointer;
          st ← for_each process_id todo (mkLocals [] 0);
          save_final st
      end
  end.
End Run.
End Missing.

(** ** wiki_birth.py and wiki_german_de.py

    The two scripts differ in the SELECT clause of the query, which the
    oracle stands for, and in the [try] block after [process_results]:
    [wiki_birth.py] saves the pointer only when [pd.notna] holds of both
    cursor fields, [wiki_german_de.py] saves it always.  [validate] tells
    which. *)

Module BatchLoop.
Definition BATCH_SIZE : nat := 500.
Definition MAX_RETRIES : nat := 10.
Definition SAVE_EVERY_N_BATCHES : nat := 20.
Definition POINTER_FILE : string := "pointer.txt".

(** [(attempt + 1) * 10] *)
Definition backoff (attempt : nat) : Z := (Z.of_nat attempt + 1) * 10.

(** [range(1525, 2026, 20)] *)
Definition YEARS : list Z := map (fun i => (1525 + 20 * Z.of_nat i)%Z) (seq 0 26).

(** [load_pointer(filename)]: no [try] around the read. *)
Definition load_pointer (filename : string) : M (option string) :=
  read_pointer filename.

Record locals : Type := mkLocals {
  all_results : list (DataFrame value);
  batch_count : nat;
  last_birthdate : value;
  last_person : value
}.

Section Run.
Variable net : nat -> request -> response (list binding).
(** [str(d)] of a dict [d], a Python built-in the scripts rely on only
    when a cursor field is still a dict after [process_results]. *)
Variable dict_repr : list (string * value) -> string.
Variable validate : bool.

(** [f"{v}"] *)
Definition py_str (v : value) : string :=
  match v with
  | Atom a => scalar_str a
  | VDict d => dict_repr d
  end.

(** The query of one page: the pagination filter is present when
    [last_birthdate and last_person] is true. *)
Definition page_query (start_year end_year : Z) (st : locals) : query :=
  QYears start_year end_year
         (if truthy (last_birthdate st) && truthy (last_person st)
          then Some (py_str (last_birthdate st), py_str (last_person st))
          else None).

(** [df[col].iloc[-1]] *)
Definition last_of (col : string) (df : DataFrame value) : M value :=
  match df_getitem col df with
  | None => raise KeyError
  | Some s => match iloc_last s with
              | None => raise IndexError
              | Some v => mret v
              end
  end.

(** The body of the [try]: both reads, then the save.  The two locals
    are returned together: when the second read raises, the loop breaks
    and both are assigned afresh at the next scope. *)
Definition extract_pointer (df : DataFrame value) : M (value * value) :=
  birthdate ← last_of "birthdate" df;
  person ← last_of "person" df;
  (if negb validate || (notna birthdate && notna person)
   then save_pointer POINTER_FILE (py_str birthdate +:+ "|" +:+ py_str person)
   else log WARNING MsgMissingCursor);;
  mret (birthdate, person).

(** One turn of [while True]. *)
Definition page (start_year end_year : Z) (st : locals) : M (ctl * locals) :=
  batch_results ← query_wikidata net backoff MAX_RETRIES
                                 (page_query start_year end_year st);
  match batch_results with
  | None => log ERROR MsgTooManyFailures;; mret (Return, st)
  | Some df =>
      if df_empty df then mret (Break, st)
      else
        let batch := process_results df in
        r ← try_except (cursor ← extract_pointer batch; mret (Some cursor))
                       (fun _ => log ERROR MsgPointerExtract;; mret None);
        match r with
        | None => mret (Break, st)
        | Some (birthdate, person) =>
            let results := all_results st ++ [batch] in
            let count := batch_count st + 1 in
            kept ← (if count mod SAVE_EVERY_N_BATCHES =? 0
                    then save_intermediate_results results "intermediate_results";;
                         mret []
                    else mret results);
            let st' := mkLocals kept count birthdate person in
            if df_len batch <? BATCH_SIZE then mret (Break, st')
            else mret (Next, st')
        end
  end.

(** [while True], with [fuel] turns at most; it ends by [Break] or by
    [Return]. *)
Fixpoint while_true (fuel : nat) (start_year end_year : Z) (st : locals)
  : M (ctl * locals) :=
  match fuel with
  | 0 => out_of_fuel
  | S fuel' =>
      r ← page start_year end_year st;
      match r with
      | (Next, st') => while_true fuel' start_year end_year st'
      | (c, st') => mret (c, st')
      end
  end.

(** Lines 88-89: the cursor a scope starts from. *)
Definition scope_init (st : locals) : M locals :=
  last_pointer ← load_pointer POINTER_FILE;
  match last_pointer with
  | None => mret (mkLocals (all_results st) (batch_count st) (Atom SNone) (Atom SNone))
  | Some p =>
      if String.eqb p EmptyString
      then mret (mkLocals (all_results st) (batch_count st) (Atom SNone) (Atom SNone))
      else match split_on "|"%char p with
           | [birthdate; person] =>
               mret (mkLocals (all_results st) (batch_count st)
                              (Atom (SStr birthdate)) (Atom (SStr person)))
           | _ => raise ValueError
           end
  end.

(** [for start_year in ...]: every scope gets [fuel] turns. *)
Fixpoint for_years (fuel : nat) (years : list Z) (st : locals) : M (ctl * locals) :=
  match years with
  | [] => mret (Next, st)
  | start_year :: rest =>
      let end_year := (start_year + 19)%Z in
      st1 ← scope_init st;
      r ← while_true fuel start_year end_year st1;
      match r with
      | (Return, st2) => mret (Return, st2)
      | (_, st2) => for_years fuel rest st2
      end
  end.

Definition save_final (st : locals) : M unit :=
  match all_results st with
  | [] => log WARNING MsgNoData
  | frames => emit (EvFinal "german_wikipedia_notables_de.csv" frames)
  end.

Definition fetch_data (fuel : nat) : M unit :=
  r ← for_years fuel YEARS (mkLocals [] 0 (Atom SNone) (Atom SNone));
  match r with
  | (Return, _) => mret tt
  | (_, st) => save_final st
  end.
End Run.
End BatchLoop.

Module WikiBirth.
Definition load_pointer := BatchLoop.load_pointer.
Definition fetch_data net dict_repr := BatchLoop.fetch_data net dict_repr true.
End WikiBirth.

Module WikiGermanDe.
Definition load_pointer := BatchLoop.load_pointer.
Definition fetch_data net dict_repr := BatchLoop.fetch_data net dict_repr false.
End WikiGermanDe.

(** ** birthlabel.py *)

Module BirthLabel.
Definition MAX_RETRIES : nat := 5.
Definition REQUEST_DELAY : Z := 1.
Definition BATCH_SIZE : nat := 50.

(** [pd.DataFrame(columns=['birthplace_id', 'label'])] *)
Definition new_frame : DataFrame scalar :=
  mkDF 0 [("birthplace_id", []); ("label", [])].

(** [load_or_create_dataframe(input_csv, output_csv)] *)
Definition load_or_create_dataframe (output_csv : string) : M (DataFrame scalar) :=
  r ← try_except
        (ts ← get_tables;
         match ts !! output_csv with
         | Some _ => df ← read_csv output_csv; mret (Some df)
         | None => mret None
         end)
        (fun _ => log WARNING MsgLoadFailed;; mret None);
  match r with
  | Some df => mret df
  | None => mret new_frame
  end.

(** A label, or [None], as a cell. *)
Definition label_cell (label : option string) : scalar :=
  match label with
  | Some l => SStr l
  | None => SNone
  end.

(** [pd.DataFrame({'birthplace_id': [entity_id], 'label': [label]})] *)
Definition new_row (entity_id : string) (label : option string) : DataFrame scalar :=
  mkDF 1 [("birthplace_id", [SStr entity_id]); ("label", [label_cell label])].

(** The lambda applied to the [birthplace] column:
    [x.split('/')[-1] if isinstance(x, str) else None]. *)
Definition birthplace_id_of (x : scalar) : scalar :=
  match x with
  | SStr s => SStr (last_segment s)
  | _ => SNone
  end.

(** [series.dropna().unique().tolist()] on a series of strings and
    [None]. *)
Definition unique_ids (col : list scalar) : list string :=
  unique (omap (fun x => match x with SStr s => Some s | _ => None end)
               (List.filter notna col)).

(** The slices [ids[i:i + BATCH_SIZE]] for [i in range(0, len(ids), BATCH_SIZE)]. *)
Definition batches (ids : list string) : list (list string) :=
  map (fun k => take BATCH_SIZE (drop (k * BATCH_SIZE) ids))
      (seq 0 ((length ids + (BATCH_SIZE - 1)) / BATCH_SIZE)).

Section Run.
(** The body of a [wbgetentities] answer, as the code reads it: the
    entities that carry an English label, each with the label. *)
Variable net : nat -> request -> response (list (string * string)).

Fixpoint single_attempts (attempts : list nat) (retries : nat) (entity_id : string)
  : M (option string) :=
  match attempts with
  | [] => mret None
  | attempt :: rest =>
      sleep (1000 * REQUEST_DELAY);;
      r ← send net (ReqEntities entity_id);
      match r with
      | Body labels => mret (dict_get entity_id labels)
      | Raises RequestException =>
          log WARNING (MsgAttemptFailed (attempt + 1) entity_id);;
          if attempt =? retries - 1 then
            log ERROR (MsgGaveUp entity_id retries);; mret None
          else
            sleep (1000 * 2 ^ Z.of_nat attempt);;
            single_attempts rest retries entity_id
      | Raises e => raise e
      end
  end.

(** [get_single_label(entity_id, retries)] *)
Definition get_single_label (entity_id : string) (retries : nat) : M (option string) :=
  single_attempts (seq 0 retries) retries entity_id.

(** The [try] of [get_batch_labels]: the dict and the identifiers left
    without a label. *)
Definition batch_request (entity_ids : list string)
  : M (gmap string (option string) * list string) :=
  sleep (1000 * REQUEST_DELAY);;
  r ← send net (ReqEntities (String.concat "|" entity_ids));
  match r with
  | Body labels =>
      mret (foldl (fun m id => <[id := dict_get id labels]> m) ∅ entity_ids,
            List.filter (fun id => negb (bool_decide (is_Some (dict_get id labels))))
                        entity_ids)
  | Raises e => raise e
  end.

(** [get_batch_labels(entity_ids)] *)
Definition get_batch_labels (entity_ids : list string)
  : M (gmap string (option string)) :=
  r ← try_except
        (batch_request entity_ids)
        (fun _ =>
           log WARNING MsgBatchFailed;;
           mret (foldl (fun m id => <[id := None]> m) ∅ entity_ids, entity_ids));
  for_each (fun batch_result entity_id =>
              label ← get_single_label entity_id MAX_RETRIES;
              mret (<[entity_id := label]> batch_result))
           (snd r) (fst r).

(** The fallback of [process_all_birthplaces] for one identifier
    (lines 160-176). *)
Definition process_single (output_csv : string)
    (results_df : DataFrame scalar) (entity_id : string) : M (DataFrame scalar) :=
  try_except
    (label ← get_single_label entity_id MAX_RETRIES;
     let results_df' := pd_concat [results_df; new_row entity_id label] in
     to_csv output_csv results_df';;
     mret results_df')
    (fun _ =>
       log ERROR (MsgProcessFailed entity_id);;
       let results_df' := pd_concat [results_df; new_row entity_id None] in
       to_csv output_csv results_df';;
       mret results_df').

(** The body of the loop over the batches (lines 140-176). *)
Definition process_batch (output_csv : string)
    (results_df : DataFrame scalar) (batch : list string) : M (DataFrame scalar) :=
  try_except
    (batch_labels ← get_batch_labels batch;
     let batch_df :=
       mkDF (length batch)
            [("birthplace_id", map SStr batch);
             ("label", map (fun id => label_cell (default None (batch_labels !! id)))
                           batch)] in
     let results_df' := pd_concat [results_df; batch_df] in
     to_csv output_csv results_df';;
     mret results_df')
    (fun _ =>
       log ERROR MsgBatchFatal;;
       for_each (process_single output_csv) batch results_df).

(** [set(results_df['birthplace_id'].astype(str))] *)
Definition processed_ids_of (results_df : DataFrame scalar) : M (gset string) :=
  match df_getitem "birthplace_id" results_df with
  | None => raise KeyError
  | Some done => mret (list_to_set (map scalar_str done))
  end.

(** The identifiers still to fetch (lines 124-131). *)
Definition ids_to_process (processed_ids : gset string) (dataset : DataFrame scalar)
  : M (list string) :=
  match df_getitem "birthplace" dataset with
  | None => raise KeyError
  | Some col =>
      let all_ids := unique_ids (map birthplace_id_of col) in
      mret (List.filter (fun id => negb (bool_decide (id ∈ processed_ids))) all_ids)
  end.

Definition process_all_birthplaces (dataset_path output_csv : string)
  : M (DataFrame scalar) :=
  results_df ← load_or_create_dataframe output_csv;
  processed_ids ← processed_ids_of results_df;
  df ← read_csv dataset_path;
  ids ← ids_to_process processed_ids df;
  for_each (process_batch output_csv) (batches ids) results_df.
End Run.
End BirthLabel.

(** ** wiki.py *)

Module Wiki.
Definition NO_DESCRIPTION : string := "No description available".
Definition NO_OCCUPATION : string := "No occupation found".
Definition NO_DEATH : string := "No date of death".

(** [needle in s] *)
Definition contains (needle s : string) : bool :=
  bool_decide (is_Some (String.index 0 needle s)).

(** [d.update(...)] with the six new fields, in order. *)
Definition update (row extra : list (string * scalar)) : list (string * scalar) :=
  foldl (fun d kv => dict_set (fst kv) (snd kv) d) row extra.

Section Run.
(** One binding of the occupation query, as the code reads it: the
    value of [occupationLabel] and of [dateOfDeath], where present. *)
Variable sparql : nat -> request -> response (list (option string * option string)).
(** The field [extract] of a page summary, where present. *)
Variable summary : nat -> request -> response (option string).
(** The [views] of the monthly items. *)
Variable pageviews : nat -> request -> response (list Z).

(** [fetch_wikipedia_data(page_url)] *)
Definition fetch_wikipedia_data (page_url : scalar) : M (Z * string) :=
  match page_url with
  | SStr url =>
      if String.eqb (strip url) EmptyString then mret (0%Z, NO_DESCRIPTION)
      else
        let wiki_code :=
          if contains "de.wikipedia.org" url then Some "de"
          else if contains "en.wikipedia.org" url then Some "en"
          else None in
        match wiki_code with
        | None => mret (0%Z, NO_DESCRIPTION)
        | Some code =>
            let article := last_segment url in
            description ←
              try_except
                (r ← send summary (ReqSummary code article);
                 match r with
                 | Body extract => mret (default NO_DESCRIPTION extract)
                 | Raises e => raise e
                 end)
                (fun _ => log ERROR (MsgDescriptionError article);;
                          mret NO_DESCRIPTION);
            total_views ←
              try_except
                (r ← send pageviews (ReqPageviews code article);
                 match r with
                 | Body views => mret (foldr Z.add 0%Z views)
                 | Raises e => raise e
                 end)
                (fun _ => log ERROR (MsgPageviewsError article);; mret 0%Z);
            mret (total_views, description)
        end
  | _ => mret (0%Z, NO_DESCRIPTION)
  end.

(** [fetch_occupation_and_death(person_id)] *)
Definition fetch_occupation_and_death (person_id : string) : M (string * string) :=
  try_except
    (r ← send sparql (ReqSparql (QOccupation person_id));
     match r with
     | Body [] =>
         log WARNING (MsgNoPersonData person_id);;
         mret (NO_OCCUPATION, NO_DEATH)
     | Body ((label, death) :: rest) =>
         let occupations :=
           String.concat ", " (omap fst ((label, death) :: rest)) in
         mret (if String.eqb occupations EmptyString
               then NO_OCCUPATION else occupations,
               default NO_DEATH death)
     | Raises e => raise e
     end)
    (fun _ => log ERROR (MsgPersonError person_id);;
              mret (NO_OCCUPATION, NO_DEATH)).

(** [row[col]] on a row of [df.iterrows()] *)
Definition row_get (col : string) (row : list (string * scalar)) : M scalar :=
  match dict_get col row with
  | Some x => mret x
  | None => raise KeyError
  end.

(** [row["person"].split("/")[-1]] *)
Definition person_id_of (row : list (string * scalar)) : M string :=
  person ← row_get "person" row;
  match person with
  | SStr s => mret (last_segment s)
  | _ => raise AttributeError
  end.

(** The [try] of the loop body (lines 121-123). *)
Definition fetch_row (person_id : string) (row : list (string * scalar))
  : M ((string * string) * (Z * string) * (Z * string)) :=
  person_data ← fetch_occupation_and_death person_id;
  german_url ← row_get "GermanWikipedia" row;
  german ← fetch_wikipedia_data german_url;
  english_url ← row_get "EnglishWikipedia" row;
  english ← fetch_wikipedia_data english_url;
  mret (person_data, german, english).

(** The body of [for idx, row in df.iterrows()]; [enriched_data] is the
    state. *)
Definition process_row (checkpoint_csv : string) (last_processed_index : Z)
    (enriched_data : list (list (string * scalar)))
    (item : nat * list (string * scalar)) : M (list (list (string * scalar))) :=
  let '(idx, row) := item in
  if (Z.of_nat idx <=? last_processed_index)%Z then mret enriched_data
  else
    person_id ← person_id_of row;
    r ← try_except (x ← fetch_row person_id row; mret (Some x))
                   (fun _ => log ERROR (MsgRowError person_id);; mret None);
    match r with
    | None => mret enriched_data
    | Some (person_data, german, english) =>
        let enriched_row :=
          update row [("occupation", SStr (fst person_data));
                      ("date_of_death", SStr (snd person_data));
                      ("german_total_views", SInt (fst german));
                      ("german_description", SStr (snd german));
                      ("english_total_views", SInt (fst english));
                      ("english_description", SStr (snd english))] in
        let enriched_data' := enriched_data ++ [enriched_row] in
        (if length enriched_data' mod 100 =? 0
         then to_csv checkpoint_csv (from_records enriched_data')
         else mret tt);;
        sleep 300;;
        mret enriched_data'
    end.

(** Lines 99-113: the rows of the checkpoint and the index of the last
    row taken as processed; [None] when the function returns there. *)
Definition load_checkpoint (checkpoint_csv : string)
  : M (option (list (list (string * scalar)) * Z)) :=
  ts ← get_tables;
  match ts !! checkpoint_csv with
  | Some _ =>
      try_except
        (checkpoint_df ← read_csv checkpoint_csv;
         mret (Some (to_records checkpoint_df,
                     (Z.of_nat (df_len checkpoint_df) - 1)%Z)))
        (fun _ => log ERROR MsgCheckpointError;; mret None)
  | None => mret (Some ([], (-1)%Z))
  end.

Definition enrich_data (input_csv output_csv checkpoint_csv : string) : M unit :=
  r ← try_except (df ← read_csv input_csv; mret (Some df))
                 (fun _ => log ERROR MsgInputError;; mret None);
  match r with
  | None => mret tt
  | Some df =>
      c ← load_checkpoint checkpoint_csv;
      match c with
      | None => mret tt
      | Some (enriched_data, last_processed_index) =>
          let rows := to_records df in
          enriched ← for_each (process_row checkpoint_csv last_processed_index)
                              (zip (seq 0 (length rows)) rows) enriched_data;
          to_csv output_csv (from_records enriched)
      end
  end.
End Run.
End Wiki.

(** ** translation.py

    The script runs at import, on the files of the working directory; its
    log lines are not modelled.  [translator] stands for
    [translator.translate_text(text, source_lang="DE", target_lang="EN-US")]:
    by the number of calls made so far and the cell it is given, the text of
    the result, or [None] when the call raises. *)

Module Translation.
Definition INPUT : string := "unique_occupations.csv".
Definition OUTPUT : string := "translated_unique_occupations.csv".

(** [data[col] = series]: the column is replaced in place, or added as the
    last one. *)
Definition setitem (col : string) (series : list scalar) (data : DataFrame scalar)
  : DataFrame scalar :=
  mkDF (df_len data) (dict_set col series (df_series data)).

Section Run.
Variable translator : nat -> scalar -> option string.

(** [translate_text(text)], at the call numbered [calls]. *)
Definition translate_text (calls : nat) (text : scalar) : scalar :=
  match translator calls text with
  | Some result_text => SStr result_text
  | None => text
  end.

(** [series.apply(lambda x: translate_text(x) if pd.notnull(x) else x)],
    from the call numbered [calls] on. *)
Fixpoint apply_translate (calls : nat) (series : list scalar) : list scalar :=
  match series with
  | [] => []
  | x :: rest =>
      if notna x then translate_text calls x :: apply_translate (S calls) rest
      else x :: apply_translate calls rest
  end.

(** The script: the files it leaves, or the exception it ends with. *)
Definition script (dir : gmap string csv_file) : result (gmap string csv_file) :=
  match dir !! INPUT with
  | None => Raise OSError
  | Some BadCsv => Raise ParserError
  | Some (Csv data) =>
      match df_getitem "occupation" data with
      | None => Raise KeyError
      | Some occupation =>
          Ok (<[OUTPUT := csv_of (setitem "translated_occupation"
                                          (apply_translate 0 occupation) data)]> dir)
      end
  end.
End Run.
End Translation.

(** * Definitions used in the statements *)

(** ** Worlds *)

(** A run starts with no request sent and nothing traced. *)
Definition fresh (fs : gmap string file) (ts : gmap string csv_file) : world :=
  mkWorld 0 fs ts [].

Definition empty_world : world := fresh ∅ ∅.

(** The world after one request, after one traced event, and after
    [save_pointer]. *)
Definition sent (r : request) (w : world) : world :=
  mkWorld (S (clock w)) (files w) (tables w) (EvRequest r :: trace w).

Definition traced (e : event) (w : world) : world :=
  mkWorld (clock w) (files w) (tables w) (e :: trace w).

Definition saved (filename pointer : string) (w : world) : world :=
  mkWorld (clock w) (<[filename := Text pointer]> (files w)) (tables w) (trace w).

(** [w'] is [w] after some requests, sleeps and log lines: no file has
    changed. *)
Definition only_traced (w w' : world) : Prop :=
  files w' = files w /\ tables w' = tables w
  /\ exists evs, trace w' = evs ++ trace w.

(** [w'] is [w] after events among which is the request [r]; no file has
    changed. *)
Definition asked (r : request) (w w' : world) : Prop :=
  files w' = files w /\ tables w' = tables w
  /\ exists evs, trace w' = evs ++ trace w /\ In (EvRequest r) evs.

(** A computation that ends within the model: it never runs out of fuel. *)
Definition terminates {A : Type} (m : M A) : Prop :=
  forall w, fst (m w) <> OutOfFuel.

(** ** Oracles *)

(** An oracle whose every attempt is a transport failure, one that always
    answers with an empty body, and one whose first [n] requests are
    transport failures and whose later answers all carry [body]. *)
Definition net_down {B : Type} : nat -> request -> response B :=
  fun _ _ => Raises RequestException.

Definition net_empty {B : Type} : nat -> request -> response (list B) :=
  fun _ _ => Body [].

Definition net_recovering {B : Type} (n : nat) (body : B) : nat -> request -> response B :=
  fun i _ => if i <? n then Raises RequestException else Body body.

(** A stand-in for [str] on dicts in the examples. *)
Definition plain_repr : list (string * value) -> string := fun _ => "{}".

(** ** Batches *)

(** A cell of a raw batch: a plain scalar, or an envelope whose [value]
    field, where it has one, is a scalar. *)
Definition raw_cell (x : value) : Prop :=
  match x with
  | Atom _ => True
  | VDict d => match dict_get "value" d with
               | Some (VDict _) => False
               | _ => True
               end
  end.

Definition raw_batch (df : DataFrame value) : Prop :=
  Forall (fun cs => Forall raw_cell (snd cs)) (df_series df).

(** The cursor fields of the last record of a processed batch, where both
    columns are there to read. *)
Definition cursor_fields (batch : DataFrame value) : option (value * value) :=
  match df_getitem "birthdate" batch with
  | Some birthdates =>
      match iloc_last birthdates with
      | Some birthdate =>
          match df_getitem "person" batch with
          | Some persons =>
              match iloc_last persons with
              | Some person => Some (birthdate, person)
              | None => None
              end
          | None => None
          end
      | None => None
      end
  | None => None
  end.

Definition envelope (s : string) : value :=
  VDict [("type", Atom (SStr "literal")); ("value", Atom (SStr s))].

(** A full page of 500 records of which only the first has a [birthdate]. *)
Definition page_without_birthdate : list binding :=
  [("birthdate", envelope "1530-01-01T00:00:00Z"); ("person", envelope "Q0")]
  :: map (fun i => [("person", envelope ("Q" +:+ pretty i))]) (seq 1 499).

(** The locals at the start of [fetch_data]. *)
Definition start_locals : BatchLoop.locals :=
  BatchLoop.mkLocals [] 0 (Atom SNone) (Atom SNone).

(** ** The checkpoint store *)

(** Saving a sequence of cursors, one after the other. *)
Definition save_all (filename : string) (cursors : list string) : M unit :=
  for_each (fun _ cursor => save_pointer filename cursor) cursors tt.

Definition begins_with_space (s : string) : bool :=
  match s with
  | String c _ => is_space c
  | EmptyString => false
  end.

Fixpoint ends_with_space (s : string) : bool :=
  match s with
  | EmptyString => false
  | String c EmptyString => is_space c
  | String _ s' => ends_with_space s'
  end.

(** ** Working directories of the examples *)

(** An input file of two identifiers; the same with a pointer file left by
    a run over another input file. *)
Definition two_ids : world :=
  fresh ∅ {["missing_persons.csv" :=
              Csv (mkDF 2 [("wikidata_id", [SStr "Q1"; SStr "Q2"])])]}.

Definition two_ids_stale_pointer : world :=
  mkWorld 0 {["id_pointer.txt" := Text "Q9"]} (tables two_ids) [].

(** A dataset with two birthplaces and a row without one; no labels file
    yet. *)
Definition birthplaces : world :=
  fresh ∅ {["final_dataset.csv" :=
              Csv (mkDF 3 [("birthplace",
                            [SStr "http://www.wikidata.org/entity/Q64"; SNaN;
                             SStr "http://www.wikidata.org/entity/Q1055"])])]}.

(** The batch request fails; later answers know one label. *)
Definition net_one_label : nat -> request -> response (list (string * string)) :=
  net_recovering 1 [("Q64", "Berlin")].

(** An input file of two persons without the column [GermanWikipedia], and
    a checkpoint file of one row. *)
Definition enrichment_dir : world :=
  fresh ∅ {["final_combined_results.csv" :=
              Csv (mkDF 2 [("person", [SStr "http://www.wikidata.org/entity/Q1";
                                       SStr "http://www.wikidata.org/entity/Q2"]);
                           ("EnglishWikipedia", [SStr "No"; SStr "No"])]);
            "checkpoint.csv" :=
              Csv (mkDF 1 [("person", [SStr "http://www.wikidata.org/entity/Q1"]);
                           ("occupation", [SStr "Maler"])])]}.

(** A pointer file that exists and cannot be read. *)
Definition unreadable_pointer : world :=
  fresh {["pointer.txt" := Unreadable]} ∅.

(** ** The label writer *)

(** [df'] is [df] with one more row for each of [ids], in order, with
    these labels. *)
Definition extends_by (df df' : DataFrame scalar) (ids : list string)
    (labels : list (option string)) : Prop :=
  length labels = length ids
  /\ column_or_nan "birthplace_id" df'
     = column_or_nan "birthplace_id" df ++ map SStr ids
  /\ column_or_nan "label" df'
     = column_or_nan "label" df ++ map BirthLabel.label_cell labels.

(** The dict [{id: None for id in entity_ids}]. *)
Definition all_none (entity_ids : list string) : gmap string (option string) :=
  foldl (fun m id => <[id := None]> m) ∅ entity_ids.

(** ** Traces *)

(** The sleeps among the events of a trace, oldest first, in milliseconds,
    and the requests among them, oldest first. *)
Definition sleeps (evs : list event) : list Z :=
  omap (fun e => match e with EvSleep ms => Some ms | _ => None end) (rev evs).

Definition requests (evs : list event) : list request :=
  omap (fun e => match e with EvRequest r => Some r | _ => None end) (rev evs).

(** What the failed attempts [attempts] of [query_wikidata] leave in the
    trace (newest first): for each, the request, the error line and the
    sleep. *)
Definition failed_attempts (backoff : nat -> Z) (max_retries : nat) (q : query)
    (attempts : list nat) : list event :=
  rev (concat (map (fun attempt =>
                      [EvRequest (ReqSparql q);
                       EvLog ERROR (MsgRequestError (attempt + 1) max_retries);
                       EvSleep (1000 * backoff attempt)])
                   attempts)).

(** The world after these failed attempts. *)
Definition after_failures (backoff : nat -> Z) (max_retries : nat) (q : query)
    (attempts : list nat) (w : world) : world :=
  mkWorld (clock w + length attempts) (files w) (tables w)
          (failed_attempts backoff max_retries q attempts ++ trace w).

(** The strings among the cells of a column, in order. *)
Definition strings_of (col : list scalar) : list string :=
  omap (fun x => match x with SStr s => Some s | _ => None end) col.

(** What the lambda of [fetch_data_for_ids] makes of a string. *)
Definition short_id (s : string) : string :=
  if contains_char "/"%char s then last_segment s else s.

(** The frames of the intermediate files among the events of a trace, oldest
    first. *)
Definition snapshots (evs : list event) : list (DataFrame value) :=
  concat (omap (fun e => match e with EvSnapshot _ frames => Some frames | _ => None end)
               (rev evs)).

(** ** Frames of a run *)

(** [w'] comes after [w], and on the way no text file outside [texts] and no
    CSV file outside [csvs] was written. *)
Definition touches (texts csvs : list string) (w w' : world) : Prop :=
  clock w <= clock w'
  /\ (exists evs, trace w' = evs ++ trace w)
  /\ (forall path, ~ In path texts -> files w' !! path = files w !! path)
  /\ (forall path, ~ In path csvs -> tables w' !! path = tables w !! path).

(** The computation [m] stays within [R], however it ends. *)
Definition keeps {A : Type} (R : world -> world -> Prop) (m : M A) : Prop :=
  forall w, R w (snd (m w)).

(** A working directory whose input file has the column [col] of
    identifiers. *)
Definition ids_dir (col : list scalar) : world :=
  fresh ∅ {["missing_persons.csv" := Csv (mkDF (length col) [("wikidata_id", col)])]}.

(** ** Batches in memory and in the intermediate files *)

(** The frames [batches] are, in this order, what [process_results] makes
    of frames with records that [fetch] returned, one fetch after the other,
    between the request counters [c] and [c']; every query fetched
    satisfies [asked]. *)
Inductive fetched_in_turn (fetch : query -> M (option (DataFrame value)))
    (asked : query -> Prop) : nat -> list (DataFrame value) -> nat -> Prop :=
| fetched_none (c c' : nat) :
    c <= c' -> fetched_in_turn fetch asked c [] c'
| fetched_next (c c' : nat) (q : query) (w0 w1 : world) (df : DataFrame value)
    (rest : list (DataFrame value)) :
    c <= clock w0 ->
    asked q ->
    fetch q w0 = (Ok (Some df), w1) ->
    df_empty df = false ->
    cursor_fields (process_results df) <> None ->
    fetched_in_turn fetch asked (clock w1) rest c' ->
    fetched_in_turn fetch asked c (process_results df :: rest) c'.

(** Between [w] and [w'] the batch list went from [results] to [results']
    and the batch count from [count] to [count'], and no batch was lost or
    made up: the frames written to intermediate files on the way, followed
    by [results'], are [results] followed by the new batches, one for each
    batch counted, and these are [fetched] between the two worlds. *)
Definition accumulates (fetched : nat -> list (DataFrame value) -> nat -> Prop)
    (results : list (DataFrame value)) (count : nat) (w : world)
    (results' : list (DataFrame value)) (count' : nat) (w' : world) : Prop :=
  exists evs batches,
    trace w' = evs ++ trace w
    /\ snapshots evs ++ results' = results ++ batches
    /\ count' = count + length batches
    /\ fetched (clock w) batches (clock w').

(** A query of the scope that starts in one of [years], whatever the
    cursor. *)
Definition scope_query (dict_repr : list (string * value) -> string) (years : list Z)
    (q : query) : Prop :=
  exists start_year st,
    In start_year years
    /\ q = BatchLoop.page_query dict_repr start_year (start_year + 19) st.

(** A provider that answers every query with the same single record. *)
Definition net_one_record : nat -> request -> response (list binding) :=
  fun _ _ => Body [[("birthdate", envelope "1530-01-01T00:00:00Z");
                    ("person", envelope "Q0")]].

Definition one_record_batch : DataFrame value :=
  process_results (from_records [[("birthdate", envelope "1530-01-01T00:00:00Z");
                                  ("person", envelope "Q0")]]).

(** What the failed attempts [attempts] of [get_single_label], none of them
    the last one allowed, leave in the trace (newest first): for each, the
    courtesy delay, the request, the warning and the sleep. *)
Definition failed_label_attempts (entity_id : string) (attempts : list nat) : list event :=
  rev (concat (map (fun attempt =>
                      [EvSleep (1000 * BirthLabel.REQUEST_DELAY);
                       EvRequest (ReqEntities entity_id);
                       EvLog WARNING (MsgAttemptFailed (attempt + 1) entity_id);
                       EvSleep (1000 * 2 ^ Z.of_nat attempt)])
                   attempts)).

(** The sleeps of these attempts, oldest first. *)
Definition label_sleeps (attempts : list nat) : list Z :=
  concat (map (fun attempt => [1000 * BirthLabel.REQUEST_DELAY; 1000 * 2 ^ Z.of_nat attempt]%Z)
              attempts).

(** ** The enrichment *)

(** The six fields [enrich_data] adds to a row. *)
Definition enrichment_fields : list string :=
  ["occupation"; "date_of_death"; "german_total_views"; "german_description";
   "english_total_views"; "english_description"].

(** A row the loop of [enrich_data] can process: its person cell is a string
    and it has the two page columns. *)
Definition complete_row (row : list (string * scalar)) : Prop :=
  (exists person, dict_get "person" row = Some (SStr person))
  /\ is_Some (dict_get "GermanWikipedia" row)
  /\ is_Some (dict_get "EnglishWikipedia" row).

(** [df[col].iloc[idx]] for [idx] within the index, where the column is
    there. *)
Definition df_at (col : string) (idx : nat) (df : DataFrame scalar) : option scalar :=
  (fun s => default nan (s !! idx)) <$> df_getitem col df.

(** The rows a run of [enrich_data] starts from: those of the checkpoint
    file, where there is one. *)
Definition checkpoint_rows (checkpoint : option csv_file) : list (list (string * scalar)) :=
  match checkpoint with
  | Some (Csv checkpoint_df) => to_records checkpoint_df
  | _ => []
  end.

(** An input file of one complete row, and one whose person cell is
    empty; no checkpoint file. *)
Definition one_person : world :=
  fresh ∅ {["final_combined_results.csv" :=
              Csv (mkDF 1 [("person", [SStr "http://www.wikidata.org/entity/Q1"]);
                           ("GermanWikipedia", [SStr "https://de.wikipedia.org/wiki/A"]);
                           ("EnglishWikipedia", [SNaN])])]}.

Definition no_person : world :=
  fresh ∅ {["final_combined_results.csv" :=
              Csv (mkDF 1 [("person", [SNaN]);
                           ("GermanWikipedia", [SNaN]);
                           ("EnglishWikipedia", [SNaN])])]}.

(** ** The translation *)

(** The calls [apply_translate] has made before it comes to position [i]:
    one for each cell before it that is not null. *)
Definition calls_before (i : nat) (series : list scalar) : nat :=
  length (List.filter notna (take i series)).

(** ** Labels, for a provider that answers a request the same way whenever
    it is asked *)

(** What [get_single_label] then returns for an identifier whose request
    does not raise outside [RequestException]: the label in the answer,
    or [None] when there is none or the request fails. *)
Definition single_label (answer : request -> response (list (string * string)))
    (entity_id : string) : option string :=
  match answer (ReqEntities entity_id) with
  | Body labels => dict_get entity_id labels
  | Raises _ => None
  end.

(** The label of one identifier of a batch: the one of the batch answer, or
    else what the single request gives. *)
Definition expected_label (answer : request -> response (list (string * string)))
    (entity_ids : list string) (entity_id : string) : option string :=
  match answer (ReqEntities (String.concat "|" entity_ids)) with
  | Body labels =>
      match dict_get entity_id labels with
      | Some label => Some label
      | None => single_label answer entity_id
      end
  | Raises _ => single_label answer entity_id
  end.

(** A provider that knows one label, whatever it is asked. *)
Definition net_berlin : nat -> request -> response (list (string * string)) :=
  fun _ _ => Body [("Q64", "Berlin")].

(** ** The batches of a run of [fetch_data_for_ids] *)

(** The world in which nothing has happened but [c] requests. *)
Definition at_clock (c : nat) : world := mkWorld c ∅ ∅ [].

(** What the fetches for the identifiers [wikidata_ids], made one after the
    other from the request counter [c] on, yield as batches: for each fetch
    that returns a frame with records, that frame after [process_results].
    (What the provider answers depends on the counter and on the request
    only.) *)
Fixpoint fetched_batches (net : nat -> request -> response (list binding))
    (wikidata_ids : list string) (c : nat) : list (DataFrame value) :=
  match wikidata_ids with
  | [] => []
  | wikidata_id :: rest =>
      let r := query_wikidata net Missing.backoff Missing.MAX_RETRIES
                              (QPerson wikidata_id) (at_clock c) in
      match fst r with
      | Ok (Some df) =>
          (if df_empty df then [] else [process_results df])
            ++ fetched_batches net rest (clock (snd r))
      | Ok None => fetched_batches net rest (clock (snd r))
      | _ => []
      end
  end.

(** A provider that answers the query for a person with one record, which
    carries the identifier asked for. *)
Definition net_person : nat -> request -> response (list binding) :=
  fun _ r =>
    match r with
    | ReqSparql (QPerson wikidata_id) => Body [[("person", envelope wikidata_id)]]
    | _ => Body []
    end.

(** The batch this provider gives for an identifier. *)
Definition person_batch (wikidata_id : string) : DataFrame value :=
  process_results (from_records [[("person", envelope wikidata_id)]]).

(** The identifiers [Q1] to [Q51]. *)
Definition fifty_one_ids : list string :=
  map (fun i : nat => "Q" +:+ pretty i) (seq 1 51).



(** An input file of 101 complete rows, without pages; no checkpoint
    file. *)
Definition many_persons : world :=
  fresh ∅ {["final_combined_results.csv" :=
              Csv (mkDF 101
                     [("person",
                       map (fun i : nat =>
                              SStr ("http://www.wikidata.org/entity/Q" +:+ pretty i))
                           (seq 1 101));
                      ("GermanWikipedia", repeat SNaN 101);
                      ("EnglishWikipedia", repeat SNaN 101)])]}.

(** * Properties *)

Ltac munfold := unfold mbind, M_bind, mret, M_ret in *.

(** ** The normalizer *)

Lemma unwrap_raw_cell (x : value) : raw_cell x -> unwrap (unwrap x) = unwrap x.
Proof.
  destruct x as [a | d]; [reflexivity |].
  simpl. destruct (dict_get "value" d) as [[a | d'] |]; simpl; tauto.
Qed.

Lemma map_unwrap_raw (s : list value) :
  Forall raw_cell s -> map unwrap (map unwrap s) = map unwrap s.
Proof.
  induction 1 as [| x s Hx _ IH]; [reflexivity |].
  simpl. now rewrite IH, unwrap_raw_cell.
Qed.

(** C8. On a raw batch whose cells are plain scalars or envelopes around a
    scalar, normalizing twice gives exactly what normalizing once gives. *)
Theorem process_results_idempotent (df : DataFrame value) :
  raw_batch df -> process_results (process_results df) = process_results df.
Proof.
  unfold raw_batch, process_results. destruct df as [n cols]. simpl.
  intros H. f_equal. induction H as [| [c s] cols Hs _ IH]; [reflexivity |].
  simpl in *. now rewrite IH, map_unwrap_raw.
Qed.

Lemma process_results_idempotent_witness :
  raw_batch (from_records [[("person", VDict [("type", Atom (SStr "uri"));
                                              ("value", Atom (SStr "Q1"))])];
                           [("person", Atom (SStr "Q2"))]])
  /\ process_results (process_results
       (from_records [[("person", VDict [("type", Atom (SStr "uri"));
                                         ("value", Atom (SStr "Q1"))])];
                      [("person", Atom (SStr "Q2"))]]))
     = process_results
       (from_records [[("person", VDict [("type", Atom (SStr "uri"));
                                         ("value", Atom (SStr "Q1"))])];
                      [("person", Atom (SStr "Q2"))]]).
Proof.
  assert (H : raw_batch (from_records
            [[("person", VDict [("type", Atom (SStr "uri"));
                                ("value", Atom (SStr "Q1"))])];
             [("person", Atom (SStr "Q2"))]])).
  { repeat constructor. }
  split; [exact H | exact (process_results_idempotent _ H)].
Defined.

(** An envelope around an envelope is outside the raw batches: there the
    second pass unwraps once more. *)
Example process_results_nested :
  let df := mkDF 1 [("x", [VDict [("value", VDict [("value", Atom (SInt 1))])]])] in
  process_results (process_results df) <> process_results df.
Proof. discriminate. Qed.

(** ** The checkpoint store *)

Lemma lstrip_id (s : string) : begins_with_space s = false -> lstrip s = s.
Proof. destruct s as [| c s]; simpl; [reflexivity |]. now intros ->. Qed.

Lemma rstrip_id (s : string) : ends_with_space s = false -> rstrip s = s.
Proof.
  induction s as [| c s IH]; [reflexivity |].
  destruct s as [| c' s'].
  - simpl. now intros ->.
  - intros H. change (ends_with_space (String c' s') = false) in H.
    change (rstrip (String c (String c' s')))
      with (match rstrip (String c' s') with
            | EmptyString => if is_space c then EmptyString else String c EmptyString
            | r => String c r
            end).
    now rewrite (IH H).
Qed.

Lemma universal_newlines_id (s : string) :
  contains_char CR s = false -> universal_newlines s = s.
Proof.
  induction s as [| c s IH]; [reflexivity |].
  simpl. intros H. apply orb_false_elim in H as [Hc Hs].
  rewrite Hc. now rewrite (IH Hs).
Qed.

Lemma strip_clean (c : string) :
  contains_char CR c = false -> begins_with_space c = false ->
  ends_with_space c = false -> strip (universal_newlines c) = c.
Proof.
  intros Hcr Hb He. rewrite (universal_newlines_id _ Hcr).
  unfold strip. now rewrite (lstrip_id _ Hb), (rstrip_id _ He).
Qed.

Lemma bind_eq {A B : Type} (m : M A) (f : A -> M B) (w : world) :
  (m ≫= f) w = match m w with
               | (Ok a, w') => f a w'
               | (Raise e, w') => (Raise e, w')
               | (OutOfFuel, w') => (OutOfFuel, w')
               end.
Proof. reflexivity. Qed.

Lemma for_each_cons {A S : Type} (body : S -> A -> M S) (x : A) (xs : list A)
    (st : S) (w : world) :
  for_each body (x :: xs) st w =
  match body st x w with
  | (Ok st', w') => for_each body xs st' w'
  | (Raise e, w') => (Raise e, w')
  | (OutOfFuel, w') => (OutOfFuel, w')
  end.
Proof. reflexivity. Qed.

Lemma save_all_files (filename : string) (cursors : list string) (c : string)
    (w : world) :
  fst (save_all filename (cursors ++ [c]) w) = Ok tt /\
  files (snd (save_all filename (cursors ++ [c]) w)) = <[filename := Text c]> (files w).
Proof.
  unfold save_all. revert w. induction cursors as [| c0 cs IH]; intros w.
  - now split.
  - rewrite <- app_comm_cons, for_each_cons.
    unfold save_pointer at 1 3, write_text.
    destruct (IH (mkWorld (clock w) (<[filename := Text c0]> (files w))
                          (tables w) (trace w))) as [IH1 IH2].
    split; [exact IH1 |]. rewrite IH2. simpl. apply insert_insert_eq.
Qed.

Lemma read_pointer_text (filename content : string) (w : world) :
  files w !! filename = Some (Text content) ->
  read_pointer filename w = (Ok (Some (strip (universal_newlines content))), w).
Proof. intros H. unfold read_pointer, get_files. munfold. now rewrite H. Qed.

Lemma read_pointer_missing (filename : string) (w : world) :
  files w !! filename = None -> read_pointer filename w = (Ok None, w).
Proof. intros H. unfold read_pointer, get_files. munfold. now rewrite H. Qed.

Lemma read_pointer_unreadable (filename : string) (w : world) :
  files w !! filename = Some Unreadable ->
  read_pointer filename w = (Raise OSError, w).
Proof. intros H. unfold read_pointer, get_files. munfold. now rewrite H. Qed.

Lemma missing_load_text (filename content : string) (w : world) :
  files w !! filename = Some (Text content) ->
  Missing.load_pointer filename w = (Ok (Some (strip (universal_newlines content))), w).
Proof.
  intros H. unfold Missing.load_pointer, try_except.
  now rewrite (read_pointer_text _ _ _ H).
Qed.

Lemma missing_load_missing (filename : string) (w : world) :
  files w !! filename = None -> Missing.load_pointer filename w = (Ok None, w).
Proof.
  intros H. unfold Missing.load_pointer, try_except.
  now rewrite (read_pointer_missing _ _ H).
Qed.

Lemma missing_load_unreadable (filename : string) (w : world) :
  files w !! filename = Some Unreadable ->
  Missing.load_pointer filename w
  = (Ok None, traced (EvLog ERROR MsgPointerReadError) w).
Proof.
  intros H. unfold Missing.load_pointer, try_except.
  now rewrite (read_pointer_unreadable _ _ H).
Qed.

(** C4 (as amended).  After any sequence of saves, either [load_pointer]
    returns the last cursor saved as a text-mode read gives it back, with the
    white space at both ends stripped; that is the cursor itself when it holds
    no carriage return and neither begins nor ends with white space.  On a
    store without the file both return [None]. *)
Theorem load_after_saves (filename : string) (cursors : list string) (c : string)
    (w : world) :
  (let w' := snd (save_all filename (cursors ++ [c]) w) in
   fst (Missing.load_pointer filename w') = Ok (Some (strip (universal_newlines c)))
   /\ fst (BatchLoop.load_pointer filename w') = Ok (Some (strip (universal_newlines c))))
  /\ (contains_char CR c = false -> begins_with_space c = false ->
      ends_with_space c = false -> strip (universal_newlines c) = c)
  /\ (forall w0 : world, files w0 !! filename = None ->
      fst (Missing.load_pointer filename w0) = Ok None
      /\ fst (BatchLoop.load_pointer filename w0) = Ok None).
Proof.
  split; [| split].
  - destruct (save_all_files filename cursors c w) as [_ Hf].
    assert (H : files (snd (save_all filename (cursors ++ [c]) w)) !! filename
                = Some (Text c)).
    { rewrite Hf. apply lookup_insert_eq. }
    cbv zeta. unfold BatchLoop.load_pointer.
    now rewrite (missing_load_text _ _ _ H), (read_pointer_text _ _ _ H).
  - apply strip_clean.
  - intros w0 H. unfold BatchLoop.load_pointer.
    now rewrite (missing_load_missing _ _ H), (read_pointer_missing _ _ H).
Qed.

Lemma load_after_saves_witness :
  fst (Missing.load_pointer "id_pointer.txt"
         (snd (save_all "id_pointer.txt" (["Q1"; "Q7"] ++ ["Q42"]) empty_world)))
  = Ok (Some (strip (universal_newlines "Q42")))
  /\ strip (universal_newlines "Q42") = "Q42"
  /\ fst (BatchLoop.load_pointer "pointer.txt" empty_world) = Ok None.
Proof.
  destruct (load_after_saves "id_pointer.txt" ["Q1"; "Q7"] "Q42" empty_world)
    as [[H1 _] [H2 _]].
  destruct (load_after_saves "pointer.txt" [] "" empty_world) as [_ [_ H3]].
  split; [exact H1 | split].
  - apply H2; reflexivity.
  - apply (H3 empty_world). reflexivity.
Defined.

(** C4, the claim as stated fails: a cursor that ends with a blank is not
    what [load_pointer] returns after it was saved. *)
Lemma load_after_save_not_exact :
  fst (Missing.load_pointer "id_pointer.txt"
         (snd (save_all "id_pointer.txt" ["Q1"; "Q42 "] empty_world)))
  <> Ok (Some "Q42 ").
Proof. vm_compute. discriminate. Qed.

(** [load_pointer] of [missing.py] never raises: a missing or unreadable
    file gives [None]. *)
Lemma missing_load_pointer_total (filename : string) (w : world) :
  exists (p : option string) (w' : world),
    Missing.load_pointer filename w = (Ok p, w')
    /\ (files w !! filename = None \/ files w !! filename = Some Unreadable -> p = None).
Proof.
  destruct (files w !! filename) as [[content |] |] eqn:E.
  - eexists _, _. split; [apply (missing_load_text _ _ _ E) |].
    intros [H | H]; discriminate.
  - eexists _, _. split; [apply (missing_load_unreadable _ _ E) | reflexivity].
  - eexists _, _. split; [apply (missing_load_missing _ _ E) | reflexivity].
Qed.

(** C5.  [load_pointer] of [wiki_birth.py] (and of [wiki_german_de.py]) on a
    pointer file that exists and cannot be read: the exception reaches the
    caller, and [fetch_data] ends with it before its first request, where
    [load_pointer] of [missing.py] returns [None]. *)
Theorem wiki_birth_load_pointer_unreadable :
  fst (WikiBirth.load_pointer "pointer.txt" unreadable_pointer) = Raise OSError
  /\ WikiBirth.fetch_data net_empty plain_repr 1 unreadable_pointer
     = (Raise OSError, unreadable_pointer)
  /\ fst (Missing.load_pointer "pointer.txt" unreadable_pointer) = Ok None.
Proof. vm_compute. repeat split. Qed.

(** ** The fetcher *)

Section FetcherFacts.
Variable net : nat -> request -> response (list binding).
Variable backoff : nat -> Z.
Variable max_retries : nat.

Lemma query_attempts_cons (attempt : nat) (rest : list nat) (q : query) (w : world) :
  query_attempts net backoff max_retries (attempt :: rest) q w =
  match net (clock w) (ReqSparql q) with
  | Body [] => (Ok (Some empty_frame), sent (ReqSparql q) w)
  | Body (r :: rs) => (Ok (Some (from_records (r :: rs))), sent (ReqSparql q) w)
  | Raises RequestException =>
      query_attempts net backoff max_retries rest q
        (traced (EvSleep (1000 * backoff attempt))
           (traced (EvLog ERROR (MsgRequestError (attempt + 1) max_retries))
              (sent (ReqSparql q) w)))
  | Raises e => (Raise e, sent (ReqSparql q) w)
  end.
Proof.
  simpl. rewrite bind_eq. unfold send. fold (sent (ReqSparql q) w).
  destruct (net (clock w) (ReqSparql q)) as [[] | [| r rs]]; reflexivity.
Qed.

(** [query_wikidata] writes no file, whatever it returns. *)
Lemma query_attempts_files (attempts : list nat) (q : query) (w : world) :
  files (snd (query_attempts net backoff max_retries attempts q w)) = files w
  /\ tables (snd (query_attempts net backoff max_retries attempts q w)) = tables w.
Proof.
  revert w. induction attempts as [| a rest IH]; intros w; [now split |].
  rewrite query_attempts_cons.
  destruct (net (clock w) (ReqSparql q)) as [[] | [| r rs]]; try (now split).
  destruct (IH (traced (EvSleep (1000 * backoff a))
                  (traced (EvLog ERROR (MsgRequestError (a + 1) max_retries))
                     (sent (ReqSparql q) w)))) as [IH1 IH2].
  now rewrite IH1, IH2.
Qed.

Lemma query_attempts_down (attempts : list nat) (q : query) (w : world) :
  (forall i, i < length attempts ->
             net (clock w + i) (ReqSparql q) = Raises RequestException) ->
  exists w', query_attempts net backoff max_retries attempts q w = (Ok None, w')
             /\ clock w' = clock w + length attempts.
Proof.
  revert w. induction attempts as [| a rest IH]; intros w H.
  - eexists. split; [reflexivity |]. simpl. lia.
  - rewrite query_attempts_cons.
    generalize (H 0 ltac:(simpl; lia)). rewrite Nat.add_0_r. intros ->.
    edestruct IH as [w' [E Hc]]; [| exists w'; split; [exact E |]].
    + intros i Hi. simpl. rewrite <- Nat.add_succ_r. apply H. simpl. lia.
    + rewrite Hc. simpl. lia.
Qed.

Lemma query_attempts_none (attempts : list nat) (q : query) (w : world) :
  fst (query_attempts net backoff max_retries attempts q w) = Ok None ->
  forall i, i < length attempts ->
            net (clock w + i) (ReqSparql q) = Raises RequestException.
Proof.
  revert w. induction attempts as [| a rest IH]; intros w H i Hi;
    [simpl in Hi; lia |].
  rewrite query_attempts_cons in H.
  destruct (net (clock w) (ReqSparql q)) as [e | rs] eqn:E.
  - destruct e; try discriminate H.
    destruct i as [| i]; [now rewrite Nat.add_0_r |].
    specialize (IH _ H i ltac:(simpl in Hi; lia)). simpl in IH.
    now rewrite Nat.add_succ_r.
  - destruct rs; discriminate H.
Qed.

Lemma query_attempts_empty (attempts : list nat) (q : query) (w : world) (j : nat) :
  j < length attempts ->
  (forall i, i < j -> net (clock w + i) (ReqSparql q) = Raises RequestException) ->
  net (clock w + j) (ReqSparql q) = Body [] ->
  fst (query_attempts net backoff max_retries attempts q w) = Ok (Some empty_frame).
Proof.
  revert w j. induction attempts as [| a rest IH]; intros w j Hj Hdown Hbody;
    [simpl in Hj; lia |].
  rewrite query_attempts_cons. destruct j as [| j].
  - rewrite Nat.add_0_r in Hbody. now rewrite Hbody.
  - generalize (Hdown 0 ltac:(lia)). rewrite Nat.add_0_r. intros ->.
    apply (IH _ j); [simpl in Hj; lia | |].
    + intros i Hi. simpl. rewrite <- Nat.add_succ_r. apply Hdown. lia.
    + simpl. now rewrite <- Nat.add_succ_r.
Qed.
End FetcherFacts.

Section LabelFacts.
Variable net : nat -> request -> response (list (string * string)).

Lemma single_attempts_cons (attempt : nat) (rest : list nat) (retries : nat)
    (entity_id : string) (w : world) :
  BirthLabel.single_attempts net (attempt :: rest) retries entity_id w =
  let w1 := sent (ReqEntities entity_id)
                 (traced (EvSleep (1000 * BirthLabel.REQUEST_DELAY)) w) in
  match net (clock w) (ReqEntities entity_id) with
  | Body labels => (Ok (dict_get entity_id labels), w1)
  | Raises RequestException =>
      let w2 := traced (EvLog WARNING (MsgAttemptFailed (attempt + 1) entity_id)) w1 in
      if attempt =? retries - 1
      then (Ok None, traced (EvLog ERROR (MsgGaveUp entity_id retries)) w2)
      else BirthLabel.single_attempts net rest retries entity_id
             (traced (EvSleep (1000 * 2 ^ Z.of_nat attempt)) w2)
  | Raises e => (Raise e, w1)
  end.
Proof.
  cbn [BirthLabel.single_attempts]. unfold sleep, log, emit, send, sent, traced.
  munfold. cbn [clock files tables trace].
  destruct (net (clock w) (ReqEntities entity_id)) as [[] | labels]; try reflexivity.
  destruct (attempt =? retries - 1); reflexivity.
Qed.

Lemma single_attempts_down (attempts : list nat) (retries : nat)
    (entity_id : string) (w : world) :
  (forall i, i < length attempts ->
             net (clock w + i) (ReqEntities entity_id) = Raises RequestException) ->
  fst (BirthLabel.single_attempts net attempts retries entity_id w) = Ok None.
Proof.
  revert w. induction attempts as [| a rest IH]; intros w H; [reflexivity |].
  rewrite single_attempts_cons. cbv zeta.
  generalize (H 0 ltac:(simpl; lia)). rewrite Nat.add_0_r. intros ->.
  destruct (a =? retries - 1); [reflexivity |].
  apply IH. intros i Hi. simpl. rewrite <- Nat.add_succ_r. apply H. simpl. lia.
Qed.

Lemma single_attempts_no_label (attempt : nat) (rest : list nat) (retries : nat)
    (entity_id : string) (w : world) (labels : list (string * string)) :
  net (clock w) (ReqEntities entity_id) = Body labels ->
  fst (BirthLabel.single_attempts net (attempt :: rest) retries entity_id w)
  = Ok (dict_get entity_id labels).
Proof. intros H. rewrite single_attempts_cons. cbv zeta. now rewrite H. Qed.
End LabelFacts.

(** C1 (as amended).  [query_wikidata] returns [None] exactly when every one
    of its [max_retries] attempts was a transport failure, and the empty frame
    when the provider answers with zero records; [None] is never a frame.
    [get_single_label] returns [None] after its retries are exhausted and
    also when the answer holds no English label for the entity. *)
Theorem failed_and_empty_results :
  (forall net backoff max_retries q w,
      fst (query_wikidata net backoff max_retries q w) = Ok None
      <-> (forall i, i < max_retries ->
                     net (clock w + i) (ReqSparql q) = Raises RequestException))
  /\ (forall net backoff max_retries q w j,
         j < max_retries ->
         (forall i, i < j -> net (clock w + i) (ReqSparql q) = Raises RequestException) ->
         net (clock w + j) (ReqSparql q) = Body [] ->
         fst (query_wikidata net backoff max_retries q w) = Ok (Some empty_frame))
  /\ (forall net entity_id retries w,
         (forall i, i < retries ->
                    net (clock w + i) (ReqEntities entity_id) = Raises RequestException) ->
         fst (BirthLabel.get_single_label net entity_id retries w) = Ok None)
  /\ (forall net entity_id retries w labels,
         0 < retries ->
         net (clock w) (ReqEntities entity_id) = Body labels ->
         dict_get entity_id labels = None ->
         fst (BirthLabel.get_single_label net entity_id retries w) = Ok None).
Proof.
  split; [| split; [| split]].
  - intros net backoff max_retries q w. unfold query_wikidata. split.
    + intros H i Hi.
      apply (query_attempts_none _ _ _ _ _ _ H). now rewrite length_seq.
    + intros H.
      destruct (query_attempts_down net backoff max_retries (seq 0 max_retries) q w)
        as [w' [E _]]; [| now rewrite E].
      intros i Hi. apply H. now rewrite length_seq in Hi.
  - intros net backoff max_retries q w j Hj Hdown Hbody. unfold query_wikidata.
    apply (query_attempts_empty _ _ _ _ _ _ j); [now rewrite length_seq | done | done].
  - intros net entity_id retries w H. unfold BirthLabel.get_single_label.
    apply single_attempts_down. intros i Hi. apply H. now rewrite length_seq in Hi.
  - intros net entity_id retries w labels Hr Hb Hn.
    unfold BirthLabel.get_single_label. destruct retries as [| n]; [lia |].
    simpl seq. rewrite (single_attempts_no_label _ _ _ _ _ _ _ Hb). now rewrite Hn.
Qed.

Lemma failed_and_empty_results_witness :
  fst (query_wikidata net_down Missing.backoff Missing.MAX_RETRIES
                      (QPerson "Q1") empty_world) = Ok None
  /\ fst (query_wikidata net_empty Missing.backoff Missing.MAX_RETRIES
                         (QPerson "Q1") empty_world) = Ok (Some empty_frame)
  /\ fst (BirthLabel.get_single_label net_down "Q1" BirthLabel.MAX_RETRIES empty_world)
     = Ok None
  /\ fst (BirthLabel.get_single_label net_empty "Q1" BirthLabel.MAX_RETRIES empty_world)
     = Ok None.
Proof.
  destruct failed_and_empty_results as (H1 & H2 & H3 & H4).
  split; [| split; [| split]].
  - apply H1. intros i _. reflexivity.
  - apply (H2 _ _ _ _ _ 0); [unfold Missing.MAX_RETRIES; lia | intros i Hi; lia |].
    reflexivity.
  - apply H3. intros i _. reflexivity.
  - apply (H4 _ _ _ _ []); [unfold BirthLabel.MAX_RETRIES; lia | reflexivity |].
    reflexivity.
Defined.

(** C1, the claim as stated fails for [get_single_label]: the result after
    five failed attempts is the result for an entity without a label. *)
Lemma get_single_label_conflates :
  fst (BirthLabel.get_single_label net_down "Q1" BirthLabel.MAX_RETRIES empty_world)
  = fst (BirthLabel.get_single_label net_empty "Q1" BirthLabel.MAX_RETRIES empty_world).
Proof. vm_compute. reflexivity. Qed.

(** ** The batch loop of [wiki_birth.py] and [wiki_german_de.py] *)

Section BatchLoopFacts.
Variable net : nat -> request -> response (list binding).
Variable dict_repr : list (string * value) -> string.
Variable validate : bool.

Local Abbreviation py_str := (BatchLoop.py_str dict_repr).
Local Abbreviation page := (BatchLoop.page net dict_repr validate).
Local Abbreviation while_true := (BatchLoop.while_true net dict_repr validate).
Local Abbreviation for_years := (BatchLoop.for_years net dict_repr validate).
Local Abbreviation fetch := (query_wikidata net BatchLoop.backoff BatchLoop.MAX_RETRIES).

Lemma extract_pointer_none (batch : DataFrame value) (w : world) :
  cursor_fields batch = None ->
  exists e, BatchLoop.extract_pointer dict_repr validate batch w = (Raise e, w).
Proof.
  unfold cursor_fields, BatchLoop.extract_pointer, BatchLoop.last_of. munfold.
  destruct (df_getitem "birthdate" batch) as [bs |]; [| eexists; reflexivity].
  destruct (iloc_last bs) as [lb |]; [| eexists; reflexivity].
  destruct (df_getitem "person" batch) as [ps |]; [| eexists; reflexivity].
  destruct (iloc_last ps) as [lp |]; [discriminate | eexists; reflexivity].
Qed.

Lemma extract_pointer_some (batch : DataFrame value) (w : world) (lb lp : value) :
  cursor_fields batch = Some (lb, lp) ->
  BatchLoop.extract_pointer dict_repr validate batch w =
  (Ok (lb, lp),
   if negb validate || (notna lb && notna lp)
   then saved BatchLoop.POINTER_FILE (py_str lb +:+ "|" +:+ py_str lp) w
   else traced (EvLog WARNING MsgMissingCursor) w).
Proof.
  unfold cursor_fields, BatchLoop.extract_pointer, BatchLoop.last_of. munfold.
  destruct (df_getitem "birthdate" batch) as [bs |]; [| discriminate].
  destruct (iloc_last bs) as [lb' |]; [| discriminate].
  destruct (df_getitem "person" batch) as [ps |]; [| discriminate].
  destruct (iloc_last ps) as [lp' |]; [| discriminate].
  intros [= -> ->].
  destruct (negb validate || (notna lb && notna lp)); reflexivity.
Qed.

(** A terminal fetch failure: the function returns. *)
Lemma page_failed (start_year end_year : Z) (st : BatchLoop.locals) (w w1 : world) :
  fetch (BatchLoop.page_query dict_repr start_year end_year st) w = (Ok None, w1) ->
  page start_year end_year st w
  = (Ok (Return, st), traced (EvLog ERROR MsgTooManyFailures) w1).
Proof. intros H. unfold BatchLoop.page. rewrite bind_eq, H. reflexivity. Qed.

(** An empty batch: the scope ends there. *)
Lemma page_empty (start_year end_year : Z) (st : BatchLoop.locals) (w w1 : world)
    (df : DataFrame value) :
  fetch (BatchLoop.page_query dict_repr start_year end_year st) w = (Ok (Some df), w1) ->
  df_empty df = true ->
  page start_year end_year st w = (Ok (Break, st), w1).
Proof. intros H E. unfold BatchLoop.page. rewrite bind_eq, H, E. reflexivity. Qed.

(** A batch from which the cursor fields cannot be read. *)
Lemma page_unreadable (start_year end_year : Z) (st : BatchLoop.locals) (w w1 : world)
    (df : DataFrame value) :
  fetch (BatchLoop.page_query dict_repr start_year end_year st) w = (Ok (Some df), w1) ->
  df_empty df = false ->
  cursor_fields (process_results df) = None ->
  page start_year end_year st w
  = (Ok (Break, st), traced (EvLog ERROR MsgPointerExtract) w1).
Proof.
  intros H E C. unfold BatchLoop.page. rewrite bind_eq, H, E. cbv zeta.
  rewrite bind_eq. unfold try_except at 1. rewrite bind_eq.
  destruct (extract_pointer_none _ w1 C) as [e ->]. reflexivity.
Qed.

(** A batch whose cursor fields can be read: what one turn does. *)
Lemma page_processed (start_year end_year : Z) (st : BatchLoop.locals) (w w1 : world)
    (df : DataFrame value) (lb lp : value) :
  fetch (BatchLoop.page_query dict_repr start_year end_year st) w = (Ok (Some df), w1) ->
  df_empty df = false ->
  cursor_fields (process_results df) = Some (lb, lp) ->
  let w2 := if negb validate || (notna lb && notna lp)
            then saved BatchLoop.POINTER_FILE (py_str lb +:+ "|" +:+ py_str lp) w1
            else traced (EvLog WARNING MsgMissingCursor) w1 in
  let results := BatchLoop.all_results st ++ [process_results df] in
  let count := BatchLoop.batch_count st + 1 in
  let flush := count mod BatchLoop.SAVE_EVERY_N_BATCHES =? 0 in
  page start_year end_year st w
  = (Ok (if df_len df <? BatchLoop.BATCH_SIZE then Break else Next,
         BatchLoop.mkLocals (if flush then [] else results) count lb lp),
     if flush then traced (EvSnapshot "intermediate_results" results) w2 else w2).
Proof.
  intros H E C. unfold BatchLoop.page. rewrite bind_eq, H, E. cbv zeta.
  rewrite bind_eq. unfold try_except at 1. rewrite bind_eq.
  rewrite (extract_pointer_some _ w1 _ _ C). munfold.
  change (df_len (process_results df)) with (df_len df).
  destruct (_ mod _ =? 0); destruct (df_len df <? BatchLoop.BATCH_SIZE); reflexivity.
Qed.
End BatchLoopFacts.

Lemma while_true_succ net dict_repr validate (fuel : nat) (start_year end_year : Z)
    (st : BatchLoop.locals) (w : world) :
  BatchLoop.while_true net dict_repr validate (S fuel) start_year end_year st w =
  match BatchLoop.page net dict_repr validate start_year end_year st w with
  | (Ok (Next, st'), w') =>
      BatchLoop.while_true net dict_repr validate fuel start_year end_year st' w'
  | (Ok (c, st'), w') => (Ok (c, st'), w')
  | (Raise e, w') => (Raise e, w')
  | (OutOfFuel, w') => (OutOfFuel, w')
  end.
Proof.
  cbn [BatchLoop.while_true]. rewrite bind_eq.
  destruct (BatchLoop.page _ _ _ _ _ _ _) as [[[[] st'] | e |] w']; reflexivity.
Qed.

(** C6 (as amended).  In the batch loop an empty batch ends the scope and
    leaves the locals, the files and the trace as the fetch left them.  A
    batch that is not empty and shorter than the page size ends the scope
    with this turn.  When its cursor fields can be read it has been
    processed by then: the pointer is saved if the save applies (the warning
    is logged if not), the batch is appended and counted, and at every
    twentieth batch all the batches in memory go to an intermediate file and
    the list in memory is emptied.  When a cursor column cannot be read the
    batch is dropped: the error is logged and the locals and the files are
    as they were.  The fetch itself changes no file. *)
Theorem short_or_empty_batch_ends_scope net dict_repr validate
    (start_year end_year : Z) (st : BatchLoop.locals) (w w1 : world)
    (df : DataFrame value) (fuel : nat) :
  query_wikidata net BatchLoop.backoff BatchLoop.MAX_RETRIES
    (BatchLoop.page_query dict_repr start_year end_year st) w = (Ok (Some df), w1) ->
  (files w1 = files w /\ tables w1 = tables w)
  /\ (df_empty df = true ->
      BatchLoop.while_true net dict_repr validate (S fuel) start_year end_year st w
      = (Ok (Break, st), w1))
  /\ (df_empty df = false -> df_len df < BatchLoop.BATCH_SIZE ->
      (forall lb lp,
          cursor_fields (process_results df) = Some (lb, lp) ->
          let w2 := if negb validate || (notna lb && notna lp)
                    then saved BatchLoop.POINTER_FILE
                               (BatchLoop.py_str dict_repr lb +:+ "|"
                                +:+ BatchLoop.py_str dict_repr lp) w1
                    else traced (EvLog WARNING MsgMissingCursor) w1 in
          let results := BatchLoop.all_results st ++ [process_results df] in
          let count := BatchLoop.batch_count st + 1 in
          let flush := count mod BatchLoop.SAVE_EVERY_N_BATCHES =? 0 in
          BatchLoop.while_true net dict_repr validate (S fuel) start_year end_year st w
          = (Ok (Break, BatchLoop.mkLocals (if flush then [] else results) count lb lp),
             if flush then traced (EvSnapshot "intermediate_results" results) w2 else w2))
      /\ (cursor_fields (process_results df) = None ->
          BatchLoop.while_true net dict_repr validate (S fuel) start_year end_year st w
          = (Ok (Break, st), traced (EvLog ERROR MsgPointerExtract) w1))).
Proof.
  intros H. split; [| split].
  - unfold query_wikidata in H.
    generalize (query_attempts_files net BatchLoop.backoff BatchLoop.MAX_RETRIES
                  (seq 0 BatchLoop.MAX_RETRIES)
                  (BatchLoop.page_query dict_repr start_year end_year st) w).
    now rewrite H.
  - intros E. rewrite while_true_succ. now rewrite (page_empty _ _ _ _ _ _ _ _ _ H E).
  - intros E Hlen. apply Nat.ltb_lt in Hlen. split.
    + intros lb lp C. rewrite while_true_succ.
      rewrite (page_processed _ _ _ _ _ _ _ _ _ _ _ H E C). cbv zeta.
      now rewrite Hlen.
    + intros C. rewrite while_true_succ.
      now rewrite (page_unreadable _ _ _ _ _ _ _ _ _ H E C).
Qed.

Lemma short_or_empty_batch_ends_scope_witness :
  let record := [("birthdate", envelope "1530-01-01T00:00:00Z"); ("person", envelope "Q0")] in
  let before := repeat (process_results (from_records [record])) 19 in
  let st19 := BatchLoop.mkLocals before 19 (Atom SNone) (Atom SNone) in
  let w1 := sent (ReqSparql (QYears 1525 1544 None)) empty_world in
  BatchLoop.while_true net_empty plain_repr true 1 1525 1544 start_locals empty_world
  = (Ok (Break, start_locals), w1)
  /\ BatchLoop.while_true (fun _ _ => Body [record]) plain_repr true 1 1525 1544 st19
                          empty_world
     = (Ok (Break, BatchLoop.mkLocals [] 20 (Atom (SStr "1530-01-01T00:00:00Z"))
                                      (Atom (SStr "Q0"))),
        traced (EvSnapshot "intermediate_results"
                           (before ++ [process_results (from_records [record])]))
               (saved BatchLoop.POINTER_FILE "1530-01-01T00:00:00Z|Q0" w1))
  /\ BatchLoop.while_true (fun _ _ => Body [[("person", envelope "Q0")]]) plain_repr true
                          1 1525 1544 start_locals empty_world
     = (Ok (Break, start_locals), traced (EvLog ERROR MsgPointerExtract) w1).
Proof.
  intros record before st19 w1. split; [| split].
  - refine (proj1 (proj2 (short_or_empty_batch_ends_scope net_empty plain_repr true
                            1525 1544 start_locals empty_world w1 empty_frame 0 _)) _);
      reflexivity.
  - refine (proj1 (proj2 (proj2 (short_or_empty_batch_ends_scope
                                   (fun _ _ => Body [record]) plain_repr true
                                   1525 1544 st19 empty_world w1
                                   (from_records [record]) 0 _)) _ _)
                  (Atom (SStr "1530-01-01T00:00:00Z")) (Atom (SStr "Q0")) _);
      [reflexivity | reflexivity | unfold BatchLoop.BATCH_SIZE; simpl; lia | reflexivity].
  - refine (proj2 (proj2 (proj2 (short_or_empty_batch_ends_scope
                                   (fun _ _ => Body [[("person", envelope "Q0")]])
                                   plain_repr true 1525 1544 start_locals empty_world w1
                                   (from_records [[("person", envelope "Q0")]]) 0 _)) _ _)
                  _);
      [reflexivity | reflexivity | unfold BatchLoop.BATCH_SIZE; simpl; lia | reflexivity].
Defined.

(** C6, the claim as stated fails: a batch of one record that has no
    [birthdate] ends the scope, and nothing of it is processed: no batch is
    accumulated or counted and no pointer is saved. *)
Lemma short_batch_without_cursor_is_dropped :
  exists st' w',
    BatchLoop.while_true (fun _ _ => Body [[("person", envelope "Q0")]]) plain_repr true
                         1 1525 1544 start_locals empty_world
    = (Ok (Break, st'), w')
    /\ BatchLoop.all_results st' = [] /\ BatchLoop.batch_count st' = 0
    /\ files w' !! BatchLoop.POINTER_FILE = None.
Proof. eexists _, _. split; [vm_compute; reflexivity | repeat split]. Qed.

(** C3 (as amended).  After a batch that is not empty: when a cursor column
    cannot be read from it, the turn logs the error and ends the scope, with
    locals and files as they were.  When both columns are there and a cursor
    field of the last record is null, [wiki_birth.py] logs a warning, leaves
    the pointer file as it is and goes on with the batch: the batch is
    appended to the batches in memory and counted, the cursor locals become
    the two fields, at every twentieth batch the batches in memory go to an
    intermediate file, and the scope ends with this turn only if the batch is
    shorter than the page size.  [wiki_german_de.py] does the same, except
    that it saves the pointer whatever the fields are and logs no
    warning. *)
Theorem cursor_fields_of_last_record net dict_repr
    (start_year end_year : Z) (st : BatchLoop.locals) (w w1 : world)
    (df : DataFrame value) :
  df_empty df = false ->
  (forall validate,
      query_wikidata net BatchLoop.backoff BatchLoop.MAX_RETRIES
        (BatchLoop.page_query dict_repr start_year end_year st) w = (Ok (Some df), w1) ->
      cursor_fields (process_results df) = None ->
      BatchLoop.page net dict_repr validate start_year end_year st w
      = (Ok (Break, st), traced (EvLog ERROR MsgPointerExtract) w1))
  /\ (forall lb lp,
         query_wikidata net BatchLoop.backoff BatchLoop.MAX_RETRIES
           (BatchLoop.page_query dict_repr start_year end_year st) w = (Ok (Some df), w1) ->
         cursor_fields (process_results df) = Some (lb, lp) ->
         notna lb && notna lp = false ->
         let w2 := traced (EvLog WARNING MsgMissingCursor) w1 in
         let results := BatchLoop.all_results st ++ [process_results df] in
         let count := BatchLoop.batch_count st + 1 in
         let flush := count mod BatchLoop.SAVE_EVERY_N_BATCHES =? 0 in
         BatchLoop.page net dict_repr true start_year end_year st w
         = (Ok (if df_len df <? BatchLoop.BATCH_SIZE then Break else Next,
                BatchLoop.mkLocals (if flush then [] else results) count lb lp),
            if flush then traced (EvSnapshot "intermediate_results" results) w2 else w2)
         /\ files w2 = files w1)
  /\ (forall lb lp,
         query_wikidata net BatchLoop.backoff BatchLoop.MAX_RETRIES
           (BatchLoop.page_query dict_repr start_year end_year st) w = (Ok (Some df), w1) ->
         cursor_fields (process_results df) = Some (lb, lp) ->
         let w2 := saved BatchLoop.POINTER_FILE
                         (BatchLoop.py_str dict_repr lb +:+ "|"
                          +:+ BatchLoop.py_str dict_repr lp) w1 in
         let results := BatchLoop.all_results st ++ [process_results df] in
         let count := BatchLoop.batch_count st + 1 in
         let flush := count mod BatchLoop.SAVE_EVERY_N_BATCHES =? 0 in
         BatchLoop.page net dict_repr false start_year end_year st w
         = (Ok (if df_len df <? BatchLoop.BATCH_SIZE then Break else Next,
                BatchLoop.mkLocals (if flush then [] else results) count lb lp),
            if flush then traced (EvSnapshot "intermediate_results" results) w2 else w2)).
Proof.
  intros E. split; [| split].
  - intros validate H C. exact (page_unreadable _ _ _ _ _ _ _ _ _ H E C).
  - intros lb lp H C Hna. cbv zeta. split; [| reflexivity].
    rewrite (page_processed _ _ _ _ _ _ _ _ _ _ _ H E C). cbv zeta.
    now rewrite Hna.
  - intros lb lp H C. cbv zeta.
    now rewrite (page_processed _ _ _ _ _ _ _ _ _ _ _ H E C).
Qed.

Lemma cursor_fields_of_last_record_witness :
  let null_cursor := [("birthdate", Atom SNone); ("person", envelope "Q0")] in
  let w1 := sent (ReqSparql (QYears 1525 1544 None)) empty_world in
  let before := repeat (process_results (from_records [null_cursor])) 19 in
  let st19 := BatchLoop.mkLocals before 19 (Atom SNone) (Atom SNone) in
  BatchLoop.page (net_recovering 0 [[("person", envelope "Q0")]]) plain_repr true
                 1525 1544 start_locals empty_world
  = (Ok (Break, start_locals), traced (EvLog ERROR MsgPointerExtract) w1)
  /\ BatchLoop.page (net_recovering 0 [null_cursor]) plain_repr true
                    1525 1544 start_locals empty_world
     = (Ok (Break, BatchLoop.mkLocals [process_results (from_records [null_cursor])] 1
                                      (Atom SNone) (Atom (SStr "Q0"))),
        traced (EvLog WARNING MsgMissingCursor) w1)
  /\ BatchLoop.page (net_recovering 0 [null_cursor]) plain_repr false
                    1525 1544 start_locals empty_world
     = (Ok (Break, BatchLoop.mkLocals [process_results (from_records [null_cursor])] 1
                                      (Atom SNone) (Atom (SStr "Q0"))),
        saved BatchLoop.POINTER_FILE "None|Q0" w1)
  /\ BatchLoop.page (net_recovering 0 [null_cursor]) plain_repr true
                    1525 1544 st19 empty_world
     = (Ok (Break, BatchLoop.mkLocals [] 20 (Atom SNone) (Atom (SStr "Q0"))),
        traced (EvSnapshot "intermediate_results"
                           (before ++ [process_results (from_records [null_cursor])]))
               (traced (EvLog WARNING MsgMissingCursor) w1)).
Proof.
  intros null_cursor w1 before st19. split; [| split; [| split]].
  - exact (proj1 (cursor_fields_of_last_record
                    (net_recovering 0 [[("person", envelope "Q0")]]) plain_repr
                    1525 1544 start_locals empty_world w1
                    (from_records [[("person", envelope "Q0")]]) eq_refl)
                 true eq_refl eq_refl).
  - exact (proj1 (proj1 (proj2 (cursor_fields_of_last_record
                                  (net_recovering 0 [null_cursor]) plain_repr
                                  1525 1544 start_locals empty_world w1
                                  (from_records [null_cursor]) eq_refl))
                        (Atom SNone) (Atom (SStr "Q0")) eq_refl eq_refl eq_refl)).
  - exact (proj2 (proj2 (cursor_fields_of_last_record
                           (net_recovering 0 [null_cursor]) plain_repr
                           1525 1544 start_locals empty_world w1
                           (from_records [null_cursor]) eq_refl))
                 (Atom SNone) (Atom (SStr "Q0")) eq_refl eq_refl).
  - exact (proj1 (proj1 (proj2 (cursor_fields_of_last_record
                                  (net_recovering 0 [null_cursor]) plain_repr
                                  1525 1544 st19 empty_world w1
                                  (from_records [null_cursor]) eq_refl))
                        (Atom SNone) (Atom (SStr "Q0")) eq_refl eq_refl eq_refl)).
Defined.

(** C3, the claim as stated fails in [wiki_birth.py]: after a full page whose
    last record has no birthdate the turn does not end the scope. *)
Lemma null_cursor_does_not_end_scope :
  exists st' w',
    BatchLoop.page (fun _ _ => Body page_without_birthdate) plain_repr true
                   1525 1544 start_locals empty_world
    = (Ok (Next, st'), w')
    /\ BatchLoop.last_birthdate st' = Atom SNaN.
Proof. eexists _, _. split; vm_compute; reflexivity. Qed.

(** With a provider that keeps answering that page, the scope of
    [wiki_birth.py] never ends: no amount of fuel suffices. *)
Lemma null_cursor_loops_forever (fuel : nat) (st : BatchLoop.locals) (w : world) :
  fst (BatchLoop.while_true (fun _ _ => Body page_without_birthdate) plain_repr true
                            fuel 1525 1544 st w) = OutOfFuel.
Proof.
  revert st w. induction fuel as [| fuel IH]; intros st w; [reflexivity |].
  rewrite while_true_succ.
  assert (H : query_wikidata (fun _ _ => Body page_without_birthdate)
                BatchLoop.backoff BatchLoop.MAX_RETRIES
                (BatchLoop.page_query plain_repr 1525 1544 st) w
              = (Ok (Some (from_records page_without_birthdate)),
                 sent (ReqSparql (BatchLoop.page_query plain_repr 1525 1544 st)) w))
    by reflexivity.
  assert (E : df_empty (from_records page_without_birthdate) = false)
    by (vm_compute; reflexivity).
  assert (C : cursor_fields (process_results (from_records page_without_birthdate))
              = Some (Atom SNaN, Atom (SStr "Q499")))
    by (vm_compute; reflexivity).
  rewrite (page_processed _ _ true _ _ _ _ _ _ _ _ H E C). cbv zeta.
  replace (df_len (from_records page_without_birthdate) <? BatchLoop.BATCH_SIZE)
    with false by (vm_compute; reflexivity).
  apply IH.
Qed.

(** ** Terminal fetch failure *)





(** ** Termination *)

Create HintDb termination.

Lemma terminates_ret {A : Type} (a : A) : terminates (mret a).
Proof. intros w. discriminate. Qed.

Lemma terminates_raise {A : Type} (e : exn) : terminates (@raise A e).
Proof. intros w. discriminate. Qed.

Lemma terminates_bind {A B : Type} (m : M A) (f : A -> M B) :
  terminates m -> (forall a, terminates (f a)) -> terminates (m ≫= f).
Proof.
  intros Hm Hf w. rewrite bind_eq. specialize (Hm w).
  destruct (m w) as [[a | e |] w']; [apply Hf | discriminate | contradiction].
Qed.

Lemma terminates_try {A : Type} (body : M A) (handler : exn -> M A) :
  terminates body -> (forall e, terminates (handler e)) ->
  terminates (try_except body handler).
Proof.
  intros Hb Hh w. unfold try_except. specialize (Hb w).
  destruct (body w) as [[a | e |] w']; [discriminate | apply Hh | contradiction].
Qed.

Lemma terminates_emit (e : event) : terminates (emit e).
Proof. intros w. discriminate. Qed.

Lemma terminates_log (l : level) (m : message) : terminates (log l m).
Proof. apply terminates_emit. Qed.

Lemma terminates_sleep (ms : Z) : terminates (sleep ms).
Proof. apply terminates_emit. Qed.

Lemma terminates_get_files : terminates get_files.
Proof. intros w. discriminate. Qed.

Lemma terminates_get_tables : terminates get_tables.
Proof. intros w. discriminate. Qed.

Lemma terminates_write_text (path content : string) : terminates (write_text path content).
Proof. intros w. discriminate. Qed.

Lemma terminates_to_csv (path : string) (df : DataFrame scalar) : terminates (to_csv path df).
Proof. intros w. discriminate. Qed.

Lemma terminates_send {R : Type} (net : nat -> request -> R) (r : request) :
  terminates (send net r).
Proof. intros w. discriminate. Qed.

#[local] Hint Resolve terminates_ret terminates_raise terminates_emit terminates_log
  terminates_sleep terminates_get_files terminates_get_tables terminates_write_text
  terminates_to_csv terminates_send : termination.

Ltac terminate :=
  repeat first
    [ progress auto with termination
    | apply terminates_bind; [| intros ?]
    | apply terminates_try; [| intros ?]
    | match goal with
      | |- terminates (match ?x with _ => _ end) => destruct x
      | |- terminates (if ?b then _ else _) => destruct b
      | |- terminates (let (_, _) := ?x in _) => destruct x
      end ].

Lemma terminates_read_csv (path : string) : terminates (read_csv path).
Proof. unfold read_csv. terminate. Qed.

Lemma terminates_read_pointer (filename : string) : terminates (read_pointer filename).
Proof. unfold read_pointer. terminate. Qed.

Lemma terminates_for_each {A S : Type} (body : S -> A -> M S) (xs : list A) :
  (forall st x, terminates (body st x)) -> forall st, terminates (for_each body xs st).
Proof.
  intros Hb. induction xs as [| x xs IH]; intros st; simpl; terminate.
Qed.

Lemma terminates_map_M {A B : Type} (f : A -> M B) (xs : list A) :
  (forall x, terminates (f x)) -> terminates (map_M f xs).
Proof. intros Hf. induction xs as [| x xs IH]; simpl; terminate. Qed.

Lemma terminates_query_attempts net backoff max_retries (attempts : list nat) (q : query) :
  terminates (query_attempts net backoff max_retries attempts q).
Proof. induction attempts as [| a rest IH]; simpl; terminate. Qed.

#[local] Hint Resolve terminates_read_csv terminates_read_pointer
  terminates_query_attempts : termination.

Lemma terminates_process_id net (st : Missing.locals) (wikidata_id : string) :
  terminates (Missing.process_id net st wikidata_id).
Proof.
  unfold Missing.process_id, query_wikidata, save_pointer, save_intermediate_results.
  terminate.
Qed.

Lemma terminates_fetch_data_for_ids net (file_path : string) :
  terminates (Missing.fetch_data_for_ids net file_path).
Proof.
  unfold Missing.fetch_data_for_ids, Missing.read_ids, Missing.load_pointer,
    Missing.resume, Missing.save_final.
  terminate.
  - apply terminates_map_M. intros []; simpl; terminate.
  - apply terminates_for_each. intros. apply terminates_process_id.
Qed.

(** ** Resuming in [missing.py] *)

Lemma list_index_absent (p : string) (ids : list string) :
  ~ In p ids -> list_index p ids = None.
Proof.
  induction ids as [| y ids IH]; [reflexivity |].
  simpl. intros H. destruct (String.eqb_spec y p) as [-> | _]; [tauto |].
  rewrite IH; [reflexivity | tauto].
Qed.

(** C7.  When the cursor read from the pointer file is not among the
    identifiers of the input file, [resume] hands back the whole list without
    raising, and the run is the loop over the whole list from its first
    identifier; the run ends within the model whatever the inputs are. *)
Theorem resume_with_unknown_pointer net (file_path content : string)
    (wikidata_ids : list string) (w w0 : world) :
  ~ In (strip (universal_newlines content)) wikidata_ids ->
  wikidata_ids <> [] ->
  Missing.read_ids file_path w = (Ok (Some wikidata_ids), w0) ->
  files w0 !! Missing.POINTER_FILE = Some (Text content) ->
  exists w1,
    Missing.resume wikidata_ids (Some (strip (universal_newlines content))) w0
    = (Ok wikidata_ids, w1)
    /\ clock w1 = clock w0 /\ files w1 = files w0
    /\ (strip (universal_newlines content) <> EmptyString ->
        trace w1
        = EvLog WARNING (MsgPointerNotFound (strip (universal_newlines content)))
          :: trace w0)
    /\ Missing.fetch_data_for_ids net file_path w
       = (for_each (Missing.process_id net) wikidata_ids (Missing.mkLocals [] 0)
          ≫= Missing.save_final) w1
    /\ terminates (Missing.fetch_data_for_ids net file_path).
Proof.
  intros Hp Hne Hr Hf.
  assert (Ht : tables w !! file_path <> None).
  { intros Ht. revert Hr. unfold Missing.read_ids, try_except, read_csv, get_tables.
    munfold. now rewrite Ht. }
  set (p := strip (universal_newlines content)) in *.
  assert (Hres : exists w1, Missing.resume wikidata_ids (Some p) w0 = (Ok wikidata_ids, w1)
                            /\ clock w1 = clock w0 /\ files w1 = files w0
                            /\ (p <> EmptyString ->
                                trace w1 = EvLog WARNING (MsgPointerNotFound p) :: trace w0)).
  { unfold Missing.resume. destruct (String.eqb_spec p EmptyString) as [Hp0 | Hp0].
    - exists w0. repeat split. intros Hn. contradiction.
    - rewrite (list_index_absent _ _ Hp). eexists. split; [reflexivity |]. now repeat split. }
  destruct Hres as (w1 & Hres & Hc & Hfs & Hlog). exists w1.
  split; [exact Hres | split; [exact Hc | split; [exact Hfs | split; [exact Hlog | split]]]].
  - unfold Missing.fetch_data_for_ids. rewrite bind_eq. unfold get_tables.
    destruct (tables w !! file_path) as [f |]; [| contradiction].
    rewrite bind_eq, Hr.
    destruct wikidata_ids as [| x xs]; [contradiction |].
    rewrite bind_eq, (missing_load_text _ _ _ Hf). fold p.
    rewrite bind_eq, Hres. reflexivity.
  - apply terminates_fetch_data_for_ids.
Qed.

Lemma resume_with_unknown_pointer_witness :
  exists w1,
    Missing.fetch_data_for_ids net_empty "missing_persons.csv" two_ids_stale_pointer
    = (for_each (Missing.process_id net_empty) ["Q1"; "Q2"] (Missing.mkLocals [] 0)
       ≫= Missing.save_final) w1
    /\ In (EvLog WARNING (MsgPointerNotFound "Q9")) (trace w1).
Proof.
  destruct (resume_with_unknown_pointer net_empty "missing_persons.csv" "Q9"
              ["Q1"; "Q2"] two_ids_stale_pointer two_ids_stale_pointer)
    as (w1 & Hres & _ & _ & Hlog & Hrun & _).
  - simpl. intros [H | [H | []]]; discriminate H.
  - discriminate.
  - reflexivity.
  - reflexivity.
  - exists w1. split; [exact Hrun |].
    rewrite Hlog; [now left | discriminate].
Defined.

(** ** Columns of concatenated frames *)

Lemma in_unique (x : string) (l : list string) : In x (unique l) <-> In x l.
Proof.
  induction l as [| y l IH]; [reflexivity |].
  simpl. rewrite filter_In, IH. split.
  - intros [-> | [H _]]; auto.
  - intros [-> | H]; [auto |].
    destruct (String.eqb_spec x y) as [-> | Hne]; [auto |]. right. now split.
Qed.

Lemma dict_get_tabulate {A : Type} (F : string -> A) (cols : list string) (c : string) :
  In c cols -> dict_get c (map (fun c' => (c', F c')) cols) = Some (F c).
Proof.
  induction cols as [| y cols IH]; [intros [] |].
  simpl. intros H. destruct (String.eqb_spec c y) as [-> | Hne]; [reflexivity |].
  apply IH. destruct H as [-> | H]; [contradiction | exact H].
Qed.

Lemma dict_get_in {A : Type} (c : string) (d : list (string * A)) (v : A) :
  dict_get c d = Some v -> In c (map fst d).
Proof.
  induction d as [| [k x] d IH]; [discriminate |].
  simpl. destruct (String.eqb_spec c k) as [-> | _]; [auto |]. intros H. right. auto.
Qed.

Section ConcatFacts.
Context {C : Type} `{Cell C}.

Lemma pd_concat_getitem (frames : list (DataFrame C)) (c : string) :
  In c (concat (map df_columns frames)) ->
  df_getitem c (pd_concat frames) = Some (concat (map (column_or_nan c) frames)).
Proof.
  intros Hin. unfold pd_concat, df_getitem. simpl.
  apply (dict_get_tabulate (fun c => concat (map (column_or_nan c) frames))).
  now apply in_unique.
Qed.


Lemma pd_concat_second (a b : DataFrame C) (c : string) (sb : list C) :
  df_getitem c b = Some sb ->
  column_or_nan c (pd_concat [a; b]) = column_or_nan c a ++ sb.
Proof.
  intros Hb. unfold column_or_nan at 1. rewrite pd_concat_getitem.
  - simpl. unfold column_or_nan at 2. rewrite Hb. now rewrite app_nil_r.
  - simpl. apply in_or_app. right. apply in_or_app. left. exact (dict_get_in _ _ _ Hb).
Qed.

Lemma pd_concat_has_columns (frames : list (DataFrame C)) (c : string) :
  In c (concat (map df_columns frames)) -> df_series (pd_concat frames) <> [].
Proof.
  intros Hin E. generalize (pd_concat_getitem frames c Hin).
  unfold df_getitem. now rewrite E.
Qed.
End ConcatFacts.

(** ** The label writer of [birthlabel.py] *)

Section LabelWriterFacts.
Variable net : nat -> request -> response (list (string * string)).

Local Abbreviation get_single := (BirthLabel.get_single_label net).
Local Abbreviation one_by_one :=
  (fun (batch_result : gmap string (option string)) (entity_id : string) =>
     label ← BirthLabel.get_single_label net entity_id BirthLabel.MAX_RETRIES;
     mret (<[entity_id := label]> batch_result)).

Lemma single_attempts_effects (attempts : list nat) (retries : nat)
    (entity_id : string) (w : world) :
  let r := BirthLabel.single_attempts net attempts retries entity_id w in
  fst r <> OutOfFuel
  /\ tables (snd r) = tables w
  /\ exists evs, trace (snd r) = evs ++ trace w
                 /\ (attempts <> [] -> In (EvRequest (ReqEntities entity_id)) evs).
Proof.
  cbv zeta. revert w. induction attempts as [| a rest IH]; intros w.
  - simpl. repeat split; [discriminate |]. exists []. now split.
  - rewrite single_attempts_cons. cbv zeta.
    destruct (net (clock w) (ReqEntities entity_id)) as [e | labels].
    + destruct e;
        try (simpl; repeat split; [discriminate |];
             exists [EvRequest (ReqEntities entity_id);
                     EvSleep (1000 * BirthLabel.REQUEST_DELAY)];
             split; [reflexivity | intros _; now left]).
      destruct (a =? retries - 1).
      * simpl. repeat split; [discriminate |]. eexists [_; _; _; _].
        split; [reflexivity |]. intros _. simpl. tauto.
      * match goal with |- context [BirthLabel.single_attempts _ _ _ _ ?w1] =>
          destruct (IH w1) as (I1 & I2 & evs & I3 & _) end.
        split; [exact I1 | split; [exact I2 |]].
        eexists (evs ++ [_; _; _; _]). rewrite <- app_assoc. split; [exact I3 |].
        intros _. apply in_or_app. right. simpl. tauto.
    + simpl. repeat split; [discriminate |]. eexists [_; _].
      split; [reflexivity |]. intros _. now left.
Qed.

Lemma get_single_effects (entity_id : string) (w : world) :
  let r := get_single entity_id BirthLabel.MAX_RETRIES w in
  fst r <> OutOfFuel
  /\ tables (snd r) = tables w
  /\ exists evs, trace (snd r) = evs ++ trace w
                 /\ In (EvRequest (ReqEntities entity_id)) evs.
Proof.
  destruct (single_attempts_effects (seq 0 BirthLabel.MAX_RETRIES) BirthLabel.MAX_RETRIES
              entity_id w) as (H1 & H2 & evs & H3 & H4).
  split; [exact H1 | split; [exact H2 |]]. exists evs. split; [exact H3 |].
  apply H4. discriminate.
Qed.

Lemma foldl_insert_keys {V : Type} (g : string -> V) (ids : list string)
    (m0 : gmap string V) (k : string) :
  is_Some (foldl (fun m id => <[id := g id]> m) m0 ids !! k)
  <-> is_Some (m0 !! k) \/ In k ids.
Proof.
  revert m0. induction ids as [| id ids IH]; intros m0; simpl; [tauto |].
  rewrite IH. destruct (decide (id = k)) as [-> | Hne].
  - rewrite lookup_insert_eq. split; [auto | intros _; left; eauto].
  - rewrite lookup_insert_ne by done. split; [tauto |].
    intros [H | [H | H]]; [auto | contradiction | auto].
Qed.

Lemma one_by_one_effects (ids : list string) (m m' : gmap string (option string))
    (w w' : world) :
  for_each one_by_one ids m w = (Ok m', w') ->
  (forall k, is_Some (m' !! k) <-> is_Some (m !! k) \/ In k ids)
  /\ exists evs, trace w' = evs ++ trace w
                 /\ forall id, In id ids -> In (EvRequest (ReqEntities id)) evs.
Proof.
  revert m w. induction ids as [| id ids IH]; intros m w.
  - intros [= <- <-]. split; [simpl; tauto |]. exists []. split; [reflexivity | intros _ []].
  - rewrite for_each_cons, bind_eq.
    destruct (get_single_effects id w) as (_ & _ & evs & Ht & Hin).
    destruct (get_single id BirthLabel.MAX_RETRIES w) as [[label | e |] w1];
      [| discriminate | discriminate].
    munfold. intros Hrest. destruct (IH _ _ Hrest) as (Hk & evs' & Ht' & Hin').
    split.
    + intros k. rewrite Hk. destruct (decide (id = k)) as [-> | Hne].
      * rewrite lookup_insert_eq. simpl. split; [auto | intros _; left; eauto].
      * rewrite lookup_insert_ne by done. simpl. split; [tauto |].
        intros [H | [H | H]]; [auto | contradiction | auto].
    + exists (evs' ++ evs). rewrite <- app_assoc. simpl in Ht. rewrite <- Ht. split; [exact Ht' |].
      intros id' [<- | H]; apply in_or_app; [right; exact Hin | left; auto].
Qed.

Lemma terminates_single_attempts (attempts : list nat) (retries : nat)
    (entity_id : string) :
  terminates (BirthLabel.single_attempts net attempts retries entity_id).
Proof. intros w. apply single_attempts_effects. Qed.

#[local] Hint Resolve terminates_single_attempts : termination.

Lemma terminates_get_batch_labels (entity_ids : list string) :
  terminates (BirthLabel.get_batch_labels net entity_ids).
Proof.
  unfold BirthLabel.get_batch_labels, BirthLabel.batch_request. terminate.
  apply terminates_for_each. intros. unfold BirthLabel.get_single_label. terminate.
Qed.

Lemma to_csv_columns (path : string) (df : DataFrame scalar) (w : world) :
  df_series df <> [] ->
  to_csv path df w
  = (Ok tt, mkWorld (clock w) (files w) (<[path := Csv df]> (tables w)) (trace w)).
Proof. unfold to_csv, csv_of. destruct (df_series df); [contradiction | reflexivity]. Qed.

Lemma get_batch_labels_eq (entity_ids : list string) (w : world) :
  BirthLabel.get_batch_labels net entity_ids w =
  let w1 := sent (ReqEntities (String.concat "|" entity_ids))
                 (traced (EvSleep (1000 * BirthLabel.REQUEST_DELAY)) w) in
  match net (clock w) (ReqEntities (String.concat "|" entity_ids)) with
  | Body labels =>
      for_each one_by_one
        (List.filter (fun id => negb (bool_decide (is_Some (dict_get id labels))))
                     entity_ids)
        (foldl (fun m id => <[id := dict_get id labels]> m) ∅ entity_ids) w1
  | Raises e =>
      for_each one_by_one entity_ids (all_none entity_ids)
               (traced (EvLog WARNING MsgBatchFailed) w1)
  end.
Proof.
  unfold BirthLabel.get_batch_labels, BirthLabel.batch_request, try_except,
    sleep, log, emit, send, sent, traced.
  munfold. cbn [clock files tables trace].
  destruct (net (clock w) (ReqEntities (String.concat "|" entity_ids))); reflexivity.
Qed.

(** The dict [get_batch_labels] returns has exactly the identifiers it was
    given as keys. *)
Lemma get_batch_labels_keys (entity_ids : list string)
    (m : gmap string (option string)) (w w' : world) :
  BirthLabel.get_batch_labels net entity_ids w = (Ok m, w') ->
  forall k, is_Some (m !! k) <-> In k entity_ids.
Proof.
  rewrite get_batch_labels_eq. cbv zeta.
  destruct (net (clock w) (ReqEntities (String.concat "|" entity_ids))) as [e | labels];
    intros Hrun k; destruct (one_by_one_effects _ _ _ _ _ Hrun) as [Hk _]; rewrite Hk.
  - unfold all_none. rewrite foldl_insert_keys, lookup_empty.
    split; [| auto]. intros [[Hn | Hi] | Hi]; [| exact Hi | exact Hi].
    now apply is_Some_None in Hn.
  - rewrite foldl_insert_keys, lookup_empty, filter_In.
    split; [| auto]. intros [[Hn | Hi] | [Hi _]]; [| exact Hi | exact Hi].
    now apply is_Some_None in Hn.
Qed.

(** After a failed batch request every identifier is asked for on its own. *)
Lemma get_batch_labels_fallback (entity_ids : list string) (w : world) (e : exn) :
  net (clock w) (ReqEntities (String.concat "|" entity_ids)) = Raises e ->
  let w2 := traced (EvLog WARNING MsgBatchFailed)
              (sent (ReqEntities (String.concat "|" entity_ids))
                    (traced (EvSleep (1000 * BirthLabel.REQUEST_DELAY)) w)) in
  BirthLabel.get_batch_labels net entity_ids w
  = for_each one_by_one entity_ids (all_none entity_ids) w2
  /\ forall m w',
      BirthLabel.get_batch_labels net entity_ids w = (Ok m, w') ->
      exists evs, trace w' = evs ++ trace w2
                  /\ forall id, In id entity_ids -> In (EvRequest (ReqEntities id)) evs.
Proof.
  intros He. rewrite get_batch_labels_eq. cbv zeta. rewrite He.
  split; [reflexivity |]. intros m w' Hrun.
  exact (proj2 (one_by_one_effects _ _ _ _ _ Hrun)).
Qed.

Lemma extends_by_refl (df : DataFrame scalar) : extends_by df df [] [].
Proof. unfold extends_by. simpl. now rewrite !app_nil_r. Qed.

Lemma extends_by_trans (df0 df1 df2 : DataFrame scalar) (ids1 ids2 : list string)
    (labels1 labels2 : list (option string)) :
  extends_by df0 df1 ids1 labels1 -> extends_by df1 df2 ids2 labels2 ->
  extends_by df0 df2 (ids1 ++ ids2) (labels1 ++ labels2).
Proof.
  intros (L1 & B1 & C1) (L2 & B2 & C2). unfold extends_by.
  rewrite B2, B1, C2, C1, !map_app, !length_app, !app_assoc. now rewrite L1, L2.
Qed.

Lemma extends_by_row (df : DataFrame scalar) (entity_id : string) (label : option string) :
  extends_by df (pd_concat [df; BirthLabel.new_row entity_id label])
             [entity_id] [label].
Proof.
  split; [reflexivity | split]; now apply pd_concat_second.
Qed.

Lemma process_single_effects (output_csv : string) (df : DataFrame scalar)
    (entity_id : string) (w : world) :
  exists label w',
    BirthLabel.process_single net output_csv df entity_id w
    = (Ok (pd_concat [df; BirthLabel.new_row entity_id label]), w')
    /\ tables w' !! output_csv
       = Some (Csv (pd_concat [df; BirthLabel.new_row entity_id label])).
Proof.
  assert (Hcols : forall label,
             df_series (pd_concat [df; BirthLabel.new_row entity_id label]) <> []).
  { intros label. apply (pd_concat_has_columns _ "label"). simpl.
    apply in_or_app. right. simpl. tauto. }
  unfold BirthLabel.process_single, try_except. rewrite bind_eq.
  destruct (get_single_effects entity_id w) as (Hfuel & _).
  destruct (get_single entity_id BirthLabel.MAX_RETRIES w) as [[label | e |] w1];
    [| | contradiction].
  - exists label. cbv zeta. rewrite bind_eq, (to_csv_columns _ _ _ (Hcols label)).
    eexists. split; [reflexivity |]. simpl. apply lookup_insert_eq.
  - exists None. rewrite !bind_eq. unfold log, emit. cbv zeta.
    rewrite bind_eq, (to_csv_columns _ _ _ (Hcols None)).
    eexists. split; [reflexivity |]. simpl. apply lookup_insert_eq.
Qed.

Lemma process_singles_effects (output_csv : string) (batch : list string)
    (df : DataFrame scalar) (w : world) :
  exists df' w' labels,
    for_each (BirthLabel.process_single net output_csv) batch df w = (Ok df', w')
    /\ extends_by df df' batch labels
    /\ (batch <> [] -> tables w' !! output_csv = Some (Csv df')).
Proof.
  revert df w. induction batch as [| id rest IH]; intros df w.
  - exists df, w, []. split; [reflexivity | split; [apply extends_by_refl | tauto]].
  - rewrite for_each_cons.
    destruct (process_single_effects output_csv df id w) as (label & w1 & -> & Ht).
    destruct (IH (pd_concat [df; BirthLabel.new_row id label]) w1)
      as (df' & w' & labels & Hrun & Hext & Htab).
    exists df', w', (label :: labels). split; [exact Hrun | split].
    + exact (extends_by_trans _ _ _ [id] rest [label] labels
               (extends_by_row df id label) Hext).
    + intros _. destruct rest as [| id' rest']; [| apply Htab; discriminate].
      injection Hrun as <- <-. exact Ht.
Qed.

Lemma process_batch_effects (output_csv : string) (batch : list string)
    (df : DataFrame scalar) (w : world) :
  exists df' w' labels,
    BirthLabel.process_batch net output_csv df batch w = (Ok df', w')
    /\ extends_by df df' batch labels
    /\ (batch <> [] -> tables w' !! output_csv = Some (Csv df')).
Proof.
  unfold BirthLabel.process_batch, try_except. rewrite bind_eq.
  generalize (terminates_get_batch_labels batch w).
  destruct (BirthLabel.get_batch_labels net batch w) as [[m | e |] w1];
    intros Hfuel; [| | contradiction].
  - cbv zeta.
    set (batch_df := mkDF (length batch) _).
    assert (Hcols : df_series (pd_concat [df; batch_df]) <> []).
    { apply (pd_concat_has_columns _ "label"). simpl.
      apply in_or_app. right. simpl. tauto. }
    rewrite bind_eq, (to_csv_columns _ _ _ Hcols).
    eexists _, _, (map (fun id => default None (m !! id)) batch).
    split; [reflexivity | split; [| intros _; simpl; apply lookup_insert_eq]].
    split; [now rewrite length_map | split].
    + now apply pd_concat_second.
    + rewrite map_map. now apply pd_concat_second.
  - rewrite bind_eq. apply process_singles_effects.
Qed.
End LabelWriterFacts.

Lemma batches_concat (ids : list string) : concat (BirthLabel.batches ids) = ids.
Proof.
  unfold BirthLabel.batches.
  assert (H : forall m, concat (map (fun k => take BirthLabel.BATCH_SIZE
                                                (drop (k * BirthLabel.BATCH_SIZE) ids))
                                    (seq 0 m))
                        = take (m * BirthLabel.BATCH_SIZE) ids).
  { induction m as [| m IH]; [reflexivity |].
    rewrite seq_S, map_app, concat_app, IH. cbn [map concat Nat.add].
    rewrite app_nil_r, take_take_drop. f_equal. unfold BirthLabel.BATCH_SIZE. lia. }
  rewrite H. apply take_ge. unfold BirthLabel.BATCH_SIZE.
  pose proof (Nat.div_mod_eq (length ids + (50 - 1)) 50).
  pose proof (Nat.mod_upper_bound (length ids + (50 - 1)) 50). lia.
Qed.

Lemma process_batches_effects net (output_csv : string) (bs : list (list string))
    (df : DataFrame scalar) (w : world) :
  exists df' w' labels,
    for_each (BirthLabel.process_batch net output_csv) bs df w = (Ok df', w')
    /\ extends_by df df' (concat bs) labels.
Proof.
  revert df w. induction bs as [| batch bs IH]; intros df w.
  - exists df, w, []. split; [reflexivity | apply extends_by_refl].
  - rewrite for_each_cons.
    destruct (process_batch_effects net output_csv batch df w)
      as (df1 & w1 & labels1 & -> & Hext1 & _).
    destruct (IH df1 w1) as (df' & w' & labels & Hrun & Hext).
    exists df', w', (labels1 ++ labels). split; [exact Hrun |].
    simpl. exact (extends_by_trans _ _ _ _ _ _ _ Hext1 Hext).
Qed.

(** *** The labels and the provider's answers *)

Lemma foldl_insert_other {V : Type} (g : string -> V) (ids : list string)
    (m0 : gmap string V) (k : string) :
  ~ In k ids -> foldl (fun m id => <[id := g id]> m) m0 ids !! k = m0 !! k.
Proof.
  revert m0. induction ids as [| id ids IH]; intros m0 H; [reflexivity |].
  simpl. rewrite IH by (intros Hin; apply H; now right).
  apply lookup_insert_ne. intros ->. apply H. now left.
Qed.

Lemma foldl_insert_lookup {V : Type} (g : string -> V) (ids : list string)
    (m0 : gmap string V) (k : string) :
  In k ids -> foldl (fun m id => <[id := g id]> m) m0 ids !! k = Some (g k).
Proof.
  revert m0. induction ids as [| id ids IH]; intros m0; [intros [] |].
  intros H. simpl. destruct (in_dec string_dec k ids) as [Hin | Hout]; [now apply IH |].
  destruct H as [-> | H]; [| contradiction].
  rewrite foldl_insert_other by exact Hout. apply lookup_insert_eq.
Qed.

Section LabelAnswers.
Variable net : nat -> request -> response (list (string * string)).

Local Abbreviation one_by_one :=
  (fun (batch_result : gmap string (option string)) (entity_id : string) =>
     label ← BirthLabel.get_single_label net entity_id BirthLabel.MAX_RETRIES;
     mret (<[entity_id := label]> batch_result)).

(** The single requests touch no other entry of the dict. *)
Lemma one_by_one_keeps (ids : list string) (m m' : gmap string (option string))
    (w w' : world) :
  for_each one_by_one ids m w = (Ok m', w') ->
  forall k, ~ In k ids -> m' !! k = m !! k.
Proof.
  revert m w. induction ids as [| id ids IH]; intros m w; [now intros [= <- <-] |].
  rewrite for_each_cons, bind_eq.
  destruct (BirthLabel.get_single_label net id BirthLabel.MAX_RETRIES w)
    as [[label | e |] w1]; [| discriminate | discriminate].
  munfold. intros Hrest k Hout.
  rewrite (IH _ _ Hrest k) by (intros Hin; apply Hout; now right).
  apply lookup_insert_ne. intros ->. apply Hout. now left.
Qed.

Lemma answered_labels_kept (entity_ids : list string) (w w' : world)
    (labels : list (string * string)) (m : gmap string (option string)) :
  net (clock w) (ReqEntities (String.concat "|" entity_ids)) = Body labels ->
  BirthLabel.get_batch_labels net entity_ids w = (Ok m, w') ->
  forall id l, In id entity_ids -> dict_get id labels = Some l -> m !! id = Some (Some l).
Proof.
  intros Hb. rewrite get_batch_labels_eq. cbv zeta. rewrite Hb. intros Hrun id l Hin Hl.
  rewrite (one_by_one_keeps _ _ _ _ _ Hrun).
  - rewrite (foldl_insert_lookup (fun id => dict_get id labels)) by exact Hin.
    now rewrite Hl.
  - rewrite filter_In, Hl. intros [_ H].
    apply negb_true_iff, bool_decide_eq_false in H. apply H. eauto.
Qed.

(** One turn of the loop of [process_all_birthplaces], and one turn of its
    fallback, by the result of the fetch. *)
Lemma process_single_eq (output_csv : string) (df : DataFrame scalar)
    (entity_id : string) (w : world) :
  BirthLabel.process_single net output_csv df entity_id w =
  match BirthLabel.get_single_label net entity_id BirthLabel.MAX_RETRIES w with
  | (Ok label, w1) =>
      let df' := pd_concat [df; BirthLabel.new_row entity_id label] in
      (Ok df', mkWorld (clock w1) (files w1) (<[output_csv := Csv df']> (tables w1))
                       (trace w1))
  | (Raise e, w1) =>
      let df' := pd_concat [df; BirthLabel.new_row entity_id None] in
      (Ok df', mkWorld (clock w1) (files w1) (<[output_csv := Csv df']> (tables w1))
                       (EvLog ERROR (MsgProcessFailed entity_id) :: trace w1))
  | (OutOfFuel, w1) => (OutOfFuel, w1)
  end.
Proof.
  assert (Hcols : forall label,
             df_series (pd_concat [df; BirthLabel.new_row entity_id label]) <> []).
  { intros label. apply (pd_concat_has_columns _ "label"). simpl.
    apply in_or_app. right. simpl. tauto. }
  unfold BirthLabel.process_single, try_except. rewrite bind_eq.
  destruct (BirthLabel.get_single_label net entity_id BirthLabel.MAX_RETRIES w)
    as [[label | e |] w1]; [| | reflexivity].
  - cbv zeta. rewrite bind_eq, (to_csv_columns _ _ _ (Hcols label)). reflexivity.
  - rewrite !bind_eq. unfold log, emit. cbv zeta.
    rewrite bind_eq, (to_csv_columns _ _ _ (Hcols None)). reflexivity.
Qed.

Lemma process_batch_eq (output_csv : string) (df : DataFrame scalar)
    (batch : list string) (w : world) :
  BirthLabel.process_batch net output_csv df batch w =
  match BirthLabel.get_batch_labels net batch w with
  | (Ok m, w1) =>
      let df' :=
        pd_concat [df;
                   mkDF (length batch)
                        [("birthplace_id", map SStr batch);
                         ("label", map (fun id => BirthLabel.label_cell
                                                   (default None (m !! id))) batch)]] in
      (Ok df', mkWorld (clock w1) (files w1) (<[output_csv := Csv df']> (tables w1))
                       (trace w1))
  | (Raise e, w1) =>
      for_each (BirthLabel.process_single net output_csv) batch df
               (traced (EvLog ERROR MsgBatchFatal) w1)
  | (OutOfFuel, w1) => (OutOfFuel, w1)
  end.
Proof.
  unfold BirthLabel.process_batch, try_except. rewrite bind_eq.
  destruct (BirthLabel.get_batch_labels net batch w) as [[m | e |] w1]; [| | reflexivity].
  - cbv zeta.
    set (batch_df := mkDF (length batch) _).
    assert (Hcols : df_series (pd_concat [df; batch_df]) <> []).
    { apply (pd_concat_has_columns _ "label"). simpl.
      apply in_or_app. right. simpl. tauto. }
    rewrite bind_eq, (to_csv_columns _ _ _ Hcols). reflexivity.
  - rewrite bind_eq. reflexivity.
Qed.

(** From here on the provider answers a request the same way whenever it is
    asked. *)
Variable answer : request -> response (list (string * string)).
Hypothesis stationary : forall i r, net i r = answer r.

Lemma get_single_label_answer (entity_id : string) (w : world) :
  (forall e, answer (ReqEntities entity_id) = Raises e -> e = RequestException) ->
  exists w',
    BirthLabel.get_single_label net entity_id BirthLabel.MAX_RETRIES w
    = (Ok (single_label answer entity_id), w').
Proof.
  intros Hexn.
  assert (H : fst (BirthLabel.get_single_label net entity_id BirthLabel.MAX_RETRIES w)
              = Ok (single_label answer entity_id)).
  { unfold single_label.
    destruct (answer (ReqEntities entity_id)) as [e | labels] eqn:E.
    - rewrite (Hexn e eq_refl) in E. unfold BirthLabel.get_single_label.
      apply single_attempts_down. intros i _. now rewrite stationary.
    - unfold BirthLabel.get_single_label.
      change (seq 0 BirthLabel.MAX_RETRIES) with (0 :: seq 1 4).
      apply single_attempts_no_label. now rewrite stationary. }
  destruct (BirthLabel.get_single_label net entity_id BirthLabel.MAX_RETRIES w)
    as [r w']. simpl in H. subst r. now exists w'.
Qed.

Lemma one_by_one_answers (ids : list string) :
  (forall id e, In id ids -> answer (ReqEntities id) = Raises e -> e = RequestException) ->
  forall (m : gmap string (option string)) (w : world),
  exists m' w',
    for_each one_by_one ids m w = (Ok m', w')
    /\ (forall k, In k ids -> m' !! k = Some (single_label answer k))
    /\ (forall k, ~ In k ids -> m' !! k = m !! k).
Proof.
  induction ids as [| id ids IH]; intros Hexn m w.
  - exists m, w. split; [reflexivity | split; [intros k [] | reflexivity]].
  - rewrite for_each_cons, bind_eq.
    destruct (get_single_label_answer id w) as [w1 ->].
    { intros e. apply Hexn. now left. }
    munfold.
    destruct (IH (fun id' e Hin => Hexn id' e (or_intror Hin))
                 (<[id := single_label answer id]> m) w1)
      as (m' & w' & Hrun & Hin' & Hout').
    exists m', w'. split; [exact Hrun | split].
    + intros k Hk. destruct (in_dec string_dec k ids) as [Hi | Ho]; [now apply Hin' |].
      destruct Hk as [-> | Hk]; [| contradiction].
      rewrite (Hout' _ Ho). apply lookup_insert_eq.
    + intros k Hk. rewrite Hout' by (intros Hi; apply Hk; now right).
      apply lookup_insert_ne. intros ->. apply Hk. now left.
Qed.

Lemma get_batch_labels_answers (entity_ids : list string) (w : world) :
  (forall id e, In id entity_ids -> answer (ReqEntities id) = Raises e ->
                e = RequestException) ->
  exists m w',
    BirthLabel.get_batch_labels net entity_ids w = (Ok m, w')
    /\ forall id, In id entity_ids -> m !! id = Some (expected_label answer entity_ids id).
Proof.
  intros Hexn. rewrite get_batch_labels_eq. cbv zeta. rewrite stationary.
  unfold expected_label.
  destruct (answer (ReqEntities (String.concat "|" entity_ids))) as [e | labels].
  - match goal with |- context [for_each _ _ ?m0 ?w1] =>
      destruct (one_by_one_answers entity_ids Hexn m0 w1) as (m & w' & Hrun & Hin & _) end.
    exists m, w'. split; [exact Hrun | exact Hin].
  - match goal with |- context [for_each _ ?missing ?m0 ?w1] =>
      destruct (one_by_one_answers missing
                  (fun id e Hi => Hexn id e (proj1 (proj1 (filter_In _ _ _) Hi))) m0 w1)
        as (m & w' & Hrun & Hin & Hout) end.
    exists m, w'. split; [exact Hrun |]. intros id Hid.
    destruct (dict_get id labels) as [l |] eqn:Hl.
    + rewrite Hout.
      * rewrite (foldl_insert_lookup (fun id => dict_get id labels)) by exact Hid.
        now rewrite Hl.
      * rewrite filter_In, Hl. intros [_ H].
        apply negb_true_iff, bool_decide_eq_false in H. apply H. eauto.
    + apply Hin. apply filter_In. split; [exact Hid |]. rewrite Hl.
      apply negb_true_iff, bool_decide_eq_false. intros [x [=]].
Qed.

Lemma process_batch_answers (output_csv : string) (df : DataFrame scalar)
    (batch : list string) (w : world) :
  (forall id e, In id batch -> answer (ReqEntities id) = Raises e -> e = RequestException) ->
  exists df' w',
    BirthLabel.process_batch net output_csv df batch w = (Ok df', w')
    /\ extends_by df df' batch (map (expected_label answer batch) batch)
    /\ tables w' !! output_csv = Some (Csv df').
Proof.
  intros Hexn. rewrite process_batch_eq.
  destruct (get_batch_labels_answers batch w Hexn) as (m & w1 & -> & Hm). cbv zeta.
  eexists _, _. split; [reflexivity | split; [| simpl; apply lookup_insert_eq]].
  split; [now rewrite length_map | split].
  - now apply pd_concat_second.
  - rewrite map_map.
    rewrite (pd_concat_second _ _ "label"
               (map (fun id => BirthLabel.label_cell (default None (m !! id))) batch))
      by reflexivity.
    f_equal. apply map_ext_in. intros id Hid. now rewrite (Hm id Hid).
Qed.

Lemma process_batches_answers (output_csv : string) (bs : list (list string)) :
  (forall id e, In id (concat bs) -> answer (ReqEntities id) = Raises e ->
                e = RequestException) ->
  forall (df : DataFrame scalar) (w : world),
  exists df' w',
    for_each (BirthLabel.process_batch net output_csv) bs df w = (Ok df', w')
    /\ extends_by df df' (concat bs)
                  (concat (map (fun batch => map (expected_label answer batch) batch) bs)).
Proof.
  induction bs as [| batch bs IH]; intros Hexn df w.
  - exists df, w. split; [reflexivity | apply extends_by_refl].
  - rewrite for_each_cons.
    destruct (process_batch_answers output_csv df batch w) as (df1 & w1 & -> & Hext1 & _).
    { intros id e Hin. apply Hexn. simpl. apply in_or_app. now left. }
    destruct (IH (fun id e Hin => Hexn id e (in_or_app _ _ _ (or_intror Hin))) df1 w1)
      as (df' & w' & Hrun & Hext).
    exists df', w'. split; [exact Hrun |].
    simpl. exact (extends_by_trans _ _ _ _ _ _ _ Hext1 Hext).
Qed.
End LabelAnswers.

(** C9.  The dict [get_batch_labels] returns has an entry, a label or
    [None], for each identifier it was given, and for no other key; after a
    failed batch request each identifier is asked for on its own, and after
    an answered one every label of the answer is kept under its identifier.
    With a provider that answers a request the same way whenever it is
    asked, and whose single answers raise nothing but [RequestException],
    the entry of an identifier is the label of the batch answer, or else
    the label of its single answer, or else [None].  One turn of the loop
    of [process_all_birthplaces] always returns: after the fetch it appends
    one row for each identifier of the batch, in order, with the entry of
    the dict as label, and writes the table to the output file; when the
    fetch raises, it goes through the identifiers one by one, appending for
    each the label its single fetch returns, or [None] when that raises,
    and writing the table each time.  So the run adds one row for every
    identifier it had to process, with these labels. *)
Theorem every_identifier_gets_an_entry net :
  (forall entity_ids w m w',
      BirthLabel.get_batch_labels net entity_ids w = (Ok m, w') ->
      forall k, is_Some (m !! k) <-> In k entity_ids)
  /\ (forall entity_ids w e m w',
         net (clock w) (ReqEntities (String.concat "|" entity_ids)) = Raises e ->
         BirthLabel.get_batch_labels net entity_ids w = (Ok m, w') ->
         exists evs,
           trace w' = evs ++ EvLog WARNING MsgBatchFailed
                          :: EvRequest (ReqEntities (String.concat "|" entity_ids))
                          :: EvSleep (1000 * BirthLabel.REQUEST_DELAY) :: trace w
           /\ forall id, In id entity_ids -> In (EvRequest (ReqEntities id)) evs)
  /\ (forall entity_ids w labels m w',
         net (clock w) (ReqEntities (String.concat "|" entity_ids)) = Body labels ->
         BirthLabel.get_batch_labels net entity_ids w = (Ok m, w') ->
         forall id l, In id entity_ids -> dict_get id labels = Some l ->
                      m !! id = Some (Some l))
  /\ (forall answer entity_ids w,
         (forall i r, net i r = answer r) ->
         (forall id e, In id entity_ids -> answer (ReqEntities id) = Raises e ->
                       e = RequestException) ->
         exists m w',
           BirthLabel.get_batch_labels net entity_ids w = (Ok m, w')
           /\ forall id, In id entity_ids ->
                         m !! id = Some (expected_label answer entity_ids id))
  /\ (forall output_csv batch df w,
         (exists df' w' labels,
             BirthLabel.process_batch net output_csv df batch w = (Ok df', w')
             /\ extends_by df df' batch labels
             /\ (batch <> [] -> tables w' !! output_csv = Some (Csv df')))
         /\ (forall m w1,
                BirthLabel.get_batch_labels net batch w = (Ok m, w1) ->
                let df' :=
                  pd_concat [df;
                             mkDF (length batch)
                                  [("birthplace_id", map SStr batch);
                                   ("label",
                                    map (fun id => BirthLabel.label_cell
                                                     (default None (m !! id))) batch)]] in
                BirthLabel.process_batch net output_csv df batch w
                = (Ok df', mkWorld (clock w1) (files w1)
                                   (<[output_csv := Csv df']> (tables w1)) (trace w1)))
         /\ (forall e w1,
                BirthLabel.get_batch_labels net batch w = (Raise e, w1) ->
                BirthLabel.process_batch net output_csv df batch w
                = for_each (BirthLabel.process_single net output_csv) batch df
                           (traced (EvLog ERROR MsgBatchFatal) w1)))
  /\ (forall output_csv df entity_id w,
         (forall label w1,
             BirthLabel.get_single_label net entity_id BirthLabel.MAX_RETRIES w
             = (Ok label, w1) ->
             let df' := pd_concat [df; BirthLabel.new_row entity_id label] in
             BirthLabel.process_single net output_csv df entity_id w
             = (Ok df', mkWorld (clock w1) (files w1)
                                (<[output_csv := Csv df']> (tables w1)) (trace w1)))
         /\ (forall e w1,
                BirthLabel.get_single_label net entity_id BirthLabel.MAX_RETRIES w
                = (Raise e, w1) ->
                let df' := pd_concat [df; BirthLabel.new_row entity_id None] in
                BirthLabel.process_single net output_csv df entity_id w
                = (Ok df', mkWorld (clock w1) (files w1)
                                   (<[output_csv := Csv df']> (tables w1))
                                   (EvLog ERROR (MsgProcessFailed entity_id) :: trace w1))))
  /\ (forall dataset_path output_csv w results_df w0 processed_ids df ids,
         BirthLabel.load_or_create_dataframe output_csv w = (Ok results_df, w0) ->
         BirthLabel.processed_ids_of results_df w0 = (Ok processed_ids, w0) ->
         tables w0 !! dataset_path = Some (Csv df) ->
         BirthLabel.ids_to_process processed_ids df w0 = (Ok ids, w0) ->
         (exists df' w' labels,
             BirthLabel.process_all_birthplaces net dataset_path output_csv w = (Ok df', w')
             /\ extends_by results_df df' ids labels)
         /\ (forall answer,
                (forall i r, net i r = answer r) ->
                (forall id e, In id ids -> answer (ReqEntities id) = Raises e ->
                              e = RequestException) ->
                exists df' w',
                  BirthLabel.process_all_birthplaces net dataset_path output_csv w
                  = (Ok df', w')
                  /\ extends_by results_df df' ids
                       (concat (map (fun batch => map (expected_label answer batch) batch)
                                    (BirthLabel.batches ids))))).
Proof.
  split; [| split; [| split; [| split; [| split; [| split]]]]].
  - intros entity_ids w m w'. apply get_batch_labels_keys.
  - intros entity_ids w e m w' He Hrun.
    exact (proj2 (get_batch_labels_fallback net entity_ids w e He) m w' Hrun).
  - intros entity_ids w labels m w'. apply answered_labels_kept.
  - intros answer entity_ids w Hs Hexn. now apply (get_batch_labels_answers net answer).
  - intros output_csv batch df w. split; [apply process_batch_effects | split].
    + intros m w1 H. rewrite process_batch_eq, H. reflexivity.
    + intros e w1 H. rewrite process_batch_eq, H. reflexivity.
  - intros output_csv df entity_id w. split.
    + intros label w1 H. rewrite process_single_eq, H. reflexivity.
    + intros e w1 H. rewrite process_single_eq, H. reflexivity.
  - intros dataset_path output_csv w results_df w0 processed_ids df ids Hl Hp Ht Hi.
    assert (Hrun : BirthLabel.process_all_birthplaces net dataset_path output_csv w
                   = for_each (BirthLabel.process_batch net output_csv)
                              (BirthLabel.batches ids) results_df w0).
    { unfold BirthLabel.process_all_birthplaces.
      rewrite bind_eq, Hl, bind_eq, Hp, bind_eq.
      unfold read_csv at 1. rewrite bind_eq. unfold get_tables. rewrite Ht.
      munfold. now rewrite Hi. }
    rewrite Hrun. split.
    + destruct (process_batches_effects net output_csv (BirthLabel.batches ids)
                  results_df w0) as (df' & w' & labels & Hb & Hext).
      exists df', w', labels. rewrite batches_concat in Hext. now split.
    + intros answer Hs Hexn.
      destruct (process_batches_answers net answer Hs output_csv (BirthLabel.batches ids)
                  ltac:(rewrite batches_concat; exact Hexn) results_df w0)
        as (df' & w' & Hb & Hext).
      exists df', w'. rewrite batches_concat in Hext. now split.
Qed.

Lemma every_identifier_gets_an_entry_witness :
  (forall k, is_Some (({["Q64" := Some "Berlin"; "Q1055" := None]}
                         : gmap string (option string)) !! k)
             <-> In k ["Q64"; "Q1055"])
  /\ (exists evs,
         trace (snd (BirthLabel.get_batch_labels net_one_label ["Q64"; "Q1055"]
                       empty_world))
         = evs ++ [EvLog WARNING MsgBatchFailed; EvRequest (ReqEntities "Q64|Q1055");
                   EvSleep 1000]
         /\ In (EvRequest (ReqEntities "Q64")) evs
         /\ In (EvRequest (ReqEntities "Q1055")) evs)
  /\ (exists df' w' labels,
         BirthLabel.process_all_birthplaces net_one_label "final_dataset.csv"
           "birthplace_labels.csv" birthplaces = (Ok df', w')
         /\ extends_by BirthLabel.new_frame df' ["Q64"; "Q1055"] labels)
  /\ (exists m w',
         BirthLabel.get_batch_labels net_berlin ["Q64"; "Q1055"] empty_world = (Ok m, w')
         /\ m !! "Q64" = Some (Some "Berlin") /\ m !! "Q1055" = Some None)
  /\ (exists df' w',
         BirthLabel.process_all_birthplaces net_berlin "final_dataset.csv"
           "birthplace_labels.csv" birthplaces = (Ok df', w')
         /\ extends_by BirthLabel.new_frame df' ["Q64"; "Q1055"] [Some "Berlin"; None]
         /\ In (EvRequest (ReqEntities "Q64|Q1055")) (trace w')).
Proof.
  destruct (every_identifier_gets_an_entry net_one_label) as (H1 & H2 & _ & _ & _ & _ & H7).
  destruct (every_identifier_gets_an_entry net_berlin) as (_ & _ & _ & B4 & _ & _ & B7).
  split; [| split; [| split; [| split]]].
  - apply (H1 ["Q64"; "Q1055"] empty_world _
              (snd (BirthLabel.get_batch_labels net_one_label ["Q64"; "Q1055"]
                      empty_world))).
    vm_compute. reflexivity.
  - destruct (H2 ["Q64"; "Q1055"] empty_world RequestException
                 {["Q64" := Some "Berlin"; "Q1055" := None]}
                 (snd (BirthLabel.get_batch_labels net_one_label ["Q64"; "Q1055"]
                         empty_world)))
      as (evs & Ht & Hin); [reflexivity | vm_compute; reflexivity |].
    exists evs. split; [exact Ht | split; apply Hin; simpl; tauto].
  - apply (proj1 (H7 "final_dataset.csv" "birthplace_labels.csv" birthplaces
                     BirthLabel.new_frame birthplaces ∅
                     (mkDF 3 [("birthplace",
                               [SStr "http://www.wikidata.org/entity/Q64"; SNaN;
                                SStr "http://www.wikidata.org/entity/Q1055"])])
                     ["Q64"; "Q1055"]
                     ltac:(vm_compute; reflexivity) ltac:(vm_compute; reflexivity)
                     ltac:(vm_compute; reflexivity) ltac:(vm_compute; reflexivity))).
  - destruct (B4 (net_berlin 0) ["Q64"; "Q1055"] empty_world) as (m & w' & Hrun & Hm).
    + reflexivity.
    + intros id e _ [=].
    + exists m, w'. split; [exact Hrun | split].
      * rewrite (Hm "Q64") by (simpl; tauto). reflexivity.
      * rewrite (Hm "Q1055") by (simpl; tauto). reflexivity.
  - destruct (proj2 (B7 "final_dataset.csv" "birthplace_labels.csv" birthplaces
                        BirthLabel.new_frame birthplaces ∅
                        (mkDF 3 [("birthplace",
                                  [SStr "http://www.wikidata.org/entity/Q64"; SNaN;
                                   SStr "http://www.wikidata.org/entity/Q1055"])])
                        ["Q64"; "Q1055"]
                        ltac:(vm_compute; reflexivity) ltac:(vm_compute; reflexivity)
                        ltac:(vm_compute; reflexivity) ltac:(vm_compute; reflexivity))
                    (net_berlin 0))
      as (df' & w' & Hrun & Hext).
    + reflexivity.
    + intros id e _ [=].
    + exists df', w'. split; [exact Hrun | split; [exact Hext |]].
      assert (E : snd (BirthLabel.process_all_birthplaces net_berlin "final_dataset.csv"
                         "birthplace_labels.csv" birthplaces) = w')
        by (now rewrite Hrun).
      rewrite <- E. vm_compute. tauto.
Defined.

(** ** The enrichment loop of [wiki.py] *)

Lemma only_traced_refl (w : world) : only_traced w w.
Proof. repeat split. now exists []. Qed.

Lemma only_traced_trans (w1 w2 w3 : world) :
  only_traced w1 w2 -> only_traced w2 w3 -> only_traced w1 w3.
Proof.
  intros (F1 & T1 & evs1 & E1) (F2 & T2 & evs2 & E2).
  split; [congruence | split; [congruence |]].
  exists (evs2 ++ evs1). now rewrite E2, E1, app_assoc.
Qed.

Lemma only_traced_event (e : event) (w : world) : only_traced w (traced e w).
Proof. repeat split. now exists [e]. Qed.

Lemma only_traced_sent (r : request) (w : world) : only_traced w (sent r w).
Proof. repeat split. now exists [EvRequest r]. Qed.

Section WikiFacts.
Variable sparql : nat -> request -> response (list (option string * option string)).
Variable summary : nat -> request -> response (option string).
Variable pageviews : nat -> request -> response (list Z).

Local Abbreviation fetch_row := (Wiki.fetch_row sparql summary pageviews).
Local Abbreviation process_row := (Wiki.process_row sparql summary pageviews).

Lemma asked_then (r : request) (w w1 w2 : world) :
  asked r w w1 -> only_traced w1 w2 -> asked r w w2.
Proof.
  intros (F1 & T1 & evs1 & E1 & Hin) (F2 & T2 & evs2 & E2).
  split; [congruence | split; [congruence |]].
  exists (evs2 ++ evs1). rewrite E2, E1, app_assoc. split; [reflexivity |].
  apply in_or_app. now right.
Qed.

Lemma asked_sent (r : request) (w : world) : asked r w (sent r w).
Proof. repeat split. exists [EvRequest r]. split; [reflexivity | now left]. Qed.

(** [fetch_occupation_and_death] never raises, and it sends its query. *)
Lemma fetch_occupation_and_death_effects (person_id : string) (w : world) :
  exists r w',
    Wiki.fetch_occupation_and_death sparql person_id w = (Ok r, w')
    /\ asked (ReqSparql (QOccupation person_id)) w w'.
Proof.
  unfold Wiki.fetch_occupation_and_death, try_except. rewrite bind_eq.
  unfold send. fold (sent (ReqSparql (QOccupation person_id)) w).
  destruct (sparql (clock w) (ReqSparql (QOccupation person_id)))
    as [e | [| [label death] rest]].
  - eexists _, _. split; [reflexivity |].
    exact (asked_then _ _ _ _ (asked_sent _ w) (only_traced_event _ _)).
  - eexists _, _. split; [reflexivity |].
    exact (asked_then _ _ _ _ (asked_sent _ w) (only_traced_event _ _)).
  - eexists _, _. split; [reflexivity | apply asked_sent].
Qed.

(** [fetch_wikipedia_data] never raises. *)
Lemma fetch_wikipedia_data_effects (page_url : scalar) (w : world) :
  exists r w',
    Wiki.fetch_wikipedia_data summary pageviews page_url w = (Ok r, w')
    /\ only_traced w w'.
Proof.
  unfold Wiki.fetch_wikipedia_data.
  destruct page_url as [| | z | url];
    try (eexists _, _; split; [reflexivity | apply only_traced_refl]).
  destruct (String.eqb (strip url) EmptyString);
    [eexists _, _; split; [reflexivity | apply only_traced_refl] |].
  destruct (if Wiki.contains "de.wikipedia.org" url then Some "de"
            else if Wiki.contains "en.wikipedia.org" url then Some "en" else None)
    as [code |];
    [| eexists _, _; split; [reflexivity | apply only_traced_refl]].
  cbv zeta. rewrite bind_eq. unfold try_except at 1. rewrite bind_eq. unfold send at 1.
  set (w1 := mkWorld (S (clock w)) _ _ _).
  assert (H1 : only_traced w w1) by apply only_traced_sent.
  assert (Hd : exists d w2,
             match (match summary (clock w) (ReqSummary code (last_segment url)) with
                    | Raises e => raise e
                    | Body extract => mret (default Wiki.NO_DESCRIPTION extract)
                    end) w1 with
             | (Raise e, w') =>
                 (log ERROR (MsgDescriptionError (last_segment url));;
                  mret Wiki.NO_DESCRIPTION) w'
             | r => r
             end = (Ok d, w2) /\ only_traced w w2).
  { destruct (summary (clock w) _) as [e | extract].
    - eexists _, _. split; [reflexivity |].
      exact (only_traced_trans _ _ _ H1 (only_traced_event _ _)).
    - eexists _, _. split; [reflexivity | exact H1]. }
  destruct Hd as (d & w2 & -> & H2).
  rewrite bind_eq. unfold try_except at 1. rewrite bind_eq. unfold send at 1.
  set (w3 := mkWorld (S (clock w2)) _ _ _).
  assert (H3 : only_traced w w3)
    by exact (only_traced_trans _ _ _ H2 (only_traced_sent _ w2)).
  destruct (pageviews (clock w2) _) as [e | views].
  - eexists _, _. split; [reflexivity |].
    exact (only_traced_trans _ _ _ H3 (only_traced_event _ _)).
  - eexists _, _. split; [reflexivity | exact H3].
Qed.
(** The [try] of the loop body raises exactly when the row lacks one of the
    two page columns; the occupation query has been sent by then. *)
Lemma fetch_row_effects (person_id : string) (row : list (string * scalar)) (w : world) :
  exists w',
    asked (ReqSparql (QOccupation person_id)) w w'
    /\ match dict_get "GermanWikipedia" row, dict_get "EnglishWikipedia" row with
       | Some _, Some _ => exists r, fetch_row person_id row w = (Ok r, w')
       | _, _ => fetch_row person_id row w = (Raise KeyError, w')
       end.
Proof.
  unfold Wiki.fetch_row. rewrite bind_eq.
  destruct (fetch_occupation_and_death_effects person_id w) as (pd & w1 & -> & H1).
  rewrite bind_eq. unfold Wiki.row_get.
  destruct (dict_get "GermanWikipedia" row) as [g |]; [| exists w1; now split].
  munfold.
  destruct (fetch_wikipedia_data_effects g w1) as (gr & w2 & -> & H2).
  destruct (dict_get "EnglishWikipedia" row) as [e |].
  - destruct (fetch_wikipedia_data_effects e w2) as (er & w3 & -> & H3).
    exists w3. split; [| eexists; reflexivity].
    exact (asked_then _ _ _ _ (asked_then _ _ _ _ H1 H2) H3).
  - exists w2. split; [exact (asked_then _ _ _ _ H1 H2) | reflexivity].
Qed.

Lemma process_row_skipped (checkpoint_csv : string) (last_processed_index : Z)
    (enriched_data : list (list (string * scalar))) (idx : nat)
    (row : list (string * scalar)) (w : world) :
  (Z.of_nat idx <= last_processed_index)%Z ->
  process_row checkpoint_csv last_processed_index enriched_data (idx, row) w
  = (Ok enriched_data, w).
Proof.
  intros H. unfold Wiki.process_row. apply Z.leb_le in H. now rewrite H.
Qed.

Lemma process_row_attempted (checkpoint_csv : string) (last_processed_index : Z)
    (enriched_data : list (list (string * scalar))) (idx : nat)
    (row : list (string * scalar)) (person : string) (w : world) :
  (last_processed_index < Z.of_nat idx)%Z ->
  dict_get "person" row = Some (SStr person) ->
  exists w1,
    asked (ReqSparql (QOccupation (last_segment person))) w w1
    /\ match dict_get "GermanWikipedia" row, dict_get "EnglishWikipedia" row with
       | Some _, Some _ =>
           exists enriched_row w',
             process_row checkpoint_csv last_processed_index enriched_data (idx, row) w
             = (Ok (enriched_data ++ [enriched_row]), w')
             /\ files w' = files w1 /\ trace w' = EvSleep 300 :: trace w1
       | _, _ =>
           process_row checkpoint_csv last_processed_index enriched_data (idx, row) w
           = (Ok enriched_data, traced (EvLog ERROR (MsgRowError (last_segment person))) w1)
       end.
Proof.
  intros Hidx Hp. unfold Wiki.process_row. apply Z.leb_gt in Hidx. rewrite Hidx.
  rewrite bind_eq. unfold Wiki.person_id_of, Wiki.row_get. rewrite Hp. munfold.
  unfold try_except.
  destruct (fetch_row_effects (last_segment person) row w) as (w1 & Hasked & Hrow).
  exists w1. split; [exact Hasked |].
  destruct (dict_get "GermanWikipedia" row) as [g |];
    [destruct (dict_get "EnglishWikipedia" row) as [e |] |];
    try (rewrite Hrow; reflexivity).
  destruct Hrow as [[[pd gr] er] ->].
  destruct (_ mod 100 =? 0).
  - unfold to_csv, sleep, emit. eexists _, _. split; [reflexivity |]. now split.
  - unfold sleep, emit. eexists _, _. split; [reflexivity |]. now split.
Qed.

Lemma load_checkpoint_rows (checkpoint_csv : string) (checkpoint_df : DataFrame scalar)
    (w : world) :
  tables w !! checkpoint_csv = Some (Csv checkpoint_df) ->
  Wiki.load_checkpoint checkpoint_csv w
  = (Ok (Some (to_records checkpoint_df, (Z.of_nat (df_len checkpoint_df) - 1)%Z)), w).
Proof.
  intros H. unfold Wiki.load_checkpoint, try_except, read_csv, get_tables. munfold.
  rewrite H. cbv beta iota. rewrite H. reflexivity.
Qed.
End WikiFacts.


Lemma dict_get_map_none {A B : Type} (g : string * A -> B) (c : string)
    (d : list (string * A)) :
  dict_get c d = None -> dict_get c (map (fun cs => (fst cs, g cs)) d) = None.
Proof.
  induction d as [| [k v] d IH]; [reflexivity |].
  simpl. destruct (String.eqb c k); [discriminate | exact IH].
Qed.

Lemma to_records_lacks {C : Type} `{Cell C} (df : DataFrame C) (c : string)
    (row : list (string * C)) :
  df_getitem c df = None -> In row (to_records df) -> dict_get c row = None.
Proof.
  unfold to_records, df_getitem. intros Hc Hin.
  apply in_map_iff in Hin as (i & <- & _).
  now apply (dict_get_map_none (fun cs => default nan (snd cs !! i))).
Qed.

Lemma length_to_records {C : Type} `{Cell C} (df : DataFrame C) :
  length (to_records df) = df_len df.
Proof. unfold to_records. now rewrite length_map, length_seq. Qed.

Section WikiRun.
Variable sparql : nat -> request -> response (list (option string * option string)).
Variable summary : nat -> request -> response (option string).
Variable pageviews : nat -> request -> response (list Z).

(** When every row lacks a page column the loop adds no row and writes no
    file. *)
Lemma rows_all_skipped (checkpoint_csv : string) (last_processed_index : Z)
    (items : list (nat * list (string * scalar)))
    (enriched_data : list (list (string * scalar))) (w : world) :
  (forall idx row, In (idx, row) items ->
                   (exists person, dict_get "person" row = Some (SStr person))
                   /\ (dict_get "GermanWikipedia" row = None
                       \/ dict_get "EnglishWikipedia" row = None)) ->
  exists w',
    for_each (Wiki.process_row sparql summary pageviews checkpoint_csv last_processed_index)
             items enriched_data w = (Ok enriched_data, w')
    /\ only_traced w w'.
Proof.
  revert w. induction items as [| [idx row] items IH]; intros w Hrows.
  - exists w. split; [reflexivity | apply only_traced_refl].
  - rewrite for_each_cons.
    destruct (Hrows idx row (or_introl eq_refl)) as [[person Hp] Hcol].
    assert (Hstep : exists w1,
               Wiki.process_row sparql summary pageviews checkpoint_csv
                 last_processed_index enriched_data (idx, row) w = (Ok enriched_data, w1)
               /\ only_traced w w1).
    { destruct (Z_le_gt_dec (Z.of_nat idx) last_processed_index) as [Hle | Hgt].
      - exists w. split; [now apply process_row_skipped | apply only_traced_refl].
      - destruct (process_row_attempted sparql summary pageviews checkpoint_csv
                    last_processed_index enriched_data idx row person w
                    ltac:(lia) Hp) as (w1 & (F & T & evs & E & _) & Hrow).
        eexists. split.
        + destruct Hcol as [Hg | He].
          * rewrite Hg in Hrow. exact Hrow.
          * rewrite He in Hrow.
            destruct (dict_get "GermanWikipedia" row); exact Hrow.
        + split; [exact F | split; [exact T |]]. eexists (_ :: evs). simpl. now rewrite E. }
    destruct Hstep as (w1 & -> & H1).
    destruct (IH w1) as (w' & Hrun & H2).
    { intros idx' row' Hin. apply (Hrows idx' row'). now right. }
    exists w'. split; [exact Hrun | exact (only_traced_trans _ _ _ H1 H2)].
Qed.
End WikiRun.

(** C10 (as amended).  The checkpoint file of [k] rows makes the loop skip
    the rows at the first [k] positions, with no effect at all.  A row at a
    later position is attempted on every run: its occupation query is sent;
    when the row lacks one of the two page columns the fetch raises and the
    row is skipped with no output row and no file written, otherwise one row
    is added.  When a page column is missing from the input file the output
    is the rows of the checkpoint and nothing else. *)
Theorem enrichment_rows sparql summary pageviews (checkpoint_csv : string) :
  (forall checkpoint_df w,
      tables w !! checkpoint_csv = Some (Csv checkpoint_df) ->
      Wiki.load_checkpoint checkpoint_csv w
      = (Ok (Some (to_records checkpoint_df, (Z.of_nat (df_len checkpoint_df) - 1)%Z)), w)
      /\ length (to_records checkpoint_df) = df_len checkpoint_df)
  /\ (forall k enriched_data idx row w,
         idx < k ->
         Wiki.process_row sparql summary pageviews checkpoint_csv (Z.of_nat k - 1)
                          enriched_data (idx, row) w
         = (Ok enriched_data, w))
  /\ (forall k enriched_data idx row person w,
         k <= idx ->
         dict_get "person" row = Some (SStr person) ->
         exists w1,
           asked (ReqSparql (QOccupation (last_segment person))) w w1
           /\ match dict_get "GermanWikipedia" row, dict_get "EnglishWikipedia" row with
              | Some _, Some _ =>
                  exists enriched_row w',
                    Wiki.process_row sparql summary pageviews checkpoint_csv
                                     (Z.of_nat k - 1) enriched_data (idx, row) w
                    = (Ok (enriched_data ++ [enriched_row]), w')
              | _, _ =>
                  Wiki.process_row sparql summary pageviews checkpoint_csv
                                   (Z.of_nat k - 1) enriched_data (idx, row) w
                  = (Ok enriched_data,
                     traced (EvLog ERROR (MsgRowError (last_segment person))) w1)
              end)
  /\ (forall input_csv output_csv df enriched_data last_processed_index w,
         tables w !! input_csv = Some (Csv df) ->
         Wiki.load_checkpoint checkpoint_csv w
         = (Ok (Some (enriched_data, last_processed_index)), w) ->
         (forall row, In row (to_records df) ->
                      exists person, dict_get "person" row = Some (SStr person)) ->
         df_getitem "GermanWikipedia" df = None
         \/ df_getitem "EnglishWikipedia" df = None ->
         exists w',
           Wiki.enrich_data sparql summary pageviews input_csv output_csv checkpoint_csv w
           = (Ok tt, w')
           /\ tables w' = <[output_csv := csv_of (from_records enriched_data)]> (tables w)).
Proof.
  split; [| split; [| split]].
  - intros checkpoint_df w H. split; [now apply load_checkpoint_rows |].
    apply length_to_records.
  - intros k enriched_data idx row w H. apply process_row_skipped. lia.
  - intros k enriched_data idx row person w Hk Hp.
    destruct (process_row_attempted sparql summary pageviews checkpoint_csv
                (Z.of_nat k - 1) enriched_data idx row person w ltac:(lia) Hp)
      as (w1 & Hasked & Hrow).
    exists w1. split; [exact Hasked |].
    destruct (dict_get "GermanWikipedia" row);
      [destruct (dict_get "EnglishWikipedia" row) |]; try exact Hrow.
    destruct Hrow as (enriched_row & w' & Hrow & _). now exists enriched_row, w'.
  - intros input_csv output_csv df enriched_data last_processed_index w Ht Hl Hperson Hcol.
    destruct (rows_all_skipped sparql summary pageviews checkpoint_csv
                last_processed_index
                (zip (seq 0 (length (to_records df))) (to_records df)) enriched_data w)
      as (w' & Hrun & _ & Htab & _).
    { intros idx row Hin.
      assert (Hr : In row (to_records df)).
      { apply list_elem_of_In. apply list_elem_of_In in Hin.
        exact (elem_of_zip_r _ _ _ _ Hin). }
      split; [now apply Hperson |].
      destruct Hcol as [Hc | Hc]; [left | right]; exact (to_records_lacks _ _ _ Hc Hr). }
    eexists. split.
    + unfold Wiki.enrich_data. rewrite bind_eq. unfold try_except at 1.
      rewrite bind_eq. unfold read_csv at 1. rewrite bind_eq. unfold get_tables at 1.
      rewrite Ht. munfold. rewrite Hl. cbv zeta. rewrite Hrun. reflexivity.
    + unfold csv_of. simpl. now rewrite Htab.
Qed.

Lemma enrichment_rows_witness :
  Wiki.load_checkpoint "checkpoint.csv" enrichment_dir
  = (Ok (Some ([[("person", SStr "http://www.wikidata.org/entity/Q1");
                 ("occupation", SStr "Maler")]], 0%Z)), enrichment_dir)
  /\ Wiki.process_row net_empty net_down net_down "checkpoint.csv" (Z.of_nat 1 - 1) []
       (0, [("person", SStr "http://www.wikidata.org/entity/Q1")]) enrichment_dir
     = (Ok [], enrichment_dir)
  /\ (exists w1,
         asked (ReqSparql (QOccupation "Q2")) enrichment_dir w1
         /\ Wiki.process_row net_empty net_down net_down "checkpoint.csv" (Z.of_nat 1 - 1) []
              (1, [("person", SStr "http://www.wikidata.org/entity/Q2")]) enrichment_dir
            = (Ok [], traced (EvLog ERROR (MsgRowError "Q2")) w1))
  /\ exists w',
      Wiki.enrich_data net_empty net_down net_down "final_combined_results.csv"
        "enriched_final_results.csv" "checkpoint.csv" enrichment_dir = (Ok tt, w')
      /\ tables w' !! "enriched_final_results.csv"
         = Some (Csv (mkDF 1 [("person", [SStr "http://www.wikidata.org/entity/Q1"]);
                              ("occupation", [SStr "Maler"])])).
Proof.
  destruct (enrichment_rows (@net_empty (option string * option string))
              (@net_down (option string)) (@net_down (list Z)) "checkpoint.csv")
    as (H1 & H2 & H3 & H4).
  split; [| split; [| split]].
  - exact (proj1 (H1 (mkDF 1 [("person", [SStr "http://www.wikidata.org/entity/Q1"]);
                              ("occupation", [SStr "Maler"])])
                     enrichment_dir eq_refl)).
  - apply (H2 1). lia.
  - exact (H3 1 [] 1 [("person", SStr "http://www.wikidata.org/entity/Q2")]
              "http://www.wikidata.org/entity/Q2" enrichment_dir (le_n 1) eq_refl).
  - destruct (H4 "final_combined_results.csv" "enriched_final_results.csv"
                 (mkDF 2 [("person", [SStr "http://www.wikidata.org/entity/Q1";
                                      SStr "http://www.wikidata.org/entity/Q2"]);
                          ("EnglishWikipedia", [SStr "No"; SStr "No"])])
                 [[("person", SStr "http://www.wikidata.org/entity/Q1");
                   ("occupation", SStr "Maler")]] 0%Z enrichment_dir)
      as (w' & Hrun & Htab).
    + reflexivity.
    + reflexivity.
    + intros row [<- | [<- | []]]; eexists; reflexivity.
    + left. reflexivity.
    + exists w'. split; [exact Hrun |]. rewrite Htab. apply lookup_insert_eq.
Defined.

(** C10, the claim as stated fails: the second row is skipped by error in a
    first run, which leaves the checkpoint file as it was; the next run sends
    the occupation query for that row again. *)
Lemma skipped_row_is_fetched_again :
  let run := Wiki.enrich_data net_empty net_down net_down "final_combined_results.csv"
               "enriched_final_results.csv" "checkpoint.csv" in
  let w1 := snd (run enrichment_dir) in
  let w2 := snd (run (fresh (files w1) (tables w1))) in
  In (EvLog ERROR (MsgRowError "Q2")) (trace w1)
  /\ tables w1 !! "checkpoint.csv" = tables enrichment_dir !! "checkpoint.csv"
  /\ In (EvRequest (ReqSparql (QOccupation "Q2"))) (trace w2).
Proof.
  vm_compute. split; [| split; [reflexivity |]].
  - left. reflexivity.
  - do 2 right. left. reflexivity.
Qed.

(** * Further properties *)

(** ** [query_wikidata]: retries, cost and bounds *)

Lemma sleeps_app (a b : list event) : sleeps (a ++ b) = sleeps b ++ sleeps a.
Proof. unfold sleeps. now rewrite rev_app_distr, omap_app. Qed.

Lemma requests_app (a b : list event) : requests (a ++ b) = requests b ++ requests a.
Proof. unfold requests. now rewrite rev_app_distr, omap_app. Qed.

Lemma failed_attempts_snoc backoff max_retries (q : query) (pre : list nat) (a : nat) :
  failed_attempts backoff max_retries q (pre ++ [a])
  = [EvSleep (1000 * backoff a); EvLog ERROR (MsgRequestError (a + 1) max_retries);
     EvRequest (ReqSparql q)]
    ++ failed_attempts backoff max_retries q pre.
Proof.
  unfold failed_attempts. rewrite map_app, concat_app, rev_app_distr. reflexivity.
Qed.

Lemma sleeps_failed_attempts backoff max_retries (q : query) (attempts : list nat) :
  sleeps (failed_attempts backoff max_retries q attempts)
  = map (fun attempt => (1000 * backoff attempt)%Z) attempts.
Proof.
  unfold sleeps, failed_attempts. rewrite rev_involutive.
  induction attempts as [| a rest IH]; [reflexivity |].
  cbn [map concat]. rewrite omap_app, IH. reflexivity.
Qed.

Lemma requests_failed_attempts backoff max_retries (q : query) (attempts : list nat) :
  requests (failed_attempts backoff max_retries q attempts)
  = map (fun _ => ReqSparql q) attempts.
Proof.
  unfold requests, failed_attempts. rewrite rev_involutive.
  induction attempts as [| a rest IH]; [reflexivity |].
  cbn [map concat]. rewrite omap_app, IH. reflexivity.
Qed.

Section RetryFacts.
Variable net : nat -> request -> response (list binding).
Variable backoff : nat -> Z.
Variable max_retries : nat.

(** The attempts that fail by transport are gone through one by one. *)
Lemma query_attempts_skip (pre rest : list nat) (q : query) (w : world) :
  (forall i, i < length pre ->
             net (clock w + i) (ReqSparql q) = Raises RequestException) ->
  query_attempts net backoff max_retries (pre ++ rest) q w
  = query_attempts net backoff max_retries rest q
      (after_failures backoff max_retries q pre w).
Proof.
  revert rest w. induction pre as [| a pre IH] using rev_ind; intros rest w H.
  - unfold after_failures, failed_attempts. simpl. rewrite Nat.add_0_r.
    now destruct w.
  - rewrite <- app_assoc. rewrite IH.
    + simpl app. rewrite query_attempts_cons.
      change (clock (after_failures backoff max_retries q pre w))
        with (clock w + length pre).
      rewrite (H (length pre)) by (rewrite length_app; simpl; lia).
      f_equal. unfold after_failures, traced, sent. simpl.
      rewrite failed_attempts_snoc, length_app. simpl. f_equal. lia.
    + intros i Hi. apply H. rewrite length_app. lia.
Qed.

Lemma query_attempts_clock (attempts : list nat) (q : query) (w : world) :
  clock w <= clock (snd (query_attempts net backoff max_retries attempts q w))
  <= clock w + length attempts.
Proof.
  revert w. induction attempts as [| a rest IH]; intros w; [simpl; lia |].
  rewrite query_attempts_cons.
  destruct (net (clock w) (ReqSparql q)) as [[] | [| r rs]]; simpl; try lia.
  match goal with |- context [query_attempts _ _ _ _ _ ?w1] => specialize (IH w1) end.
  simpl in IH. lia.
Qed.
End RetryFacts.

(** X1.  A fetch whose first [j] attempts fail by transport and whose next
    attempt, still within [max_retries], answers with records returns the
    frame of exactly these records; it has sent [j + 1] requests, slept after
    each failure by the backoff of that attempt, and changed no file. *)
Theorem query_wikidata_recovers net backoff max_retries (q : query) (w : world)
    (j : nat) (r : binding) (rs : list binding) :
  j < max_retries ->
  (forall i, i < j -> net (clock w + i) (ReqSparql q) = Raises RequestException) ->
  net (clock w + j) (ReqSparql q) = Body (r :: rs) ->
  exists evs,
    query_wikidata net backoff max_retries q w
    = (Ok (Some (from_records (r :: rs))),
       mkWorld (clock w + j + 1) (files w) (tables w) (evs ++ trace w))
    /\ requests evs = repeat (ReqSparql q) (j + 1)
    /\ sleeps evs = map (fun attempt => (1000 * backoff attempt)%Z) (seq 0 j).
Proof.
  intros Hj Hdown Hbody. unfold query_wikidata.
  replace max_retries with (j + S (max_retries - S j)) by lia.
  rewrite seq_app. simpl seq.
  rewrite query_attempts_skip by (now rewrite length_seq).
  rewrite query_attempts_cons.
  unfold after_failures at 1. simpl clock. rewrite length_seq, Hbody.
  exists (EvRequest (ReqSparql q) :: failed_attempts backoff (j + S (max_retries - S j)) q (seq 0 j)).
  split; [| split].
  - unfold sent, after_failures. simpl. rewrite length_seq. do 2 f_equal. lia.
  - change (EvRequest (ReqSparql q) :: ?l) with ([EvRequest (ReqSparql q)] ++ l).
    rewrite requests_app, requests_failed_attempts.
    rewrite repeat_app. simpl. f_equal.
    clear. generalize 0. induction j as [| j IH]; intros s; [reflexivity |].
    simpl. now rewrite IH.
  - change (EvRequest (ReqSparql q) :: ?l) with ([EvRequest (ReqSparql q)] ++ l).
    rewrite sleeps_app, sleeps_failed_attempts. simpl. now rewrite app_nil_r.
Qed.

Lemma query_wikidata_recovers_witness :
  exists evs,
    query_wikidata (net_recovering 2 [[("person", envelope "Q1")]])
                   Missing.backoff Missing.MAX_RETRIES (QPerson "Q1") empty_world
    = (Ok (Some (from_records [[("person", envelope "Q1")]])),
       mkWorld 3 ∅ ∅ (evs ++ []))
    /\ sleeps evs = [20000; 40000]%Z.
Proof.
  destruct (query_wikidata_recovers (net_recovering 2 [[("person", envelope "Q1")]])
              Missing.backoff Missing.MAX_RETRIES (QPerson "Q1") empty_world 2
              [("person", envelope "Q1")] [])
    as (evs & Hrun & _ & Hs).
  - unfold Missing.MAX_RETRIES. lia.
  - intros i Hi. unfold net_recovering. simpl.
    destruct (Nat.ltb_spec i 2); [reflexivity | lia].
  - reflexivity.
  - exists evs. split; [exact Hrun | exact Hs].
Defined.

(** X2.  A fetch all of whose attempts fail by transport returns [None]
    after [max_retries] requests, having slept after every attempt, the last
    one included; with the constants of the scripts that is 20460 seconds in
    [missing.py] and 550 seconds in [wiki_birth.py] and
    [wiki_german_de.py]. *)
Theorem query_wikidata_gives_up net backoff max_retries (q : query) (w : world) :
  (forall i, i < max_retries ->
             net (clock w + i) (ReqSparql q) = Raises RequestException) ->
  query_wikidata net backoff max_retries q w
  = (Ok None,
     traced (EvLog ERROR MsgMaxRetries)
            (after_failures backoff max_retries q (seq 0 max_retries) w))
  /\ sleeps (failed_attempts backoff max_retries q (seq 0 max_retries))
     = map (fun attempt => (1000 * backoff attempt)%Z) (seq 0 max_retries)
  /\ foldr Z.add 0%Z
       (sleeps (failed_attempts Missing.backoff Missing.MAX_RETRIES q
                                (seq 0 Missing.MAX_RETRIES)))
     = (20460 * 1000)%Z
  /\ foldr Z.add 0%Z
       (sleeps (failed_attempts BatchLoop.backoff BatchLoop.MAX_RETRIES q
                                (seq 0 BatchLoop.MAX_RETRIES)))
     = (550 * 1000)%Z.
Proof.
  intros H. split; [| split; [| split]].
  - unfold query_wikidata.
    rewrite <- (app_nil_r (seq 0 max_retries)) at 1.
    rewrite query_attempts_skip by (now rewrite length_seq). reflexivity.
  - apply sleeps_failed_attempts.
  - rewrite sleeps_failed_attempts. reflexivity.
  - rewrite sleeps_failed_attempts. reflexivity.
Qed.

Lemma query_wikidata_gives_up_witness :
  fst (query_wikidata net_down Missing.backoff Missing.MAX_RETRIES (QPerson "Q1")
                      empty_world) = Ok None
  /\ clock (snd (query_wikidata net_down Missing.backoff Missing.MAX_RETRIES
                                (QPerson "Q1") empty_world)) = 10.
Proof.
  destruct (query_wikidata_gives_up net_down Missing.backoff Missing.MAX_RETRIES
              (QPerson "Q1") empty_world (fun i _ => eq_refl)) as [-> _].
  split; reflexivity.
Defined.

(** X3.  Whatever the provider does, [query_wikidata] sends at most
    [max_retries] requests, changes no file and ends; an exception that is
    not a [RequestException] is not retried: at whichever attempt it is
    raised, after the failures caught before it, it leaves the function
    there, with the request sent and nothing logged or slept for it. *)
Theorem query_wikidata_bounds net backoff max_retries (q : query) (w : world) :
  (clock w <= clock (snd (query_wikidata net backoff max_retries q w))
   <= clock w + max_retries)
  /\ files (snd (query_wikidata net backoff max_retries q w)) = files w
  /\ tables (snd (query_wikidata net backoff max_retries q w)) = tables w
  /\ fst (query_wikidata net backoff max_retries q w) <> OutOfFuel
  /\ (forall e j, e <> RequestException -> j < max_retries ->
                  (forall i, i < j ->
                             net (clock w + i) (ReqSparql q) = Raises RequestException) ->
                  net (clock w + j) (ReqSparql q) = Raises e ->
                  query_wikidata net backoff max_retries q w
                  = (Raise e,
                     sent (ReqSparql q)
                          (after_failures backoff max_retries q (seq 0 j) w))).
Proof.
  unfold query_wikidata. split; [| split; [| split; [| split]]].
  - generalize (query_attempts_clock net backoff max_retries (seq 0 max_retries) q w).
    now rewrite length_seq.
  - apply query_attempts_files.
  - apply query_attempts_files.
  - apply terminates_query_attempts.
  - intros e j He Hj Hdown Hnet.
    assert (Hseq : seq 0 max_retries = seq 0 j ++ j :: seq (S j) (max_retries - S j)).
    { replace max_retries with (j + S (max_retries - S j)) at 1 by lia.
      now rewrite seq_app. }
    rewrite Hseq, query_attempts_skip by (now rewrite length_seq).
    rewrite query_attempts_cons.
    change (clock (after_failures backoff max_retries q (seq 0 j) w))
      with (clock w + length (seq 0 j)).
    rewrite length_seq, Hnet. now destruct e.
Qed.

Lemma query_wikidata_bounds_witness :
  let net := fun (i : nat) (_ : request) =>
               if i <? 2 then Raises RequestException
               else (Raises AttributeError : response (list binding)) in
  query_wikidata net Missing.backoff Missing.MAX_RETRIES (QPerson "Q1") empty_world
  = (Raise AttributeError,
     mkWorld 3 ∅ ∅
       [EvRequest (ReqSparql (QPerson "Q1"));
        EvSleep 40000; EvLog ERROR (MsgRequestError 2 10);
        EvRequest (ReqSparql (QPerson "Q1"));
        EvSleep 20000; EvLog ERROR (MsgRequestError 1 10);
        EvRequest (ReqSparql (QPerson "Q1"))]).
Proof.
  intros net.
  apply (proj2 (proj2 (proj2 (proj2
           (query_wikidata_bounds net Missing.backoff Missing.MAX_RETRIES (QPerson "Q1")
                                  empty_world))))
           AttributeError 2).
  - discriminate.
  - unfold Missing.MAX_RETRIES. lia.
  - intros i Hi. unfold net. change (clock empty_world + i) with i.
    destruct (Nat.ltb_spec i 2); [reflexivity | lia].
  - reflexivity.
Defined.

(** ** [process_results]: what it keeps *)

Lemma dict_get_map_snd {A B : Type} (g : A -> B) (c : string) (d : list (string * A)) :
  dict_get c (map (fun cs => (fst cs, g (snd cs))) d) = g <$> dict_get c d.
Proof.
  induction d as [| [k v] d IH]; [reflexivity |].
  simpl. destruct (String.eqb c k); [reflexivity | exact IH].
Qed.




(** ** What a run touches *)

Lemma touches_refl (texts csvs : list string) (w : world) : touches texts csvs w w.
Proof. repeat split; [lia | now exists []]. Qed.

Lemma touches_trans (texts csvs : list string) (w1 w2 w3 : world) :
  touches texts csvs w1 w2 -> touches texts csvs w2 w3 -> touches texts csvs w1 w3.
Proof.
  intros (C1 & [e1 T1] & F1 & B1) (C2 & [e2 T2] & F2 & B2).
  split; [lia | split; [| split]].
  - exists (e2 ++ e1). now rewrite T2, T1, app_assoc.
  - intros path H. now rewrite F2, F1.
  - intros path H. now rewrite B2, B1.
Qed.

Lemma keeps_ret {A : Type} (texts csvs : list string) (a : A) :
  keeps (touches texts csvs) (mret a).
Proof. intros w. apply touches_refl. Qed.

Lemma keeps_raise {A : Type} (texts csvs : list string) (e : exn) :
  keeps (touches texts csvs) (@raise A e).
Proof. intros w. apply touches_refl. Qed.

Lemma keeps_out_of_fuel {A : Type} (texts csvs : list string) :
  keeps (touches texts csvs) (@out_of_fuel A).
Proof. intros w. apply touches_refl. Qed.

Lemma keeps_bind {A B : Type} (texts csvs : list string) (m : M A) (f : A -> M B) :
  keeps (touches texts csvs) m -> (forall a, keeps (touches texts csvs) (f a)) ->
  keeps (touches texts csvs) (m ≫= f).
Proof.
  intros Hm Hf w. rewrite bind_eq. specialize (Hm w).
  destruct (m w) as [[a | e |] w1]; [| exact Hm | exact Hm].
  exact (touches_trans _ _ _ _ _ Hm (Hf a w1)).
Qed.

Lemma keeps_try {A : Type} (texts csvs : list string) (body : M A) (handler : exn -> M A) :
  keeps (touches texts csvs) body -> (forall e, keeps (touches texts csvs) (handler e)) ->
  keeps (touches texts csvs) (try_except body handler).
Proof.
  intros Hb Hh w. unfold try_except. specialize (Hb w).
  destruct (body w) as [[a | e |] w1]; [exact Hb | | exact Hb].
  exact (touches_trans _ _ _ _ _ Hb (Hh e w1)).
Qed.

Lemma keeps_emit (texts csvs : list string) (e : event) :
  keeps (touches texts csvs) (emit e).
Proof. intros w. repeat split; [simpl; lia | now exists [e]]. Qed.

Lemma keeps_log (texts csvs : list string) (l : level) (m : message) :
  keeps (touches texts csvs) (log l m).
Proof. apply keeps_emit. Qed.

Lemma keeps_sleep (texts csvs : list string) (ms : Z) :
  keeps (touches texts csvs) (sleep ms).
Proof. apply keeps_emit. Qed.

Lemma keeps_get_files (texts csvs : list string) : keeps (touches texts csvs) get_files.
Proof. intros w. apply touches_refl. Qed.

Lemma keeps_get_tables (texts csvs : list string) : keeps (touches texts csvs) get_tables.
Proof. intros w. apply touches_refl. Qed.

Lemma keeps_send {R : Type} (texts csvs : list string) (net : nat -> request -> R)
    (r : request) :
  keeps (touches texts csvs) (send net r).
Proof. intros w. repeat split; [simpl; lia | now exists [EvRequest r]]. Qed.

Lemma keeps_write_text (texts csvs : list string) (path content : string) :
  In path texts -> keeps (touches texts csvs) (write_text path content).
Proof.
  intros Hin w. repeat split; [simpl; lia | now exists [] |].
  intros path' H. simpl. apply lookup_insert_ne. intros ->. contradiction.
Qed.

Lemma keeps_to_csv (texts csvs : list string) (path : string) (df : DataFrame scalar) :
  In path csvs -> keeps (touches texts csvs) (to_csv path df).
Proof.
  intros Hin w. repeat split; [simpl; lia | now exists [] |].
  intros path' H. simpl. apply lookup_insert_ne. intros ->. contradiction.
Qed.

Create HintDb frames.

#[local] Hint Resolve keeps_ret keeps_raise keeps_out_of_fuel keeps_emit keeps_log
  keeps_sleep keeps_get_files keeps_get_tables keeps_send : frames.

#[local] Hint Extern 1 (In _ _) => simpl; tauto : frames.
#[local] Hint Resolve keeps_write_text keeps_to_csv : frames.

Ltac frame :=
  repeat first
    [ progress auto with frames
    | apply keeps_bind; [| intros ?]
    | apply keeps_try; [| intros ?]
    | match goal with
      | |- keeps _ (match ?x with _ => _ end) => destruct x
      | |- keeps _ (if ?b then _ else _) => destruct b
      | |- keeps _ (let (_, _) := ?x in _) => destruct x
      end ].

Lemma keeps_read_csv (texts csvs : list string) (path : string) :
  keeps (touches texts csvs) (read_csv path).
Proof. unfold read_csv. frame. Qed.

Lemma keeps_read_pointer (texts csvs : list string) (filename : string) :
  keeps (touches texts csvs) (read_pointer filename).
Proof. unfold read_pointer. frame. Qed.

Lemma keeps_for_each {A S : Type} (texts csvs : list string) (body : S -> A -> M S)
    (xs : list A) :
  (forall st x, keeps (touches texts csvs) (body st x)) ->
  forall st, keeps (touches texts csvs) (for_each body xs st).
Proof. intros Hb. induction xs as [| x xs IH]; intros st; simpl; frame. Qed.

Lemma keeps_map_M {A B : Type} (texts csvs : list string) (f : A -> M B) (xs : list A) :
  (forall x, keeps (touches texts csvs) (f x)) -> keeps (touches texts csvs) (map_M f xs).
Proof. intros Hf. induction xs as [| x xs IH]; simpl; frame. Qed.

Lemma keeps_query_attempts (texts csvs : list string) net backoff max_retries
    (attempts : list nat) (q : query) :
  keeps (touches texts csvs) (query_attempts net backoff max_retries attempts q).
Proof. induction attempts as [| a rest IH]; simpl; frame. Qed.

#[local] Hint Resolve keeps_read_csv keeps_read_pointer keeps_query_attempts : frames.

(** ** [missing.py]: the identifiers and the resumption *)

Lemma split_on_no_sep (sep : ascii) (s : string) :
  Forall (fun p => contains_char sep p = false) (split_on sep s).
Proof.
  induction s as [| c s IH]; [repeat constructor |].
  simpl. destruct (Ascii.eqb c sep) eqn:E; [now constructor |].
  destruct (split_on sep s) as [| h t]; [repeat constructor; simpl; now rewrite E |].
  inversion IH as [| ? ? Hh Ht]; subst. constructor; [| exact Ht].
  simpl. now rewrite E, Hh.
Qed.

Lemma last_forall {A : Type} (P : A -> Prop) (l : list A) (d : A) :
  Forall P l -> P d -> P (List.last l d).
Proof.
  intros H Hd. induction H as [| x l Hx Hl IH]; [exact Hd |].
  destruct l; [exact Hx | exact IH].
Qed.

Lemma last_segment_no_slash (s : string) :
  contains_char "/"%char (last_segment s) = false.
Proof. unfold last_segment. apply last_forall; [apply split_on_no_sep | reflexivity]. Qed.

Lemma short_id_no_slash (s : string) : contains_char "/"%char (short_id s) = false.
Proof.
  unfold short_id. destruct (contains_char "/"%char s) eqn:E;
    [apply last_segment_no_slash | exact E].
Qed.

Lemma strings_of_notna (col : list scalar) :
  strings_of (List.filter notna col) = strings_of col.
Proof.
  induction col as [| x col IH]; [reflexivity |].
  destruct x; simpl; try exact IH; unfold strings_of in *; simpl; now rewrite IH.
Qed.

Lemma map_M_id_of_cell (cells : list scalar) (w : world) :
  (forall x, In x cells -> notna x = true) ->
  (forall z, ~ In (SInt z) cells) ->
  map_M Missing.id_of_cell cells w = (Ok (map short_id (strings_of cells)), w).
Proof.
  induction cells as [| x cells IH]; intros Hna Hint; [reflexivity |].
  cbn [map_M]. rewrite bind_eq.
  destruct x as [| | z | s].
  - specialize (Hna SNone (or_introl eq_refl)). discriminate.
  - specialize (Hna SNaN (or_introl eq_refl)). discriminate.
  - destruct (Hint z). now left.
  - simpl Missing.id_of_cell. munfold.
    rewrite IH; [reflexivity | intros y Hy; apply Hna; now right |].
    intros z Hz. apply (Hint z). now right.
Qed.

Lemma map_M_id_of_cell_number (cells : list scalar) (z : Z) (w : world) :
  (forall x, In x cells -> notna x = true) ->
  In (SInt z) cells ->
  map_M Missing.id_of_cell cells w = (Raise TypeError, w).
Proof.
  induction cells as [| x cells IH]; intros Hna Hin; [destruct Hin |].
  cbn [map_M]. rewrite bind_eq.
  destruct x as [| | z' | s].
  - specialize (Hna SNone (or_introl eq_refl)). discriminate.
  - specialize (Hna SNaN (or_introl eq_refl)). discriminate.
  - reflexivity.
  - simpl Missing.id_of_cell. munfold. rewrite IH; [reflexivity | |].
    + intros y Hy. apply Hna. now right.
    + destruct Hin as [Hin | Hin]; [discriminate | exact Hin].
Qed.

(** X5.  The identifiers [fetch_data_for_ids] reads from its input file: an
    unparsable file or a file without the [wikidata_id] column gives none,
    with an error line; so does a column with a number in it.  Otherwise the
    null cells are dropped and each string is cut down to what follows its
    last slash, so no identifier holds a slash; nothing is changed in the
    world. *)
Theorem read_ids_cases (file_path : string) (w : world) :
  (tables w !! file_path = Some BadCsv ->
   Missing.read_ids file_path w = (Ok None, traced (EvLog ERROR MsgCsvError) w))
  /\ forall df,
      tables w !! file_path = Some (Csv df) ->
      (df_getitem "wikidata_id" df = None ->
       Missing.read_ids file_path w = (Ok None, traced (EvLog ERROR MsgNoIdColumn) w))
      /\ forall col,
          df_getitem "wikidata_id" df = Some col ->
          ((forall z, ~ In (SInt z) col) ->
           Missing.read_ids file_path w = (Ok (Some (map short_id (strings_of col))), w)
           /\ Forall (fun id => contains_char "/"%char id = false)
                     (map short_id (strings_of col)))
          /\ (forall z, In (SInt z) col ->
                        Missing.read_ids file_path w
                        = (Ok None, traced (EvLog ERROR MsgCsvError) w)).
Proof.
  split.
  - intros Ht. unfold Missing.read_ids, try_except, read_csv, get_tables. munfold.
    now rewrite Ht.
  - intros df Ht.
    assert (Hread : forall k : DataFrame scalar -> M (option (list string)),
               (read_csv file_path ≫= k) w = k df w).
    { intros k. unfold read_csv, get_tables. munfold. now rewrite Ht. }
    split.
    + intros Hc. unfold Missing.read_ids, try_except. rewrite Hread, Hc. reflexivity.
    + intros col Hc.
      assert (Hna : forall x, In x (List.filter notna col) -> notna x = true).
      { intros x Hx. now apply filter_In in Hx. }
      split.
      * intros Hint. split.
        -- unfold Missing.read_ids, try_except. rewrite Hread, Hc, bind_eq.
           rewrite (map_M_id_of_cell _ w Hna).
           ++ now rewrite strings_of_notna.
           ++ intros z Hz. apply filter_In in Hz. now apply (Hint z).
        -- apply Forall_map. apply Forall_forall. intros s _. apply short_id_no_slash.
      * intros z Hz. unfold Missing.read_ids, try_except. rewrite Hread, Hc, bind_eq.
        rewrite (map_M_id_of_cell_number _ z w Hna); [reflexivity |].
        apply filter_In. now split.
Qed.

Lemma read_ids_cases_witness :
  Missing.read_ids "missing_persons.csv"
    (ids_dir [SStr "http://www.wikidata.org/entity/Q1"; SNaN; SStr "Q2"])
  = (Ok (Some ["Q1"; "Q2"]),
     ids_dir [SStr "http://www.wikidata.org/entity/Q1"; SNaN; SStr "Q2"])
  /\ fst (Missing.read_ids "missing_persons.csv" (ids_dir [SStr "Q1"; SInt 7])) = Ok None.
Proof.
  split.
  - refine (proj1 (proj1 (proj2 (proj2 (read_ids_cases "missing_persons.csv"
                                          (ids_dir [SStr "http://www.wikidata.org/entity/Q1";
                                                    SNaN; SStr "Q2"]))
                                       (mkDF 3 [("wikidata_id",
                                                 [SStr "http://www.wikidata.org/entity/Q1";
                                                  SNaN; SStr "Q2"])]) eq_refl)
                                [SStr "http://www.wikidata.org/entity/Q1"; SNaN; SStr "Q2"]
                                eq_refl) _)).
    intros z [H | [H | [H | []]]]; discriminate H.
  - rewrite (proj2 (proj2 (proj2 (read_ids_cases "missing_persons.csv"
                                    (ids_dir [SStr "Q1"; SInt 7]))
                                 (mkDF 2 [("wikidata_id", [SStr "Q1"; SInt 7])]) eq_refl)
                          [SStr "Q1"; SInt 7] eq_refl) 7%Z); [reflexivity |].
    right. now left.
Defined.

Lemma list_index_first (p : string) (pre post : list string) :
  ~ In p pre -> list_index p (pre ++ p :: post) = Some (length pre).
Proof.
  induction pre as [| y pre IH]; intros H.
  - simpl. now rewrite String.eqb_refl.
  - simpl. destruct (String.eqb_spec y p) as [-> | _]; [destruct H; now left |].
    rewrite IH; [reflexivity |]. intros Hin. apply H. now right.
Qed.

(** X6.  When the pointer is one of the identifiers, the run resumes right
    after its first occurrence in the list: the identifiers before it and the
    pointer itself are left out, the later ones are all kept, in order (so a
    pointer that is the last identifier leaves nothing to fetch); nothing is
    logged. *)
Theorem resume_after_pointer (p : string) (pre post : list string) (w : world) :
  p <> EmptyString -> ~ In p pre ->
  Missing.resume (pre ++ p :: post) (Some p) w = (Ok post, w).
Proof.
  intros Hp Hpre. unfold Missing.resume.
  destruct (String.eqb_spec p EmptyString) as [-> | _]; [contradiction |].
  rewrite (list_index_first _ _ _ Hpre). munfold.
  now rewrite drop_app_add.
Qed.

Lemma resume_after_pointer_witness :
  Missing.resume (["Q1"; "Q2"] ++ "Q3" :: ["Q4"; "Q3"]) (Some "Q3") empty_world
  = (Ok ["Q4"; "Q3"], empty_world).
Proof.
  apply resume_after_pointer; [discriminate |].
  intros [H | [H | []]]; discriminate H.
Defined.

(** ** [missing.py]: the loop over the identifiers *)

Lemma snapshots_app (a b : list event) : snapshots (a ++ b) = snapshots b ++ snapshots a.
Proof. unfold snapshots. now rewrite rev_app_distr, omap_app, concat_app. Qed.

Lemma query_attempts_no_snapshot net backoff max_retries (attempts : list nat)
    (q : query) (w : world) :
  exists evs,
    trace (snd (query_attempts net backoff max_retries attempts q w)) = evs ++ trace w
    /\ snapshots evs = [].
Proof.
  revert w. induction attempts as [| a rest IH]; intros w.
  - now exists [EvLog ERROR MsgMaxRetries].
  - rewrite query_attempts_cons.
    destruct (net (clock w) (ReqSparql q)) as [e | [| r rs]];
      try (now exists [EvRequest (ReqSparql q)]).
    destruct e; try (now exists [EvRequest (ReqSparql q)]).
    match goal with |- context [query_attempts _ _ _ _ _ ?w1] =>
      destruct (IH w1) as (evs & Ht & Hs) end.
    eexists (evs ++ [_; _; _]). rewrite <- app_assoc. split; [exact Ht |].
    rewrite snapshots_app, Hs. reflexivity.
Qed.

Lemma mod_succ (c n : nat) :
  0 < n -> (c + 1) mod n <> 0 -> (c + 1) mod n = c mod n + 1.
Proof.
  intros Hn Hne. pose proof (Nat.div_mod_eq c n) as Hc.
  pose proof (Nat.mod_upper_bound c n ltac:(lia)) as Hr.
  destruct (Nat.eq_dec (c mod n + 1) n) as [E | E].
  - destruct Hne. symmetry. apply (Nat.mod_unique _ _ (c / n + 1)); [lia | nia].
  - symmetry. apply (Nat.mod_unique _ _ (c / n)); [lia | nia].
Qed.

(** What a fetch returns, and how many requests it sends, depends on the
    request counter only. *)
Lemma query_attempts_by_clock net backoff max_retries (attempts : list nat) (q : query)
    (w w0 : world) :
  clock w = clock w0 ->
  fst (query_attempts net backoff max_retries attempts q w)
  = fst (query_attempts net backoff max_retries attempts q w0)
  /\ clock (snd (query_attempts net backoff max_retries attempts q w))
     = clock (snd (query_attempts net backoff max_retries attempts q w0)).
Proof.
  revert w w0. induction attempts as [| a rest IH]; intros w w0 H.
  - simpl. now split.
  - rewrite !query_attempts_cons, H.
    destruct (net (clock w0) (ReqSparql q)) as [[] | [| r rs]];
      try (simpl; split; [reflexivity | now rewrite H]).
    apply IH. simpl. now rewrite H.
Qed.

Lemma fetched_batches_cons net (wikidata_id : string) (rest : list string) (c : nat) :
  fetched_batches net (wikidata_id :: rest) c =
  match fst (query_wikidata net Missing.backoff Missing.MAX_RETRIES
                            (QPerson wikidata_id) (at_clock c)) with
  | Ok (Some df) =>
      (if df_empty df then [] else [process_results df])
        ++ fetched_batches net rest
             (clock (snd (query_wikidata net Missing.backoff Missing.MAX_RETRIES
                                         (QPerson wikidata_id) (at_clock c))))
  | Ok None =>
      fetched_batches net rest
        (clock (snd (query_wikidata net Missing.backoff Missing.MAX_RETRIES
                                    (QPerson wikidata_id) (at_clock c))))
  | _ => []
  end.
Proof. reflexivity. Qed.

Section MissingLoop.
Variable net : nat -> request -> response (list binding).

Local Abbreviation fetch :=
  (query_wikidata net Missing.backoff Missing.MAX_RETRIES).

(** One turn of the loop, by the result of its fetch. *)
Lemma process_id_eq (st : Missing.locals) (wikidata_id : string) (w : world) :
  Missing.process_id net st wikidata_id w =
  match fetch (QPerson wikidata_id) w with
  | (Ok None, w1) => (Ok st, traced (EvLog ERROR (MsgFetchFailedSkipping wikidata_id)) w1)
  | (Ok (Some df), w1) =>
      if df_empty df then (Ok st, w1)
      else
        let results := Missing.all_results st ++ [process_results df] in
        let count := Missing.batch_count st + 1 in
        if count mod Missing.SAVE_EVERY_N_BATCHES =? 0
        then (Ok (Missing.mkLocals [] count),
              traced (EvSnapshot "missing_persons_results" results)
                     (saved Missing.POINTER_FILE wikidata_id w1))
        else (Ok (Missing.mkLocals results count),
              saved Missing.POINTER_FILE wikidata_id w1)
  | (Raise e, w1) => (Raise e, w1)
  | (OutOfFuel, w1) => (OutOfFuel, w1)
  end.
Proof.
  unfold Missing.process_id. rewrite bind_eq.
  destruct (fetch (QPerson wikidata_id) w) as [[[df |] | e |] w1]; try reflexivity.
  destruct (df_empty df); [reflexivity |]. cbv zeta.
  destruct (_ mod _ =? 0); reflexivity.
Qed.

Lemma process_id_buffer (st st' : Missing.locals) (wikidata_id : string) (w w' : world) :
  Missing.process_id net st wikidata_id w = (Ok st', w') ->
  (length (Missing.all_results st)
   = Missing.batch_count st mod Missing.SAVE_EVERY_N_BATCHES ->
   length (Missing.all_results st')
   = Missing.batch_count st' mod Missing.SAVE_EVERY_N_BATCHES)
  /\ exists evs batches,
      trace w' = evs ++ trace w
      /\ snapshots evs ++ Missing.all_results st' = Missing.all_results st ++ batches
      /\ Missing.batch_count st' = Missing.batch_count st + length batches
      /\ length batches <= 1
      /\ forall rest,
          fetched_batches net (wikidata_id :: rest) (clock w)
          = batches ++ fetched_batches net rest (clock w').
Proof.
  rewrite process_id_eq.
  assert (Hf : forall rest,
             fetched_batches net (wikidata_id :: rest) (clock w) =
             match fst (fetch (QPerson wikidata_id) w) with
             | Ok (Some df) =>
                 (if df_empty df then [] else [process_results df])
                   ++ fetched_batches net rest
                        (clock (snd (fetch (QPerson wikidata_id) w)))
             | Ok None =>
                 fetched_batches net rest (clock (snd (fetch (QPerson wikidata_id) w)))
             | _ => []
             end).
  { intros rest. rewrite fetched_batches_cons. unfold query_wikidata.
    destruct (query_attempts_by_clock net Missing.backoff Missing.MAX_RETRIES
                (seq 0 Missing.MAX_RETRIES) (QPerson wikidata_id)
                (at_clock (clock w)) w eq_refl) as [-> ->].
    reflexivity. }
  unfold query_wikidata in *.
  destruct (query_attempts_no_snapshot net Missing.backoff Missing.MAX_RETRIES
              (seq 0 Missing.MAX_RETRIES) (QPerson wikidata_id) w) as (evs & Ht & Hs).
  destruct (query_attempts _ _ _ _ _ w) as [[[df |] | e |] w1];
    [| | discriminate | discriminate]; simpl in Ht; cbn [fst snd] in Hf.
  - destruct (df_empty df).
    + intros [= <- <-]. split; [tauto |]. exists evs, [].
      rewrite Hs, !app_nil_r. simpl.
      repeat split; [exact Ht | lia | lia | exact Hf].
    + cbv zeta. destruct (_ mod _ =? 0) eqn:E; intros [= <- <-];
        cbn [Missing.all_results Missing.batch_count traced saved trace clock].
      * split; [intros _; apply Nat.eqb_eq in E; now rewrite E |].
        eexists (_ :: evs), [process_results df]. rewrite Ht.
        repeat split; [| simpl; lia | exact Hf].
        change (?x :: evs) with ([x] ++ evs). rewrite snapshots_app, Hs.
        unfold snapshots. simpl. now rewrite !app_nil_r.
      * split.
        -- intros Hinv. rewrite length_app, Hinv. cbn [length].
           apply Nat.eqb_neq in E. symmetry.
           apply mod_succ; [unfold Missing.SAVE_EVERY_N_BATCHES; lia | exact E].
        -- exists evs, [process_results df]. rewrite Hs.
           repeat split; [exact Ht | simpl; lia | exact Hf].
  - intros [= <- <-]. split; [tauto |]. eexists (_ :: evs), []. simpl. rewrite Ht.
    repeat split; [| lia | lia | exact Hf].
    change (?x :: evs) with ([x] ++ evs). rewrite snapshots_app, Hs.
    now rewrite !app_nil_r.
Qed.

Lemma process_id_clock (st : Missing.locals) (wikidata_id : string) (w : world) :
  clock (snd (Missing.process_id net st wikidata_id w))
  <= clock w + Missing.MAX_RETRIES.
Proof.
  rewrite process_id_eq. unfold query_wikidata.
  generalize (query_attempts_clock net Missing.backoff Missing.MAX_RETRIES
                (seq 0 Missing.MAX_RETRIES) (QPerson wikidata_id) w).
  rewrite length_seq.
  destruct (query_attempts _ _ _ _ _ w) as [[[df |] | e |] w1];
    cbn [snd]; intros Hc; try (simpl; lia).
  destruct (df_empty df); [simpl; lia |]. cbv zeta.
  destruct (_ mod _ =? 0); simpl; lia.
Qed.

Lemma process_id_pointer (st : Missing.locals) (wikidata_id : string) (w : world) :
  files (snd (Missing.process_id net st wikidata_id w)) = files w
  \/ files (snd (Missing.process_id net st wikidata_id w)) !! Missing.POINTER_FILE
     = Some (Text wikidata_id).
Proof.
  rewrite process_id_eq. unfold query_wikidata.
  generalize (proj1 (query_attempts_files net Missing.backoff Missing.MAX_RETRIES
                       (seq 0 Missing.MAX_RETRIES) (QPerson wikidata_id) w)).
  destruct (query_attempts _ _ _ _ _ w) as [[[df |] | e |] w1];
    cbn [snd]; intros Hf; try (simpl; auto; fail).
  destruct (df_empty df); [simpl; auto |]. cbv zeta. right.
  destruct (_ mod _ =? 0); simpl; apply lookup_insert_eq.
Qed.

Lemma keeps_process_id (st : Missing.locals) (wikidata_id : string) :
  keeps (touches [Missing.POINTER_FILE] []) (Missing.process_id net st wikidata_id).
Proof.
  unfold Missing.process_id, query_wikidata, save_pointer, save_intermediate_results.
  frame.
Qed.
End MissingLoop.

(** X7.  Over any stretch of the loop of [fetch_data_for_ids] that does not
    raise, no processed batch is lost and none is made up: the frames written
    to intermediate files, followed by the frames still in memory, are the
    frames that were in memory before followed by the batches of this
    stretch, which are, in the order of the identifiers, the frames with
    records that the fetches returned, each after [process_results]; the
    batch count has grown by their number, at most one for each identifier.
    When the loop starts as the function starts it, the frames in memory are
    [batch_count mod 50] many, so never fifty. *)
Theorem missing_batches_are_kept net (ids : list string) (st st' : Missing.locals)
    (w w' : world) :
  for_each (Missing.process_id net) ids st w = (Ok st', w') ->
  (exists evs,
      trace w' = evs ++ trace w
      /\ snapshots evs ++ Missing.all_results st'
         = Missing.all_results st ++ fetched_batches net ids (clock w)
      /\ Missing.batch_count st'
         = Missing.batch_count st + length (fetched_batches net ids (clock w))
      /\ length (fetched_batches net ids (clock w)) <= length ids)
  /\ (length (Missing.all_results st)
      = Missing.batch_count st mod Missing.SAVE_EVERY_N_BATCHES ->
      length (Missing.all_results st')
      = Missing.batch_count st' mod Missing.SAVE_EVERY_N_BATCHES
      /\ length (Missing.all_results st') < Missing.SAVE_EVERY_N_BATCHES).
Proof.
  revert st w. induction ids as [| id ids IH]; intros st w.
  - intros [= <- <-]. split.
    + exists []. rewrite app_nil_r. simpl. repeat split; lia.
    + intros H. split; [exact H |]. rewrite H. apply Nat.mod_upper_bound.
      discriminate.
  - rewrite for_each_cons.
    destruct (Missing.process_id net st id w) as [[st1 | e |] w1] eqn:E;
      [| discriminate | discriminate].
    intros Hrest. destruct (process_id_buffer net _ _ _ _ _ E)
      as (Hinv1 & evs1 & b1 & Ht1 & Hs1 & Hc1 & Hl1 & Hf1).
    destruct (IH _ _ Hrest) as ((evs2 & Ht2 & Hs2 & Hc2 & Hl2) & Hinv2).
    split.
    + exists (evs2 ++ evs1). rewrite (Hf1 ids), Ht2, Ht1, app_assoc.
      split; [reflexivity |]. rewrite snapshots_app, <- app_assoc, Hs2.
      rewrite app_assoc, Hs1, <- app_assoc. split; [reflexivity |].
      rewrite length_app. simpl. lia.
    + intros H. apply Hinv2. now apply Hinv1.
Qed.

Lemma missing_batches_are_kept_witness :
  exists st' w',
    for_each (Missing.process_id net_person) fifty_one_ids (Missing.mkLocals [] 0)
             empty_world = (Ok st', w')
    /\ snapshots (trace w') ++ Missing.all_results st' = map person_batch fifty_one_ids
    /\ snapshots (trace w') = map person_batch (take 50 fifty_one_ids)
    /\ Missing.all_results st' = [person_batch "Q51"]
    /\ Missing.batch_count st' = 51.
Proof.
  eexists _, _. split; [vm_compute; reflexivity |].
  match goal with |- snapshots (trace ?w1) ++ Missing.all_results ?st1 = _ /\ _ =>
    destruct (missing_batches_are_kept net_person fifty_one_ids (Missing.mkLocals [] 0)
                st1 empty_world w1 ltac:(vm_compute; reflexivity))
      as [(evs & Ht & Hs & Hc & _) _]
  end.
  cbn [trace empty_world fresh] in Ht. rewrite app_nil_r in Ht.
  split; [| split; [| split]].
  - rewrite Ht. etransitivity; [exact Hs |]. vm_compute. reflexivity.
  - vm_compute. reflexivity.
  - vm_compute. reflexivity.
  - etransitivity; [exact Hc |]. vm_compute. reflexivity.
Defined.

(** X8.  A run of [fetch_data_for_ids] writes no text file but the pointer
    file and no CSV file at all (its results go to files of their own), and
    its clock and trace only grow; the loop sends at most ten requests for
    each identifier, and it leaves in the pointer file what was there or one
    of the identifiers it went through. *)
Theorem missing_run_frame net (file_path : string) :
  keeps (touches [Missing.POINTER_FILE] []) (Missing.fetch_data_for_ids net file_path)
  /\ (forall ids st w,
         clock (snd (for_each (Missing.process_id net) ids st w))
         <= clock w + Missing.MAX_RETRIES * length ids)
  /\ (forall ids st w,
         files (snd (for_each (Missing.process_id net) ids st w)) !! Missing.POINTER_FILE
         = files w !! Missing.POINTER_FILE
         \/ exists id, In id ids
                       /\ files (snd (for_each (Missing.process_id net) ids st w))
                          !! Missing.POINTER_FILE = Some (Text id)).
Proof.
  split; [| split].
  - unfold Missing.fetch_data_for_ids, Missing.read_ids, Missing.load_pointer,
      Missing.resume, Missing.save_final.
    frame.
    + apply keeps_map_M. intros []; simpl; frame.
    + apply keeps_for_each. intros. apply keeps_process_id.
  - induction ids as [| id ids IH]; intros st w; [simpl; lia |].
    rewrite for_each_cons. pose proof (process_id_clock net st id w) as Hc.
    destruct (Missing.process_id net st id w) as [[st1 | e |] w1]; simpl in *;
      try (unfold Missing.MAX_RETRIES in *; lia).
    specialize (IH st1 w1). unfold Missing.MAX_RETRIES in *. lia.
  - induction ids as [| id ids IH]; intros st w; [now left |].
    rewrite for_each_cons. pose proof (process_id_pointer net st id w) as Hp.
    destruct (Missing.process_id net st id w) as [[st1 | e |] w1]; simpl in Hp.
    + destruct (IH st1 w1) as [H | (id' & Hin & H)].
      * rewrite H. destruct Hp as [-> | Hp]; [now left |].
        right. exists id. split; [now left | exact Hp].
      * right. exists id'. split; [now right | exact H].
    + simpl. destruct Hp as [-> | Hp]; [now left |].
      right. exists id. split; [now left | exact Hp].
    + simpl. destruct Hp as [-> | Hp]; [now left |].
      right. exists id. split; [now left | exact Hp].
Qed.

(** ** [wiki_birth.py] and [wiki_german_de.py]: the cursor and the pointer file *)

Lemma split_on_id (sep : ascii) (s : string) :
  contains_char sep s = false -> split_on sep s = [s].
Proof.
  induction s as [| c s IH]; [reflexivity |].
  simpl. intros H. apply orb_false_elim in H as [Hc Hs].
  now rewrite Hc, (IH Hs).
Qed.

Lemma split_on_app_sep (sep : ascii) (b p : string) :
  contains_char sep b = false ->
  split_on sep (b +:+ String sep p) = b :: split_on sep p.
Proof.
  induction b as [| c b IH]; simpl.
  - intros _. now rewrite Ascii.eqb_refl.
  - intros H. apply orb_false_elim in H as [Hc Hb]. now rewrite Hc, (IH Hb).
Qed.

Lemma split_on_length (sep : ascii) (s : string) : 1 <= length (split_on sep s).
Proof.
  induction s as [| c s IH]; simpl; [lia |].
  destruct (Ascii.eqb c sep); simpl; [lia |].
  destruct (split_on sep s); simpl in *; lia.
Qed.

Lemma split_on_length_sep (sep : ascii) (s : string) :
  contains_char sep s = true -> 2 <= length (split_on sep s).
Proof.
  induction s as [| c s IH]; simpl; [discriminate |].
  destruct (Ascii.eqb c sep); simpl.
  - intros _. pose proof (split_on_length sep s). lia.
  - intros H. specialize (IH H). destruct (split_on sep s); simpl in *; lia.
Qed.

Lemma split_on_app_length (sep : ascii) (b p : string) :
  length (split_on sep (b +:+ String sep p))
  = length (split_on sep b) + length (split_on sep p).
Proof.
  induction b as [| c b IH]; simpl.
  - now rewrite Ascii.eqb_refl.
  - destruct (Ascii.eqb c sep); simpl; [now rewrite IH |].
    pose proof (split_on_length sep b) as Hb.
    destruct (split_on sep (b +:+ String sep p)), (split_on sep b); simpl in *; lia.
Qed.

Lemma append_sep_nonempty (b p : string) (c : ascii) :
  String.eqb (b +:+ String c p) EmptyString = false.
Proof. now destruct b. Qed.

(** X9.  The cursor goes through the pointer file unchanged: when the two
    cursor fields of a batch are strings without a ["|"], and the line made
    of them has no carriage return and no white space at either end, the
    scope that starts after the pointer was saved starts from these two
    strings, with the batches and the count as they were.  When one of the
    two strings has a ["|"] in it, that scope raises [ValueError] instead:
    the line saved does not split in two. *)
Theorem cursor_round_trip dict_repr validate (batch : DataFrame value) (b p : string)
    (st : BatchLoop.locals) (w : world) :
  cursor_fields batch = Some (Atom (SStr b), Atom (SStr p)) ->
  contains_char CR (b +:+ "|" +:+ p) = false ->
  begins_with_space (b +:+ "|" +:+ p) = false ->
  ends_with_space (b +:+ "|" +:+ p) = false ->
  exists w1,
    BatchLoop.extract_pointer dict_repr validate batch w
    = (Ok (Atom (SStr b), Atom (SStr p)), w1)
    /\ files w1 !! BatchLoop.POINTER_FILE = Some (Text (b +:+ "|" +:+ p))
    /\ BatchLoop.scope_init st w1
       = if contains_char "|"%char b || contains_char "|"%char p
         then (Raise ValueError, w1)
         else (Ok (BatchLoop.mkLocals (BatchLoop.all_results st) (BatchLoop.batch_count st)
                                      (Atom (SStr b)) (Atom (SStr p))), w1).
Proof.
  intros C Hcr Hb He.
  rewrite (extract_pointer_some dict_repr validate _ w _ _ C).
  change (notna (Atom (SStr b)) && notna (Atom (SStr p))) with true.
  change (BatchLoop.py_str dict_repr (Atom (SStr b))) with b.
  change (BatchLoop.py_str dict_repr (Atom (SStr p))) with p.
  rewrite orb_true_r. eexists. split; [reflexivity |].
  assert (Hf : files (saved BatchLoop.POINTER_FILE (b +:+ "|" +:+ p) w)
               !! BatchLoop.POINTER_FILE = Some (Text (b +:+ "|" +:+ p)))
    by apply lookup_insert_eq.
  split; [exact Hf |].
  unfold BatchLoop.scope_init, BatchLoop.load_pointer.
  rewrite bind_eq, (read_pointer_text _ _ _ Hf), (strip_clean _ Hcr Hb He).
  change ("|" +:+ p) with (String "|"%char p).
  rewrite append_sep_nonempty.
  destruct (contains_char "|"%char b) eqn:Eb.
  - pose proof (split_on_app_length "|"%char b p) as Hl.
    pose proof (split_on_length_sep _ _ Eb). pose proof (split_on_length "|"%char p).
    simpl orb. cbv iota.
    destruct (split_on "|"%char (b +:+ String "|"%char p)) as [| x [| y [| z l]]];
      simpl in Hl; try reflexivity; lia.
  - rewrite (split_on_app_sep _ _ _ Eb). simpl orb.
    destruct (contains_char "|"%char p) eqn:Ep.
    + pose proof (split_on_length_sep _ _ Ep) as Hl.
      destruct (split_on "|"%char p) as [| y [| z l]]; simpl in Hl; try reflexivity; lia.
    + now rewrite (split_on_id _ _ Ep).
Qed.

Lemma cursor_round_trip_witness :
  exists w1,
    BatchLoop.extract_pointer plain_repr true
      (from_records [[("birthdate", Atom (SStr "1530-01-01T00:00:00Z"));
                      ("person", Atom (SStr "http://www.wikidata.org/entity/Q1"))]])
      empty_world
    = (Ok (Atom (SStr "1530-01-01T00:00:00Z"),
           Atom (SStr "http://www.wikidata.org/entity/Q1")), w1)
    /\ BatchLoop.scope_init start_locals w1
       = (Ok (BatchLoop.mkLocals [] 0 (Atom (SStr "1530-01-01T00:00:00Z"))
                                 (Atom (SStr "http://www.wikidata.org/entity/Q1"))), w1).
Proof.
  destruct (cursor_round_trip plain_repr true
              (from_records [[("birthdate", Atom (SStr "1530-01-01T00:00:00Z"));
                              ("person", Atom (SStr "http://www.wikidata.org/entity/Q1"))]])
              "1530-01-01T00:00:00Z" "http://www.wikidata.org/entity/Q1"
              start_locals empty_world eq_refl eq_refl eq_refl eq_refl)
    as (w1 & E & _ & S).
  exists w1. split; [exact E | exact S].
Defined.

(** ** [wiki_birth.py] and [wiki_german_de.py]: the batches of a run *)

Section Accumulation.
Variable fetch : query -> M (option (DataFrame value)).

Lemma fetched_in_turn_asked (asked asked' : query -> Prop) (c c' : nat)
    (batches : list (DataFrame value)) :
  (forall q, asked q -> asked' q) ->
  fetched_in_turn fetch asked c batches c' -> fetched_in_turn fetch asked' c batches c'.
Proof.
  intros Hq H. induction H as [c c' Hc | c c' q w0 w1 df rest Hc Ha Hf He Hk _ IH].
  - now constructor.
  - apply (fetched_next _ _ _ _ q w0 w1); auto.
Qed.

Lemma fetched_in_turn_earlier (asked : query -> Prop) (c0 c c' : nat)
    (batches : list (DataFrame value)) :
  c0 <= c -> fetched_in_turn fetch asked c batches c' ->
  fetched_in_turn fetch asked c0 batches c'.
Proof.
  intros H0 H. destruct H as [c c' Hc | c c' q w0 w1 df rest Hc Ha Hf He Hk Hrest].
  - constructor. lia.
  - apply (fetched_next _ _ _ _ q w0 w1); auto. lia.
Qed.

Lemma fetched_in_turn_app (asked : query -> Prop) (c1 c2 c3 : nat)
    (b1 b2 : list (DataFrame value)) :
  fetched_in_turn fetch asked c1 b1 c2 -> fetched_in_turn fetch asked c2 b2 c3 ->
  fetched_in_turn fetch asked c1 (b1 ++ b2) c3.
Proof.
  intros H1 H2. induction H1 as [c c' Hc | c c' q w0 w1 df rest Hc Ha Hf He Hk _ IH].
  - exact (fetched_in_turn_earlier _ _ _ _ _ Hc H2).
  - simpl. apply (fetched_next _ _ _ _ q w0 w1); auto.
Qed.

Lemma accumulates_refl (asked : query -> Prop) (results : list (DataFrame value))
    (count : nat) (w : world) :
  accumulates (fetched_in_turn fetch asked) results count w results count w.
Proof.
  exists [], []. rewrite app_nil_r. simpl.
  repeat split; [lia | now constructor].
Qed.

Lemma accumulates_trans (asked : query -> Prop) (r1 r2 r3 : list (DataFrame value))
    (c1 c2 c3 : nat) (w1 w2 w3 : world) :
  accumulates (fetched_in_turn fetch asked) r1 c1 w1 r2 c2 w2 ->
  accumulates (fetched_in_turn fetch asked) r2 c2 w2 r3 c3 w3 ->
  accumulates (fetched_in_turn fetch asked) r1 c1 w1 r3 c3 w3.
Proof.
  intros (e1 & b1 & T1 & S1 & C1 & F1) (e2 & b2 & T2 & S2 & C2 & F2).
  exists (e2 ++ e1), (b1 ++ b2). rewrite T2, T1, app_assoc. split; [reflexivity |].
  rewrite snapshots_app, <- app_assoc, S2, app_assoc, S1, <- app_assoc.
  split; [reflexivity |]. split; [rewrite length_app; lia |].
  exact (fetched_in_turn_app _ _ _ _ _ _ F1 F2).
Qed.

Lemma accumulates_quiet (asked : query -> Prop) (results : list (DataFrame value))
    (count : nat) (w w' : world) (evs : list event) :
  trace w' = evs ++ trace w -> snapshots evs = [] -> clock w <= clock w' ->
  accumulates (fetched_in_turn fetch asked) results count w results count w'.
Proof.
  intros T S C. exists evs, []. rewrite S, app_nil_r. simpl.
  repeat split; [exact T | lia | now constructor].
Qed.

Lemma accumulates_asked (asked asked' : query -> Prop)
    (r r' : list (DataFrame value)) (c c' : nat) (w w' : world) :
  (forall q, asked q -> asked' q) ->
  accumulates (fetched_in_turn fetch asked) r c w r' c' w' ->
  accumulates (fetched_in_turn fetch asked') r c w r' c' w'.
Proof.
  intros Hq (evs & b & T & S & C & F). exists evs, b.
  repeat split; try assumption. exact (fetched_in_turn_asked _ _ _ _ _ Hq F).
Qed.
End Accumulation.

Section BatchLoopRun.
Variable net : nat -> request -> response (list binding).
Variable dict_repr : list (string * value) -> string.
Variable validate : bool.

Local Abbreviation py_str := (BatchLoop.py_str dict_repr).
Local Abbreviation page := (BatchLoop.page net dict_repr validate).
Local Abbreviation while_true := (BatchLoop.while_true net dict_repr validate).
Local Abbreviation for_years := (BatchLoop.for_years net dict_repr validate).
Local Abbreviation fetch := (query_wikidata net BatchLoop.backoff BatchLoop.MAX_RETRIES).

(** One turn of [while True], by the result of its fetch. *)
Lemma page_eq (start_year end_year : Z) (st : BatchLoop.locals) (w : world) :
  page start_year end_year st w =
  match fetch (BatchLoop.page_query dict_repr start_year end_year st) w with
  | (Ok None, w1) => (Ok (Return, st), traced (EvLog ERROR MsgTooManyFailures) w1)
  | (Ok (Some df), w1) =>
      if df_empty df then (Ok (Break, st), w1)
      else
        match cursor_fields (process_results df) with
        | None => (Ok (Break, st), traced (EvLog ERROR MsgPointerExtract) w1)
        | Some (lb, lp) =>
            let w2 := if negb validate || (notna lb && notna lp)
                      then saved BatchLoop.POINTER_FILE (py_str lb +:+ "|" +:+ py_str lp) w1
                      else traced (EvLog WARNING MsgMissingCursor) w1 in
            let results := BatchLoop.all_results st ++ [process_results df] in
            let count := BatchLoop.batch_count st + 1 in
            let flush := count mod BatchLoop.SAVE_EVERY_N_BATCHES =? 0 in
            (Ok (if df_len df <? BatchLoop.BATCH_SIZE then Break else Next,
                 BatchLoop.mkLocals (if flush then [] else results) count lb lp),
             if flush then traced (EvSnapshot "intermediate_results" results) w2 else w2)
        end
  | (Raise e, w1) => (Raise e, w1)
  | (OutOfFuel, w1) => (OutOfFuel, w1)
  end.
Proof.
  destruct (fetch _ w) as [[[df |] | e |] w1] eqn:H.
  - destruct (df_empty df) eqn:E; [exact (page_empty _ _ _ _ _ _ _ _ _ H E) |].
    destruct (cursor_fields (process_results df)) as [[lb lp] |] eqn:C.
    + exact (page_processed _ _ _ _ _ _ _ _ _ _ _ H E C).
    + exact (page_unreadable _ _ _ _ _ _ _ _ _ H E C).
  - exact (page_failed _ _ _ _ _ _ _ _ H).
  - unfold BatchLoop.page. rewrite bind_eq, H. reflexivity.
  - unfold BatchLoop.page. rewrite bind_eq, H. reflexivity.
Qed.

Lemma page_buffer (start_year end_year : Z) (st st' : BatchLoop.locals) (c : ctl)
    (w w' : world) :
  page start_year end_year st w = (Ok (c, st'), w') ->
  accumulates
    (fetched_in_turn fetch
       (fun q => q = BatchLoop.page_query dict_repr start_year end_year st))
    (BatchLoop.all_results st) (BatchLoop.batch_count st) w
    (BatchLoop.all_results st') (BatchLoop.batch_count st') w'
  /\ (length (BatchLoop.all_results st)
      = BatchLoop.batch_count st mod BatchLoop.SAVE_EVERY_N_BATCHES ->
      length (BatchLoop.all_results st')
      = BatchLoop.batch_count st' mod BatchLoop.SAVE_EVERY_N_BATCHES).
Proof.
  rewrite page_eq.
  pose proof (query_attempts_clock net BatchLoop.backoff BatchLoop.MAX_RETRIES
                (seq 0 BatchLoop.MAX_RETRIES)
                (BatchLoop.page_query dict_repr start_year end_year st) w) as [Hc _].
  destruct (query_attempts_no_snapshot net BatchLoop.backoff BatchLoop.MAX_RETRIES
              (seq 0 BatchLoop.MAX_RETRIES)
              (BatchLoop.page_query dict_repr start_year end_year st) w)
    as (evs & Ht & Hs).
  fold (fetch (BatchLoop.page_query dict_repr start_year end_year st) w) in Hc, Ht.
  destruct (fetch (BatchLoop.page_query dict_repr start_year end_year st) w)
    as [[[df |] | e |] w1] eqn:F;
    [| | discriminate | discriminate]; cbn [snd] in Ht, Hc.
  - destruct (df_empty df) eqn:Hempty.
    { intros [= <- <- <-]. split; [| tauto]. exact (accumulates_quiet _ _ _ _ _ _ _ Ht Hs Hc). }
    destruct (cursor_fields (process_results df)) as [[lb lp] |] eqn:Hcur.
    + cbv zeta.
      assert (H2 : exists evs2,
                 trace (if negb validate || (notna lb && notna lp)
                        then saved BatchLoop.POINTER_FILE
                                   (py_str lb +:+ "|" +:+ py_str lp) w1
                        else traced (EvLog WARNING MsgMissingCursor) w1)
                 = evs2 ++ trace w
                 /\ snapshots evs2 = []
                 /\ clock (if negb validate || (notna lb && notna lp)
                           then saved BatchLoop.POINTER_FILE
                                      (py_str lb +:+ "|" +:+ py_str lp) w1
                           else traced (EvLog WARNING MsgMissingCursor) w1)
                    = clock w1).
      { destruct (negb validate || _).
        - exists evs. split; [exact Ht | split; [exact Hs | reflexivity]].
        - exists (EvLog WARNING MsgMissingCursor :: evs). simpl. rewrite Ht.
          split; [reflexivity | split; [| reflexivity]].
          change (?x :: evs) with ([x] ++ evs). rewrite snapshots_app, Hs. reflexivity. }
      destruct H2 as (evs2 & Ht2 & Hs2 & Hc2).
      assert (Hfetched : forall c',
                 clock w1 <= c' ->
                 fetched_in_turn fetch
                   (fun q => q = BatchLoop.page_query dict_repr start_year end_year st)
                   (clock w) [process_results df] c').
      { intros c' Hc'.
        apply (fetched_next _ _ _ _
                 (BatchLoop.page_query dict_repr start_year end_year st) w w1 df []);
          [lia | reflexivity | exact F | exact Hempty | now rewrite Hcur
          | now constructor]. }
      destruct (_ mod _ =? 0) eqn:E; intros [= <- <- <-];
        cbn [BatchLoop.all_results BatchLoop.batch_count].
      * split; [| intros _; apply Nat.eqb_eq in E; now rewrite E].
        eexists (_ :: evs2), [process_results df]. cbn [traced trace clock].
        rewrite Ht2, Hc2.
        split; [reflexivity |]. split; [| split; [simpl; lia | now apply Hfetched]].
        change (?x :: evs2) with ([x] ++ evs2). rewrite snapshots_app, Hs2.
        unfold snapshots. simpl. now rewrite !app_nil_r.
      * split.
        -- exists evs2, [process_results df]. rewrite Hs2, Hc2.
           split; [exact Ht2 | split; [reflexivity |
                                        split; [simpl; lia | now apply Hfetched]]].
        -- intros Hinv. rewrite length_app, Hinv. cbn [length].
           apply Nat.eqb_neq in E. symmetry.
           apply mod_succ; [unfold BatchLoop.SAVE_EVERY_N_BATCHES; lia | exact E].
    + intros [= <- <- <-]. split; [| tauto].
      apply (accumulates_quiet _ _ _ _ _ _ (EvLog ERROR MsgPointerExtract :: evs)).
      * simpl. now rewrite Ht.
      * change (?x :: evs) with ([x] ++ evs). rewrite snapshots_app, Hs. reflexivity.
      * exact Hc.
  - intros [= <- <- <-]. split; [| tauto].
    apply (accumulates_quiet _ _ _ _ _ _ (EvLog ERROR MsgTooManyFailures :: evs)).
    + simpl. now rewrite Ht.
    + change (?x :: evs) with ([x] ++ evs). rewrite snapshots_app, Hs. reflexivity.
    + exact Hc.
Qed.

Lemma while_true_buffer (fuel : nat) (start_year end_year : Z)
    (st st' : BatchLoop.locals) (c : ctl) (w w' : world) :
  while_true fuel start_year end_year st w = (Ok (c, st'), w') ->
  accumulates
    (fetched_in_turn fetch
       (fun q => exists st0, q = BatchLoop.page_query dict_repr start_year end_year st0))
    (BatchLoop.all_results st) (BatchLoop.batch_count st) w
    (BatchLoop.all_results st') (BatchLoop.batch_count st') w'
  /\ (length (BatchLoop.all_results st)
      = BatchLoop.batch_count st mod BatchLoop.SAVE_EVERY_N_BATCHES ->
      length (BatchLoop.all_results st')
      = BatchLoop.batch_count st' mod BatchLoop.SAVE_EVERY_N_BATCHES).
Proof.
  revert st w. induction fuel as [| fuel IH]; intros st w; [discriminate |].
  rewrite while_true_succ.
  destruct (page start_year end_year st w) as [[[c1 st1] | e |] w1] eqn:P;
    [| destruct e; discriminate | discriminate].
  destruct (page_buffer _ _ _ _ _ _ _ P) as [A1 I1].
  apply (accumulates_asked _ _
           (fun q => exists st0,
                       q = BatchLoop.page_query dict_repr start_year end_year st0))
    in A1; [| intros q ->; now exists st].
  destruct c1.
  - intros H. destruct (IH _ _ H) as [A2 I2].
    split; [exact (accumulates_trans _ _ _ _ _ _ _ _ _ _ _ A1 A2) | auto].
  - intros [= <- <- <-]. split; assumption.
  - intros [= <- <- <-]. split; assumption.
Qed.

Lemma scope_init_ok (st st1 : BatchLoop.locals) (w w1 : world) :
  BatchLoop.scope_init st w = (Ok st1, w1) ->
  w1 = w /\ BatchLoop.all_results st1 = BatchLoop.all_results st
  /\ BatchLoop.batch_count st1 = BatchLoop.batch_count st.
Proof.
  unfold BatchLoop.scope_init, BatchLoop.load_pointer, read_pointer, get_files. munfold.
  destruct (files w !! BatchLoop.POINTER_FILE) as [[content |] |];
    [| discriminate | now intros [= <- <-]].
  destruct (String.eqb _ _); [now intros [= <- <-] |].
  destruct (split_on _ _) as [| x [| y [| z l]]]; try discriminate.
  now intros [= <- <-].
Qed.

Lemma page_clock (start_year end_year : Z) (st : BatchLoop.locals) (w : world) :
  clock (snd (page start_year end_year st w)) <= clock w + BatchLoop.MAX_RETRIES.
Proof.
  rewrite page_eq. unfold query_wikidata.
  generalize (query_attempts_clock net BatchLoop.backoff BatchLoop.MAX_RETRIES
                (seq 0 BatchLoop.MAX_RETRIES)
                (BatchLoop.page_query dict_repr start_year end_year st) w).
  rewrite length_seq.
  destruct (query_attempts _ _ _ _ _ w) as [[[df |] | e |] w1];
    cbn [snd]; intros Hc; try (simpl; lia).
  destruct (df_empty df); [simpl; lia |].
  destruct (cursor_fields (process_results df)) as [[lb lp] |]; [| simpl; lia].
  cbv zeta. destruct (_ mod _ =? 0); destruct (negb validate || _); simpl; lia.
Qed.

Lemma while_true_clock (fuel : nat) (start_year end_year : Z)
    (st : BatchLoop.locals) (w : world) :
  clock (snd (while_true fuel start_year end_year st w))
  <= clock w + fuel * BatchLoop.MAX_RETRIES.
Proof.
  revert st w. induction fuel as [| fuel IH]; intros st w; [simpl; lia |].
  rewrite while_true_succ. pose proof (page_clock start_year end_year st w) as Hp.
  rewrite Nat.mul_succ_l.
  destruct (page start_year end_year st w) as [[[[] st1] | e |] w1];
    cbn [snd] in *; try lia.
  specialize (IH st1 w1). lia.
Qed.

Lemma keeps_page (start_year end_year : Z) (st : BatchLoop.locals) :
  keeps (touches [BatchLoop.POINTER_FILE] []) (page start_year end_year st).
Proof.
  unfold BatchLoop.page, query_wikidata, BatchLoop.extract_pointer, BatchLoop.last_of,
    save_pointer, save_intermediate_results.
  frame.
Qed.

Lemma keeps_while_true (fuel : nat) (start_year end_year : Z) :
  forall st, keeps (touches [BatchLoop.POINTER_FILE] [])
                   (while_true fuel start_year end_year st).
Proof.
  induction fuel as [| fuel IH]; intros st; cbn [BatchLoop.while_true]; [frame |].
  apply keeps_bind; [apply keeps_page |]. intros [[] st1]; frame.
Qed.

Lemma keeps_scope_init (st : BatchLoop.locals) :
  keeps (touches [BatchLoop.POINTER_FILE] []) (BatchLoop.scope_init st).
Proof. unfold BatchLoop.scope_init, BatchLoop.load_pointer. frame. Qed.

Lemma keeps_for_years (fuel : nat) (years : list Z) :
  forall st, keeps (touches [BatchLoop.POINTER_FILE] []) (for_years fuel years st).
Proof.
  induction years as [| y years IH]; intros st; cbn [BatchLoop.for_years]; [frame |].
  cbv zeta. apply keeps_bind; [apply keeps_scope_init |]. intros st1.
  apply keeps_bind; [apply keeps_while_true |]. intros [[] st2]; frame.
Qed.
End BatchLoopRun.

(** X10.  Over the scopes of [fetch_data], in [wiki_birth.py] and in
    [wiki_german_de.py], no accumulated batch is lost or made up while the
    run goes on: when the loop over the scopes ends without raising, the
    frames written to intermediate files, followed by the frames still in
    memory, are the frames that were in memory before followed by the new
    batches, one for each batch counted; and these are, in the order of the
    fetches, frames with records and a readable cursor that fetches of
    queries of these scopes returned during the run, each after
    [process_results].  The re-reading of the pointer file at each scope
    leaves both as they are.  From the start of the function on, the frames
    in memory are [batch_count mod 20] many, so never twenty. *)
Theorem batch_loop_batches_are_kept net dict_repr validate (fuel : nat) (years : list Z)
    (st st' : BatchLoop.locals) (c : ctl) (w w' : world) :
  BatchLoop.for_years net dict_repr validate fuel years st w = (Ok (c, st'), w') ->
  accumulates
    (fetched_in_turn (query_wikidata net BatchLoop.backoff BatchLoop.MAX_RETRIES)
                     (scope_query dict_repr years))
    (BatchLoop.all_results st) (BatchLoop.batch_count st) w
    (BatchLoop.all_results st') (BatchLoop.batch_count st') w'
  /\ (length (BatchLoop.all_results st)
      = BatchLoop.batch_count st mod BatchLoop.SAVE_EVERY_N_BATCHES ->
      length (BatchLoop.all_results st')
      = BatchLoop.batch_count st' mod BatchLoop.SAVE_EVERY_N_BATCHES
      /\ length (BatchLoop.all_results st') < BatchLoop.SAVE_EVERY_N_BATCHES).
Proof.
  revert st w. induction years as [| y years IH]; intros st w.
  - intros [= <- <- <-]. split; [apply accumulates_refl |].
    intros H. split; [exact H |]. rewrite H. apply Nat.mod_upper_bound. discriminate.
  - cbn [BatchLoop.for_years]. cbv zeta. rewrite bind_eq.
    destruct (BatchLoop.scope_init st w) as [[st1 | e |] w1] eqn:S;
      [| discriminate | discriminate].
    destruct (scope_init_ok _ _ _ _ S) as (-> & R1 & C1).
    rewrite bind_eq.
    destruct (BatchLoop.while_true _ _ _ _ _ _ _ _) as [[[c2 st2] | e |] w2] eqn:W;
      [| discriminate | discriminate].
    destruct (while_true_buffer _ _ _ _ _ _ _ _ _ _ _ W) as [A2 I2].
    rewrite R1, C1 in A2, I2.
    apply (accumulates_asked _ _ (scope_query dict_repr (y :: years))) in A2;
      [| intros q [st0 ->]; exists y, st0; split; [now left | reflexivity]].
    assert (Hrest : forall r r' k k' v v',
               accumulates
                 (fetched_in_turn
                    (query_wikidata net BatchLoop.backoff BatchLoop.MAX_RETRIES)
                    (scope_query dict_repr years)) r k v r' k' v' ->
               accumulates
                 (fetched_in_turn
                    (query_wikidata net BatchLoop.backoff BatchLoop.MAX_RETRIES)
                    (scope_query dict_repr (y :: years))) r k v r' k' v').
    { intros r r' k k' v v'. apply accumulates_asked.
      intros q (y0 & st0 & Hy & ->). exists y0, st0. split; [now right | reflexivity]. }
    destruct c2.
    + intros H. destruct (IH _ _ H) as [A3 I3].
      split; [exact (accumulates_trans _ _ _ _ _ _ _ _ _ _ _ A2 (Hrest _ _ _ _ _ _ A3))
             | auto].
    + intros H. destruct (IH _ _ H) as [A3 I3].
      split; [exact (accumulates_trans _ _ _ _ _ _ _ _ _ _ _ A2 (Hrest _ _ _ _ _ _ A3))
             | auto].
    + intros [= <- <- <-]. split; [exact A2 |].
      intros H. specialize (I2 H). split; [exact I2 |]. rewrite I2.
      apply Nat.mod_upper_bound. discriminate.
Qed.

Lemma batch_loop_batches_are_kept_witness :
  exists st' w',
    BatchLoop.for_years net_one_record plain_repr true 1 BatchLoop.YEARS start_locals
                        empty_world
    = (Ok (Next, st'), w')
    /\ BatchLoop.batch_count st' = 26
    /\ snapshots (trace w') = repeat one_record_batch 20
    /\ BatchLoop.all_results st' = repeat one_record_batch 6
    /\ exists batches,
         snapshots (trace w') ++ BatchLoop.all_results st' = batches
         /\ fetched_in_turn
              (query_wikidata net_one_record BatchLoop.backoff BatchLoop.MAX_RETRIES)
              (scope_query plain_repr BatchLoop.YEARS) 0 batches (clock w').
Proof.
  eexists _, _. split; [vm_compute; reflexivity |].
  match goal with |- BatchLoop.batch_count ?st1 = _ /\ snapshots (trace ?w1) = _ /\ _ =>
    destruct (batch_loop_batches_are_kept net_one_record plain_repr true 1
                BatchLoop.YEARS start_locals st1 Next empty_world w1
                ltac:(vm_compute; reflexivity))
      as [(evs & batches & Ht & Hs & Hc & Hf) _]
  end.
  cbn [trace empty_world fresh] in Ht. rewrite app_nil_r in Ht.
  split; [| split; [| split]].
  - vm_compute. reflexivity.
  - vm_compute. reflexivity.
  - vm_compute. reflexivity.
  - exists batches. split; [| exact Hf]. rewrite Ht. exact Hs.
Defined.

(** X11.  A run of [fetch_data], in [wiki_birth.py] and in
    [wiki_german_de.py], writes no text file but the pointer file and no CSV
    file at all (its results go to files of their own), however the run ends;
    and a scope that makes [fuel] turns sends at most ten requests for each
    turn. *)
Theorem batch_loop_frame net dict_repr validate (fuel : nat) :
  keeps (touches [BatchLoop.POINTER_FILE] []) (BatchLoop.fetch_data net dict_repr validate fuel)
  /\ (forall start_year end_year st w,
         clock (snd (BatchLoop.while_true net dict_repr validate fuel
                                          start_year end_year st w))
         <= clock w + fuel * BatchLoop.MAX_RETRIES).
Proof.
  split.
  - unfold BatchLoop.fetch_data, BatchLoop.save_final.
    apply keeps_bind; [apply keeps_for_years |]. intros [[] st]; frame.
  - intros. apply while_true_clock.
Qed.

(** ** [birthlabel.py]: the schedule of [get_single_label] *)

Lemma failed_label_attempts_snoc (entity_id : string) (pre : list nat) (a : nat) :
  failed_label_attempts entity_id (pre ++ [a])
  = [EvSleep (1000 * 2 ^ Z.of_nat a);
     EvLog WARNING (MsgAttemptFailed (a + 1) entity_id);
     EvRequest (ReqEntities entity_id);
     EvSleep (1000 * BirthLabel.REQUEST_DELAY)]
    ++ failed_label_attempts entity_id pre.
Proof.
  unfold failed_label_attempts.
  rewrite map_app, concat_app, rev_app_distr. cbn [map concat].
  rewrite app_nil_r. reflexivity.
Qed.

Lemma sleeps_failed_label_attempts (entity_id : string) (attempts : list nat) :
  sleeps (failed_label_attempts entity_id attempts) = label_sleeps attempts.
Proof.
  unfold sleeps, failed_label_attempts, label_sleeps. rewrite rev_involutive.
  induction attempts as [| a rest IH]; [reflexivity |].
  cbn [map concat]. rewrite omap_app, IH. reflexivity.
Qed.

Lemma requests_failed_label_attempts (entity_id : string) (attempts : list nat) :
  requests (failed_label_attempts entity_id attempts)
  = repeat (ReqEntities entity_id) (length attempts).
Proof.
  unfold requests, failed_label_attempts. rewrite rev_involutive.
  induction attempts as [| a rest IH]; [reflexivity |].
  cbn [map concat]. rewrite omap_app, IH. reflexivity.
Qed.

Section LabelSchedule.
Variable net : nat -> request -> response (list (string * string)).

(** Failed attempts that are not the last one allowed are gone through one
    after the other. *)
Lemma single_attempts_skip (pre rest : list nat) (retries : nat) (entity_id : string)
    (w : world) :
  (forall i, i < length pre ->
             net (clock w + i) (ReqEntities entity_id) = Raises RequestException) ->
  Forall (fun a => a <> retries - 1) pre ->
  BirthLabel.single_attempts net (pre ++ rest) retries entity_id w
  = BirthLabel.single_attempts net rest retries entity_id
      (mkWorld (clock w + length pre) (files w) (tables w)
               (failed_label_attempts entity_id pre ++ trace w)).
Proof.
  revert rest w. induction pre as [| a pre IH] using rev_ind; intros rest w H Hne.
  - simpl. rewrite Nat.add_0_r. now destruct w.
  - rewrite <- app_assoc. cbn [app].
    apply Forall_app in Hne as [Hpre Ha]. inversion Ha as [| ? ? Hane _]; subst.
    rewrite IH; [| intros i Hi; apply H; rewrite length_app; lia | exact Hpre].
    rewrite single_attempts_cons. cbv zeta. cbn [clock].
    rewrite (H (length pre)) by (rewrite length_app; simpl; lia).
    apply Nat.eqb_neq in Hane. rewrite Hane.
    f_equal. unfold traced, sent. cbn [clock files tables trace].
    rewrite failed_label_attempts_snoc, length_app. cbn [length app].
    f_equal. lia.
Qed.
End LabelSchedule.

(** X12.  The schedule of [get_single_label].  Before every request it waits
    the courtesy delay of one second.  When the first [j] attempts are
    transport failures and the next one is answered, it returns the label of
    the entity in that answer, or [None] when there is none, after [j + 1]
    requests and, after the [i]-th failure, a sleep of [2^i] seconds.  When
    all [retries] attempts fail it returns [None] after [retries] requests,
    and it does not sleep after the last failure. *)
Theorem get_single_label_schedule net (entity_id : string) (retries : nat) (w : world) :
  (forall j labels,
      j < retries ->
      (forall i, i < j ->
                 net (clock w + i) (ReqEntities entity_id) = Raises RequestException) ->
      net (clock w + j) (ReqEntities entity_id) = Body labels ->
      exists evs,
        BirthLabel.get_single_label net entity_id retries w
        = (Ok (dict_get entity_id labels),
           mkWorld (clock w + j + 1) (files w) (tables w) (evs ++ trace w))
        /\ requests evs = repeat (ReqEntities entity_id) (j + 1)
        /\ sleeps evs = label_sleeps (seq 0 j) ++ [1000 * BirthLabel.REQUEST_DELAY]%Z)
  /\ (0 < retries ->
      (forall i, i < retries ->
                 net (clock w + i) (ReqEntities entity_id) = Raises RequestException) ->
      exists evs,
        BirthLabel.get_single_label net entity_id retries w
        = (Ok None,
           mkWorld (clock w + retries) (files w) (tables w)
                   (EvLog ERROR (MsgGaveUp entity_id retries) :: evs ++ trace w))
        /\ requests evs = repeat (ReqEntities entity_id) retries
        /\ sleeps evs
           = label_sleeps (seq 0 (retries - 1)) ++ [1000 * BirthLabel.REQUEST_DELAY]%Z).
Proof.
  split.
  - intros j labels Hj Hdown Hbody. unfold BirthLabel.get_single_label.
    assert (Hseq : seq 0 retries = seq 0 j ++ j :: seq (S j) (retries - S j)).
    { replace retries with (j + S (retries - S j)) at 1 by lia.
      now rewrite seq_app. }
    rewrite Hseq, single_attempts_skip.
    + rewrite single_attempts_cons. cbv zeta. cbn [clock]. rewrite length_seq, Hbody.
      eexists ([_; _] ++ failed_label_attempts entity_id (seq 0 j)).
      split; [| split].
      * unfold sent, traced. cbn [clock files tables trace].
        rewrite <- app_assoc. do 2 f_equal. lia.
      * rewrite requests_app, requests_failed_label_attempts, length_seq.
        change (requests [_; _]) with [ReqEntities entity_id].
        now rewrite repeat_app.
      * rewrite sleeps_app, sleeps_failed_label_attempts. reflexivity.
    + intros i Hi. rewrite length_seq in Hi. now apply Hdown.
    + apply Forall_forall. intros a Ha. apply elem_of_seq in Ha. lia.
  - intros Hr Hdown. unfold BirthLabel.get_single_label.
    assert (Hseq : seq 0 retries = seq 0 (retries - 1) ++ [retries - 1]).
    { replace retries with ((retries - 1) + 1) at 1 by lia.
      now rewrite seq_app. }
    rewrite Hseq, single_attempts_skip.
    + rewrite single_attempts_cons. cbv zeta. cbn [clock]. rewrite length_seq.
      rewrite (Hdown (retries - 1)) by lia. rewrite Nat.eqb_refl.
      eexists ([_; _; _] ++ failed_label_attempts entity_id (seq 0 (retries - 1))).
      split; [| split].
      * unfold sent, traced. cbn [clock files tables trace].
        rewrite <- app_assoc. do 2 f_equal. lia.
      * rewrite requests_app, requests_failed_label_attempts, length_seq.
        change (requests [_; _; _]) with (repeat (ReqEntities entity_id) 1).
        rewrite <- repeat_app. f_equal. lia.
      * rewrite sleeps_app, sleeps_failed_label_attempts. reflexivity.
    + intros i Hi. rewrite length_seq in Hi. apply Hdown. lia.
    + apply Forall_forall. intros a Ha. apply elem_of_seq in Ha. lia.
Qed.

Lemma get_single_label_schedule_witness :
  (exists evs,
      BirthLabel.get_single_label (net_recovering 2 [("Q64", "Berlin")]) "Q64"
                                  BirthLabel.MAX_RETRIES empty_world
      = (Ok (Some "Berlin"), mkWorld 3 ∅ ∅ (evs ++ []))
      /\ sleeps evs = [1000; 1000; 1000; 2000; 1000]%Z)
  /\ (exists evs,
         BirthLabel.get_single_label net_down "Q64" BirthLabel.MAX_RETRIES empty_world
         = (Ok None, mkWorld 5 ∅ ∅ (EvLog ERROR (MsgGaveUp "Q64" 5) :: evs ++ []))
         /\ sleeps evs = [1000; 1000; 1000; 2000; 1000; 4000; 1000; 8000; 1000]%Z).
Proof.
  split.
  - destruct (proj1 (get_single_label_schedule (net_recovering 2 [("Q64", "Berlin")])
                       "Q64" BirthLabel.MAX_RETRIES empty_world)
                    2 [("Q64", "Berlin")])
      as (evs & E & _ & S).
    + unfold BirthLabel.MAX_RETRIES. lia.
    + intros i Hi. simpl. unfold net_recovering. destruct i as [| [| i]]; [reflexivity .. | lia].
    + reflexivity.
    + exists evs. split; [exact E | exact S].
  - destruct (proj2 (get_single_label_schedule (@net_down (list (string * string)))
                       "Q64" BirthLabel.MAX_RETRIES empty_world))
      as (evs & E & _ & S).
    + unfold BirthLabel.MAX_RETRIES. lia.
    + intros i _. reflexivity.
    + exists evs. split; [exact E | exact S].
Defined.

(** ** [birthlabel.py]: the labels of a batch *)

Section LabelRequests.
Variable net : nat -> request -> response (list (string * string)).

Local Abbreviation one_by_one :=
  (fun (batch_result : gmap string (option string)) (entity_id : string) =>
     label ← BirthLabel.get_single_label net entity_id BirthLabel.MAX_RETRIES;
     mret (<[entity_id := label]> batch_result)).

Lemma single_attempts_requests (attempts : list nat) (retries : nat)
    (entity_id : string) (w : world) :
  exists evs,
    trace (snd (BirthLabel.single_attempts net attempts retries entity_id w))
    = evs ++ trace w
    /\ forall r, In (EvRequest r) evs -> r = ReqEntities entity_id.
Proof.
  revert w. induction attempts as [| a rest IH]; intros w.
  - exists []. split; [reflexivity | intros r []].
  - rewrite single_attempts_cons. cbv zeta.
    assert (H2 : forall r, In (EvRequest r)
                              [EvRequest (ReqEntities entity_id);
                               EvSleep (1000 * BirthLabel.REQUEST_DELAY)]
                           -> r = ReqEntities entity_id).
    { intros r [[= <-] | [[=] | []]]. reflexivity. }
    destruct (net (clock w) (ReqEntities entity_id)) as [e | labels];
      [| eexists [_; _]; split; [reflexivity | exact H2]].
    destruct e; try (eexists [_; _]; split; [reflexivity | exact H2]).
    destruct (a =? retries - 1).
    + eexists [_; _; _; _]. split; [reflexivity |].
      intros r [[=] | [[=] | H]]. now apply H2.
    + match goal with |- context [BirthLabel.single_attempts _ _ _ _ ?w1] =>
        destruct (IH w1) as (evs & Ht & Hr) end.
      eexists (evs ++ [_; _; _; _]). rewrite <- app_assoc. split; [exact Ht |].
      intros r Hin. apply in_app_or in Hin as [Hin | [[=] | [[=] | Hin]]]; auto.
Qed.

Lemma one_by_one_requests (ids : list string) (m m' : gmap string (option string))
    (w w' : world) :
  for_each one_by_one ids m w = (Ok m', w') ->
  (forall k, ~ In k ids -> m' !! k = m !! k)
  /\ (ids = [] -> w' = w)
  /\ exists evs,
      trace w' = evs ++ trace w
      /\ forall r, In (EvRequest r) evs -> exists id, In id ids /\ r = ReqEntities id.
Proof.
  revert m w. induction ids as [| id ids IH]; intros m w.
  - intros [= <- <-]. split; [reflexivity | split; [reflexivity |]].
    exists []. split; [reflexivity | intros r []].
  - rewrite for_each_cons, bind_eq.
    destruct (single_attempts_requests (seq 0 BirthLabel.MAX_RETRIES) BirthLabel.MAX_RETRIES
                id w) as (evs & Ht & Hr).
    fold (BirthLabel.get_single_label net id BirthLabel.MAX_RETRIES) in Ht.
    destruct (BirthLabel.get_single_label net id BirthLabel.MAX_RETRIES w)
      as [[label | e |] w1]; [| discriminate | discriminate].
    munfold. intros Hrest. destruct (IH _ _ Hrest) as (Hk & _ & evs' & Ht' & Hr').
    split; [| split; [discriminate |]].
    + intros k Hout. rewrite Hk by (intros Hin; apply Hout; now right).
      apply lookup_insert_ne. intros ->. apply Hout. now left.
    + exists (evs' ++ evs). rewrite <- app_assoc. simpl in Ht. rewrite <- Ht.
      split; [exact Ht' |]. intros r Hin. apply in_app_or in Hin as [Hin | Hin].
      * destruct (Hr' r Hin) as (id' & Hi & ->). exists id'. split; [now right | reflexivity].
      * exists id. split; [now left | now apply Hr].
Qed.

Lemma keeps_single_attempts (texts csvs : list string) (attempts : list nat)
    (retries : nat) (entity_id : string) :
  keeps (touches texts csvs) (BirthLabel.single_attempts net attempts retries entity_id).
Proof. induction attempts as [| a rest IH]; simpl; frame. Qed.

Lemma keeps_get_single_label (texts csvs : list string) (entity_id : string)
    (retries : nat) :
  keeps (touches texts csvs) (BirthLabel.get_single_label net entity_id retries).
Proof. apply keeps_single_attempts. Qed.

Lemma keeps_get_batch_labels (texts csvs : list string) (entity_ids : list string) :
  keeps (touches texts csvs) (BirthLabel.get_batch_labels net entity_ids).
Proof.
  unfold BirthLabel.get_batch_labels, BirthLabel.batch_request.
  frame; apply keeps_for_each; intros; frame; apply keeps_get_single_label.
Qed.

Lemma keeps_process_single (output_csv : string) (df : DataFrame scalar)
    (entity_id : string) :
  keeps (touches [] [output_csv]) (BirthLabel.process_single net output_csv df entity_id).
Proof.
  unfold BirthLabel.process_single. frame; apply keeps_get_single_label.
Qed.

Lemma keeps_process_batch (output_csv : string) (df : DataFrame scalar)
    (batch : list string) :
  keeps (touches [] [output_csv]) (BirthLabel.process_batch net output_csv df batch).
Proof.
  unfold BirthLabel.process_batch.
  apply keeps_try; [| intros e].
  - apply keeps_bind; [apply keeps_get_batch_labels | intros m; frame].
  - apply keeps_bind; [frame | intros _].
    apply keeps_for_each. intros. apply keeps_process_single.
Qed.
End LabelRequests.

(** X13.  When the batch request of [get_batch_labels] is answered, every
    label of the answer is in the dict returned, under its identifier; the
    requests that follow are single requests for identifiers of the batch
    that the answer left without a label, and there is none when the answer
    has a label for every identifier. *)
Theorem batch_labels_are_kept net (entity_ids : list string) (w w' : world)
    (labels : list (string * string)) (m : gmap string (option string)) :
  net (clock w) (ReqEntities (String.concat "|" entity_ids)) = Body labels ->
  BirthLabel.get_batch_labels net entity_ids w = (Ok m, w') ->
  (forall id l, In id entity_ids -> dict_get id labels = Some l -> m !! id = Some (Some l))
  /\ (exists evs,
         trace w' = evs ++ EvRequest (ReqEntities (String.concat "|" entity_ids))
                        :: EvSleep (1000 * BirthLabel.REQUEST_DELAY) :: trace w
         /\ forall r, In (EvRequest r) evs ->
                      exists id, In id entity_ids /\ dict_get id labels = None
                                 /\ r = ReqEntities id)
  /\ ((forall id, In id entity_ids -> is_Some (dict_get id labels)) ->
      clock w' = clock w + 1).
Proof.
  intros Hb. rewrite get_batch_labels_eq. cbv zeta. rewrite Hb. intros Hrun.
  destruct (one_by_one_requests net _ _ _ _ _ Hrun) as (Hk & Hnil & evs & Ht & Hr).
  split; [| split].
  - intros id l Hin Hl. rewrite Hk.
    + rewrite (foldl_insert_lookup (fun id => dict_get id labels)) by exact Hin.
      now rewrite Hl.
    + rewrite filter_In, Hl. intros [_ H].
      apply negb_true_iff, bool_decide_eq_false in H. apply H. eauto.
  - exists evs. split; [exact Ht |]. intros r Hin.
    destruct (Hr r Hin) as (id & Hi & ->). apply filter_In in Hi as [Hi Hn].
    exists id. split; [exact Hi | split; [| reflexivity]].
    destruct (dict_get id labels) as [l |]; [| reflexivity].
    apply negb_true_iff, bool_decide_eq_false in Hn. destruct Hn. eauto.
  - intros Hall. rewrite Hnil; [simpl; lia |].
    clear - Hall. induction entity_ids as [| id ids IH]; [reflexivity |].
    simpl. rewrite bool_decide_eq_true_2 by (apply Hall; now left). simpl.
    apply IH. intros id' Hin. apply Hall. now right.
Qed.

Lemma batch_labels_are_kept_witness :
  exists m w',
    BirthLabel.get_batch_labels (fun _ _ => Body [("Q64", "Berlin")]) ["Q64"; "Q1055"]
                                empty_world = (Ok m, w')
    /\ m !! "Q64" = Some (Some "Berlin").
Proof.
  eexists _, _. split; [vm_compute; reflexivity |].
  refine (proj1 (batch_labels_are_kept (fun _ _ => Body [("Q64", "Berlin")])
                   ["Q64"; "Q1055"] empty_world _ [("Q64", "Berlin")] _ eq_refl _)
                "Q64" "Berlin" _ eq_refl); [vm_compute; reflexivity | now left].
Defined.

(** ** [birthlabel.py]: the identifiers to process and their batches *)

Lemma batch_bounds (n m k : nat) :
  m = (n + (BirthLabel.BATCH_SIZE - 1)) / BirthLabel.BATCH_SIZE -> k < m ->
  k * BirthLabel.BATCH_SIZE < n
  /\ (S k < m -> S k * BirthLabel.BATCH_SIZE < n).
Proof.
  unfold BirthLabel.BATCH_SIZE. intros -> Hk.
  pose proof (Nat.div_mod_eq (n + (50 - 1)) 50).
  pose proof (Nat.mod_upper_bound (n + (50 - 1)) 50). lia.
Qed.

Lemma batches_lengths (ids : list string) :
  Forall (fun batch => 0 < length batch <= BirthLabel.BATCH_SIZE) (BirthLabel.batches ids).
Proof.
  unfold BirthLabel.batches. apply List.Forall_forall. intros batch Hin.
  apply in_map_iff in Hin as (k & <- & Hk). apply in_seq in Hk.
  destruct (batch_bounds (length ids) _ k eq_refl ltac:(lia)) as [Hlt _].
  rewrite length_take, length_drop. unfold BirthLabel.BATCH_SIZE in *. lia.
Qed.

(** X14.  The batches of [process_all_birthplaces] are the identifiers to
    process cut in order into slices: no identifier is lost or repeated,
    no batch is empty, none has more than fifty identifiers, and every batch
    but the last has exactly fifty. *)
Theorem batches_shape (ids : list string) :
  concat (BirthLabel.batches ids) = ids
  /\ Forall (fun batch => 0 < length batch <= BirthLabel.BATCH_SIZE) (BirthLabel.batches ids)
  /\ (forall k, S k < length (BirthLabel.batches ids) ->
                length (nth k (BirthLabel.batches ids) []) = BirthLabel.BATCH_SIZE).
Proof.
  split; [apply batches_concat | split; [apply batches_lengths |]].
  - intros k Hk. unfold BirthLabel.batches in *. rewrite length_map, length_seq in Hk.
    rewrite (nth_indep _ [] (take BirthLabel.BATCH_SIZE
                                  (drop (0 * BirthLabel.BATCH_SIZE) ids)))
      by (rewrite length_map, length_seq; lia).
    rewrite (map_nth (fun k => take BirthLabel.BATCH_SIZE
                                    (drop (k * BirthLabel.BATCH_SIZE) ids))).
    rewrite seq_nth by lia.
    destruct (batch_bounds (length ids) _ k eq_refl ltac:(lia)) as [_ Hlt].
    specialize (Hlt Hk).
    rewrite length_take, length_drop. unfold BirthLabel.BATCH_SIZE in *. lia.
Qed.

Lemma batches_shape_witness :
  length (nth 0 (BirthLabel.batches (repeat "Q1" 51)) []) = BirthLabel.BATCH_SIZE
  /\ concat (BirthLabel.batches (repeat "Q1" 51)) = repeat "Q1" 51.
Proof.
  destruct (batches_shape (repeat "Q1" 51)) as (Hc & _ & Hk).
  split; [apply Hk; vm_compute; lia | exact Hc].
Defined.

Lemma NoDup_unique (l : list string) : List.NoDup (unique l).
Proof.
  induction l as [| x l IH]; simpl; constructor.
  - rewrite filter_In. intros [_ H]. now rewrite String.eqb_refl in H.
  - now apply List.NoDup_filter.
Qed.

Lemma in_unique_ids (col : list scalar) (x : string) :
  In x (BirthLabel.unique_ids (map BirthLabel.birthplace_id_of col))
  <-> exists s, In (SStr s) col /\ x = last_segment s.
Proof.
  unfold BirthLabel.unique_ids. rewrite in_unique.
  induction col as [| c col IH]; simpl; [split; [intros [] | intros (s & [] & _)] |].
  destruct c as [| | z | s]; simpl.
  - rewrite IH. split; [intros (s & H & E) | intros (s & [[=] | H] & E)]; eauto.
  - rewrite IH. split; [intros (s & H & E) | intros (s & [[=] | H] & E)]; eauto.
  - rewrite IH. split; [intros (s & H & E) | intros (s & [[=] | H] & E)]; eauto.
  - rewrite IH. split.
    + intros [<- | (s' & H & E)]; eauto.
    + intros (s' & [[= ->] | H] & E); [left; now symmetry | right; eauto].
Qed.

(** X15.  The identifiers [process_all_birthplaces] sets out to process are
    the last path segments of the strings in the [birthplace] column that are
    not yet in the results, each once; cells that are not strings give none.
    Without that column the function raises [KeyError]. *)
Theorem ids_to_process_spec (processed_ids : gset string) (dataset : DataFrame scalar)
    (w : world) :
  match df_getitem "birthplace" dataset with
  | Some col =>
      exists ids,
        BirthLabel.ids_to_process processed_ids dataset w = (Ok ids, w)
        /\ List.NoDup ids
        /\ forall id, In id ids
                      <-> (exists s, In (SStr s) col /\ id = last_segment s)
                          /\ id ∉ processed_ids
  | None => BirthLabel.ids_to_process processed_ids dataset w = (Raise KeyError, w)
  end.
Proof.
  unfold BirthLabel.ids_to_process.
  destruct (df_getitem "birthplace" dataset) as [col |]; [| reflexivity].
  eexists. split; [reflexivity | split].
  - apply List.NoDup_filter, NoDup_unique.
  - intros id. rewrite filter_In, in_unique_ids, negb_true_iff, bool_decide_eq_false.
    reflexivity.
Qed.

(** X16.  A run of [process_all_birthplaces] writes no file but the output
    file, however it ends: the dataset it reads is left as it is unless it is
    the output file itself. *)
Theorem birthlabel_frame net (dataset_path output_csv : string) :
  keeps (touches [] [output_csv])
        (BirthLabel.process_all_birthplaces net dataset_path output_csv).
Proof.
  unfold BirthLabel.process_all_birthplaces, BirthLabel.load_or_create_dataframe,
    BirthLabel.processed_ids_of, BirthLabel.ids_to_process.
  frame. apply keeps_for_each. intros. apply keeps_process_batch.
Qed.

(** ** [birthlabel.py]: a second run *)

Section LabelRerun.
Variable net : nat -> request -> response (list (string * string)).






End LabelRerun.




(** ** [wiki.py]: the two fetchers *)

(** X18.  [fetch_occupation_and_death] never raises: it sends exactly one
    request, changes no file and returns a pair of strings whose first
    component is never empty.  After an error, and after an answer without
    records, the pair is the two defaults; otherwise the date of death is
    the one of the first record, or the default when that record has none,
    and the occupation is the default when no record has a label. *)
Theorem fetch_occupation_and_death_result sparql (person_id : string) (w : world) :
  exists occupation death evs,
    Wiki.fetch_occupation_and_death sparql person_id w
    = (Ok (occupation, death),
       mkWorld (S (clock w)) (files w) (tables w) (evs ++ trace w))
    /\ requests evs = [ReqSparql (QOccupation person_id)]
    /\ occupation <> EmptyString
    /\ match sparql (clock w) (ReqSparql (QOccupation person_id)) with
       | Body ((label, first_death) :: rest) =>
           death = default Wiki.NO_DEATH first_death
           /\ (omap fst ((label, first_death) :: rest) = [] ->
               occupation = Wiki.NO_OCCUPATION)
       | _ => occupation = Wiki.NO_OCCUPATION /\ death = Wiki.NO_DEATH
       end.
Proof.
  unfold Wiki.fetch_occupation_and_death, try_except. rewrite bind_eq. unfold send.
  destruct (sparql (clock w) (ReqSparql (QOccupation person_id)))
    as [e | [| [label death] rest]].
  - eexists _, _, [_; _]. split; [reflexivity |]. repeat split. discriminate.
  - eexists _, _, [_; _]. split; [reflexivity |]. repeat split. discriminate.
  - eexists _, _, [_]. split; [reflexivity |]. split; [reflexivity |]. split; [| split].
    + destruct (String.eqb_spec (String.concat ", " (omap fst ((label, death) :: rest)))
                                EmptyString) as [_ | Hne]; [discriminate | exact Hne].
    + reflexivity.
    + intros ->. reflexivity.
Qed.

Lemma fetch_occupation_and_death_result_witness :
  exists evs,
    Wiki.fetch_occupation_and_death (fun _ _ => Body [(None, Some "1900-01-01T00:00:00Z")])
                                    "Q1" empty_world
    = (Ok (Wiki.NO_OCCUPATION, "1900-01-01T00:00:00Z"), mkWorld 1 ∅ ∅ (evs ++ [])).
Proof.
  destruct (fetch_occupation_and_death_result
              (fun _ _ => Body [(None, Some "1900-01-01T00:00:00Z")]) "Q1" empty_world)
    as (occupation & death & evs & Hrun & _ & _ & Hd & Ho).
  exists evs. rewrite Hrun, Hd, (Ho eq_refl). reflexivity.
Defined.

(** X19.  [fetch_wikipedia_data] never raises.  For a cell that is not a
    string, a blank string, or an address of neither the German nor the
    English Wikipedia it returns [(0, "No description available")] without
    any request.  Otherwise it sends exactly two requests, the summary and
    then the page views of the article named by the last path segment, on
    the German site when the address names it and on the English one
    otherwise; each of the two results falls back to its default on its own
    when its request fails, and no file is changed. *)
Theorem fetch_wikipedia_data_cases summary pageviews (page_url : scalar) (w : world) :
  ((forall url, page_url = SStr url ->
                strip url = EmptyString
                \/ (Wiki.contains "de.wikipedia.org" url = false
                    /\ Wiki.contains "en.wikipedia.org" url = false)) ->
   Wiki.fetch_wikipedia_data summary pageviews page_url w
   = (Ok (0%Z, Wiki.NO_DESCRIPTION), w))
  /\ (forall url,
         page_url = SStr url -> strip url <> EmptyString ->
         Wiki.contains "de.wikipedia.org" url || Wiki.contains "en.wikipedia.org" url = true ->
         let code := if Wiki.contains "de.wikipedia.org" url then "de" else "en" in
         let article := last_segment url in
         exists evs,
           Wiki.fetch_wikipedia_data summary pageviews page_url w
           = (Ok (match pageviews (S (clock w)) (ReqPageviews code article) with
                  | Body views => foldr Z.add 0%Z views
                  | Raises _ => 0%Z
                  end,
                  match summary (clock w) (ReqSummary code article) with
                  | Body (Some extract) => extract
                  | _ => Wiki.NO_DESCRIPTION
                  end),
              mkWorld (clock w + 2) (files w) (tables w) (evs ++ trace w))
           /\ requests evs = [ReqSummary code article; ReqPageviews code article]).
Proof.
  split.
  - intros H. unfold Wiki.fetch_wikipedia_data.
    destruct page_url as [| | z | url]; try reflexivity.
    destruct (H url eq_refl) as [-> | [-> ->]]; [reflexivity |].
    now destruct (String.eqb (strip url) EmptyString).
  - intros url -> Hs Hc. cbv zeta. unfold Wiki.fetch_wikipedia_data.
    destruct (String.eqb_spec (strip url) EmptyString) as [E | _]; [contradiction |].
    assert (Hcode : (if Wiki.contains "de.wikipedia.org" url then Some "de"
                     else if Wiki.contains "en.wikipedia.org" url then Some "en" else None)
                    = Some (if Wiki.contains "de.wikipedia.org" url then "de" else "en")).
    { destruct (Wiki.contains "de.wikipedia.org" url); [reflexivity |].
      simpl in Hc. now rewrite Hc. }
    rewrite Hcode. clear Hcode Hc.
    set (code := if Wiki.contains "de.wikipedia.org" url then "de" else "en").
    cbv zeta. unfold try_except, send, log, emit, raise. munfold.
    replace (clock w + 2) with (S (S (clock w))) by lia.
    destruct w as [c fs ts tr]. cbn [clock files tables trace].
    destruct (summary c (ReqSummary code (last_segment url))) as [e1 | [extract |]];
      cbn [clock files tables trace];
      destruct (pageviews (S c) (ReqPageviews code (last_segment url))) as [e2 | views];
      cbn [clock files tables trace];
      first [ eexists [_; _]; split; reflexivity
            | eexists [_; _; _]; split; reflexivity
            | eexists [_; _; _; _]; split; reflexivity ].
Qed.

Lemma fetch_wikipedia_data_cases_witness :
  Wiki.fetch_wikipedia_data net_down net_down SNaN empty_world
  = (Ok (0%Z, Wiki.NO_DESCRIPTION), empty_world)
  /\ exists evs,
      Wiki.fetch_wikipedia_data (fun _ _ => Body (Some "Hauptstadt")) net_down
        (SStr "https://de.wikipedia.org/wiki/Berlin") empty_world
      = (Ok (0%Z, "Hauptstadt"), mkWorld 2 ∅ ∅ (evs ++ []))
      /\ requests evs = [ReqSummary "de" "Berlin"; ReqPageviews "de" "Berlin"].
Proof.
  split.
  - apply (proj1 (fetch_wikipedia_data_cases net_down net_down SNaN empty_world)).
    intros url [=].
  - exact (proj2 (fetch_wikipedia_data_cases (fun _ _ => Body (Some "Hauptstadt")) net_down
                    (SStr "https://de.wikipedia.org/wiki/Berlin") empty_world)
                 "https://de.wikipedia.org/wiki/Berlin" eq_refl
                 ltac:(discriminate) eq_refl).
Defined.

(** ** [wiki.py]: the loop of [enrich_data] *)

Lemma dict_get_dict_set {A : Type} (k k' : string) (v : A) (d : list (string * A)) :
  dict_get k (dict_set k' v d) = if String.eqb k k' then Some v else dict_get k d.
Proof.
  induction d as [| [k'' v''] d IH]; simpl.
  - destruct (String.eqb k k'); reflexivity.
  - destruct (String.eqb_spec k' k'') as [<- | Hne]; simpl.
    + destruct (String.eqb k k'); reflexivity.
    + rewrite IH. destruct (String.eqb_spec k k'') as [-> | Hne'];
        [| reflexivity].
      destruct (String.eqb_spec k'' k') as [E | _]; [now destruct Hne | reflexivity].
Qed.

Lemma ok_pair_inv {A : Type} (a a' : A) (w w' : world) :
  (Ok a, w) = (Ok a', w') -> a = a' /\ w = w'.
Proof. intros [= -> ->]. now split. Qed.

Section WikiLoop.
Variable sparql : nat -> request -> response (list (option string * option string)).
Variable summary : nat -> request -> response (option string).
Variable pageviews : nat -> request -> response (list Z).

Local Abbreviation fetch_row := (Wiki.fetch_row sparql summary pageviews).
Local Abbreviation process_row := (Wiki.process_row sparql summary pageviews).

Lemma keeps_fetch_occupation_and_death (texts csvs : list string) (person_id : string) :
  keeps (touches texts csvs) (Wiki.fetch_occupation_and_death sparql person_id).
Proof. unfold Wiki.fetch_occupation_and_death. frame. Qed.

Lemma keeps_fetch_wikipedia_data (texts csvs : list string) (page_url : scalar) :
  keeps (touches texts csvs) (Wiki.fetch_wikipedia_data summary pageviews page_url).
Proof. unfold Wiki.fetch_wikipedia_data. frame. Qed.

Lemma keeps_fetch_row (texts csvs : list string) (person_id : string)
    (row : list (string * scalar)) :
  keeps (touches texts csvs) (fetch_row person_id row).
Proof.
  unfold Wiki.fetch_row, Wiki.row_get.
  frame; first [apply keeps_fetch_occupation_and_death | apply keeps_fetch_wikipedia_data].
Qed.

Lemma keeps_process_row (csvs : list string) (checkpoint_csv : string)
    (last_processed_index : Z) (enriched_data : list (list (string * scalar)))
    (item : nat * list (string * scalar)) :
  In checkpoint_csv csvs ->
  keeps (touches [] csvs) (process_row checkpoint_csv last_processed_index enriched_data item).
Proof.
  intros Hin. unfold Wiki.process_row, Wiki.person_id_of, Wiki.row_get.
  destruct item as [idx row].
  destruct (Z.of_nat idx <=? last_processed_index)%Z; [frame |].
  apply keeps_bind; [frame | intros person_id].
  apply keeps_bind.
  - apply keeps_try; [| intros e; frame].
    apply keeps_bind; [apply keeps_fetch_row | intros x; frame].
  - intros [[[pd g] e] |]; [| frame].
    cbv zeta. apply keeps_bind; [| intros _; frame].
    destruct (_ mod 100 =? 0); [now apply keeps_to_csv | frame].
Qed.

(** One turn of the loop, by the person cell of the row and the result of
    its fetches. *)
Lemma process_row_eq (checkpoint_csv : string) (last_processed_index : Z)
    (enriched_data : list (list (string * scalar))) (idx : nat)
    (row : list (string * scalar)) (w : world) :
  process_row checkpoint_csv last_processed_index enriched_data (idx, row) w =
  if (Z.of_nat idx <=? last_processed_index)%Z then (Ok enriched_data, w)
  else
    match dict_get "person" row with
    | None => (Raise KeyError, w)
    | Some (SStr person) =>
        match fetch_row (last_segment person) row w with
        | (Ok (person_data, german, english), w1) =>
            let enriched_data' :=
              enriched_data
              ++ [Wiki.update row [("occupation", SStr (fst person_data));
                                   ("date_of_death", SStr (snd person_data));
                                   ("german_total_views", SInt (fst german));
                                   ("german_description", SStr (snd german));
                                   ("english_total_views", SInt (fst english));
                                   ("english_description", SStr (snd english))]] in
            (Ok enriched_data',
             mkWorld (clock w1) (files w1)
                     (if length enriched_data' mod 100 =? 0
                      then <[checkpoint_csv := csv_of (from_records enriched_data')]>
                             (tables w1)
                      else tables w1)
                     (EvSleep 300 :: trace w1))
        | (Raise _, w1) =>
            (Ok enriched_data,
             traced (EvLog ERROR (MsgRowError (last_segment person))) w1)
        | (OutOfFuel, w1) => (OutOfFuel, w1)
        end
    | Some _ => (Raise AttributeError, w)
    end.
Proof.
  unfold Wiki.process_row.
  destruct (Z.of_nat idx <=? last_processed_index)%Z; [reflexivity |].
  rewrite bind_eq. unfold Wiki.person_id_of, Wiki.row_get.
  destruct (dict_get "person" row) as [[| | z | person] |]; try reflexivity.
  munfold. unfold try_except.
  destruct (fetch_row (last_segment person) row w) as [[[[pd g] e] | ex |] w1];
    try reflexivity.
  cbv zeta. unfold to_csv, sleep, emit.
  destruct (_ mod 100 =? 0); reflexivity.
Qed.

Lemma fetch_row_eq (person_id : string) (row : list (string * scalar))
    (g e : scalar) (pd : string * string) (gr er : Z * string) (w w1 w2 w3 : world) :
  dict_get "GermanWikipedia" row = Some g ->
  dict_get "EnglishWikipedia" row = Some e ->
  Wiki.fetch_occupation_and_death sparql person_id w = (Ok pd, w1) ->
  Wiki.fetch_wikipedia_data summary pageviews g w1 = (Ok gr, w2) ->
  Wiki.fetch_wikipedia_data summary pageviews e w2 = (Ok er, w3) ->
  fetch_row person_id row w = (Ok (pd, gr, er), w3).
Proof.
  intros Hg He H1 H2 H3. unfold Wiki.fetch_row, Wiki.row_get.
  rewrite bind_eq, H1, Hg. munfold. rewrite H2, He, H3. reflexivity.
Qed.

(** A turn of the loop that returns has added one row or none; it has
    written no file but, after a row that makes the count a multiple of 100,
    the checkpoint file. *)
Lemma process_row_ok (checkpoint_csv : string) (last_processed_index : Z)
    (enriched_data enriched_data' : list (list (string * scalar))) (idx : nat)
    (row : list (string * scalar)) (w w' : world) :
  process_row checkpoint_csv last_processed_index enriched_data (idx, row) w
  = (Ok enriched_data', w') ->
  (enriched_data' = enriched_data
   /\ tables w' !! checkpoint_csv = tables w !! checkpoint_csv)
  \/ (exists enriched_row,
         enriched_data' = enriched_data ++ [enriched_row]
         /\ tables w' !! checkpoint_csv
            = if length enriched_data' mod 100 =? 0
              then Some (csv_of (from_records enriched_data'))
              else tables w !! checkpoint_csv).
Proof.
  rewrite process_row_eq.
  destruct (Z.of_nat idx <=? last_processed_index)%Z; [intros [= <- <-]; now left |].
  destruct (dict_get "person" row) as [[| | z | person] |]; try discriminate.
  pose proof (keeps_fetch_row [] [] (last_segment person) row w) as (_ & _ & _ & Hfr).
  destruct (fetch_row (last_segment person) row w) as [[[[pd g] e] | ex |] w1];
    [| | discriminate]; cbn [snd] in Hfr.
  - cbv zeta. intros H. apply ok_pair_inv in H as [<- <-]. right.
    eexists. split; [reflexivity |].
    change (tables (mkWorld ?c ?f ?t ?tr)) with t.
    destruct (_ mod 100 =? 0).
    + apply lookup_insert_eq.
    + apply Hfr. intros [].
  - intros [= <- <-]. left. split; [reflexivity |]. apply Hfr. intros [].
Qed.

(** When every row is complete each one beyond the checkpoint adds a row. *)
Lemma rows_all_added (checkpoint_csv : string) (k : nat)
    (rows : list (list (string * scalar))) :
  Forall complete_row rows ->
  forall (start : nat) (enriched_data : list (list (string * scalar))) (w : world),
  exists new w',
    for_each (process_row checkpoint_csv (Z.of_nat k - 1))
             (zip (seq start (length rows)) rows) enriched_data w
    = (Ok (enriched_data ++ new), w')
    /\ length new = length rows - (k - start).
Proof.
  induction 1 as [| row rows Hrow Hrows IH]; intros start enriched_data w.
  - exists [], w. rewrite app_nil_r. split; reflexivity.
  - cbn [length seq zip zip_with]. rewrite for_each_cons.
    destruct (le_lt_dec k start) as [Hge | Hlt].
    + destruct Hrow as ([person Hp] & [g Hg] & [e He]).
      destruct (process_row_attempted sparql summary pageviews checkpoint_csv
                  (Z.of_nat k - 1) enriched_data start row person w ltac:(lia) Hp)
        as (w1 & _ & Hstep).
      rewrite Hg, He in Hstep. destruct Hstep as (enriched_row & w2 & -> & _).
      destruct (IH (S start) (enriched_data ++ [enriched_row]) w2)
        as (new & w' & -> & Hlen).
      exists (enriched_row :: new), w'. rewrite <- app_assoc. split; [reflexivity |].
      simpl. lia.
    + rewrite process_row_skipped by lia.
      destruct (IH (S start) enriched_data w) as (new & w' & -> & Hlen).
      exists new, w'. split; [reflexivity | lia].
Qed.

Lemma rows_checkpoint (checkpoint_csv : string) (last_processed_index : Z)
    (items : list (nat * list (string * scalar))) :
  forall (enriched_data enriched : list (list (string * scalar))) (w w' : world),
  for_each (process_row checkpoint_csv last_processed_index) items enriched_data w
  = (Ok enriched, w') ->
  enriched_data `prefix_of` enriched
  /\ (tables w' !! checkpoint_csv = tables w !! checkpoint_csv
      \/ exists saved,
          saved `prefix_of` enriched
          /\ length enriched_data < length saved
          /\ length saved mod 100 = 0
          /\ tables w' !! checkpoint_csv = Some (csv_of (from_records saved))).
Proof.
  induction items as [| [idx row] items IH]; intros enriched_data enriched w w'.
  - intros [= <- <-]. split; [reflexivity | now left].
  - rewrite for_each_cons.
    destruct (process_row _ _ _ _ w) as [[data1 | e |] w1] eqn:Hstep;
      [| discriminate | discriminate].
    intros Hrest. destruct (IH _ _ _ _ Hrest) as [Hpre Hck].
    destruct (process_row_ok _ _ _ _ _ _ _ _ Hstep)
      as [[-> Ht] | (enriched_row & -> & Ht)].
    + split; [exact Hpre |]. rewrite <- Ht. exact Hck.
    + split; [etransitivity; [apply prefix_app_r; reflexivity | exact Hpre] |].
      destruct Hck as [Hsame | (saved & Hs1 & Hs2 & Hs3 & Hs4)].
      * rewrite Hsame, Ht. destruct (_ mod 100 =? 0) eqn:E; [| now left].
        right. exists (enriched_data ++ [enriched_row]).
        split; [exact Hpre | split; [| split; [| reflexivity]]].
        -- rewrite length_app. simpl. lia.
        -- now apply Nat.eqb_eq.
      * right. exists saved. split; [exact Hs1 | split; [| split; [exact Hs3 | exact Hs4]]].
        rewrite length_app in Hs2. simpl in Hs2. lia.
Qed.
End WikiLoop.

(** X20.  A run of [enrich_data] writes no file but the checkpoint file and
    the output file, however it ends; the input file is left as it is unless
    it is one of the two. *)
Theorem enrich_data_frame sparql summary pageviews
    (input_csv output_csv checkpoint_csv : string) :
  keeps (touches [] [checkpoint_csv; output_csv])
        (Wiki.enrich_data sparql summary pageviews input_csv output_csv checkpoint_csv).
Proof.
  unfold Wiki.enrich_data, Wiki.load_checkpoint.
  frame; apply keeps_for_each; intros st item; apply keeps_process_row; now left.
Qed.

(** ** [wiki.py]: the runs of [enrich_data] *)

Lemma in_zip_map {B : Type} (f : nat -> B) (l : list nat) (i : nat) :
  In i l -> In (i, f i) (zip l (map f l)).
Proof.
  induction l as [| x l IH]; [intros [] |].
  intros [-> | H]; [now left | right; now apply IH].
Qed.

Lemma to_records_item (df : DataFrame scalar) (idx : nat) :
  idx < df_len df ->
  exists row,
    In (idx, row) (zip (seq 0 (length (to_records df))) (to_records df))
    /\ forall col, dict_get col row = df_at col idx df.
Proof.
  intros H. eexists. split.
  - rewrite length_to_records. unfold to_records.
    apply (in_zip_map (fun i => map (fun cs => (fst cs, default nan (snd cs !! i)))
                                    (df_series df))).
    apply in_seq. lia.
  - intros col. unfold df_at, df_getitem.
    exact (dict_get_map_snd (fun s => default nan (s !! idx)) col (df_series df)).
Qed.

Section WikiRuns.
Variable sparql : nat -> request -> response (list (option string * option string)).
Variable summary : nat -> request -> response (option string).
Variable pageviews : nat -> request -> response (list Z).

Local Abbreviation process_row := (Wiki.process_row sparql summary pageviews).
Local Abbreviation enrich_data := (Wiki.enrich_data sparql summary pageviews).

Lemma load_checkpoint_eq (checkpoint_csv : string) (w : world) :
  Wiki.load_checkpoint checkpoint_csv w
  = match tables w !! checkpoint_csv with
    | Some BadCsv => (Ok None, traced (EvLog ERROR MsgCheckpointError) w)
    | checkpoint =>
        (Ok (Some (checkpoint_rows checkpoint,
                   (Z.of_nat (length (checkpoint_rows checkpoint)) - 1)%Z)), w)
    end.
Proof.
  destruct (tables w !! checkpoint_csv) as [[checkpoint_df |] |] eqn:E.
  - rewrite (load_checkpoint_rows checkpoint_csv checkpoint_df w E).
    cbn [checkpoint_rows]. now rewrite length_to_records.
  - unfold Wiki.load_checkpoint, try_except, read_csv, get_tables. munfold.
    rewrite E. cbv beta iota. rewrite E. reflexivity.
  - unfold Wiki.load_checkpoint, get_tables. munfold. now rewrite E.
Qed.

(** The run, once the input file and the checkpoint are read. *)
Lemma enrich_data_eq (input_csv output_csv checkpoint_csv : string)
    (df : DataFrame scalar) (w : world) :
  tables w !! input_csv = Some (Csv df) ->
  tables w !! checkpoint_csv <> Some BadCsv ->
  enrich_data input_csv output_csv checkpoint_csv w
  = let enriched_data := checkpoint_rows (tables w !! checkpoint_csv) in
    match for_each (process_row checkpoint_csv (Z.of_nat (length enriched_data) - 1))
                   (zip (seq 0 (length (to_records df))) (to_records df))
                   enriched_data w with
    | (Ok enriched, w1) => to_csv output_csv (from_records enriched) w1
    | (Raise e, w1) => (Raise e, w1)
    | (OutOfFuel, w1) => (OutOfFuel, w1)
    end.
Proof.
  intros Ht Hc. unfold Wiki.enrich_data. rewrite bind_eq. unfold try_except at 1.
  rewrite bind_eq. unfold read_csv at 1. rewrite bind_eq. unfold get_tables at 1.
  rewrite Ht. munfold. rewrite load_checkpoint_eq.
  destruct (tables w !! checkpoint_csv) as [[checkpoint_df |] |];
    [| contradiction |]; cbv beta iota zeta;
    destruct (for_each _ _ _ _) as [[enriched | e |] w1]; reflexivity.
Qed.

Lemma rows_abort (checkpoint_csv : string) (last_processed_index : Z)
    (idx : nat) (row : list (string * scalar))
    (items : list (nat * list (string * scalar))) :
  In (idx, row) items ->
  (last_processed_index < Z.of_nat idx)%Z ->
  (forall s, dict_get "person" row <> Some (SStr s)) ->
  forall (enriched_data : list (list (string * scalar))) (w : world),
  exists e w',
    for_each (process_row checkpoint_csv last_processed_index) items enriched_data w
    = (Raise e, w')
    /\ (e = KeyError \/ e = AttributeError).
Proof.
  intros Hin Hidx Hbad.
  induction items as [| [i r] items IH]; [destruct Hin |]. intros enriched_data w.
  assert (Htail : forall data1 w1, (i, r) <> (idx, row) ->
             exists e w',
               for_each (process_row checkpoint_csv last_processed_index) items data1 w1
               = (Raise e, w') /\ (e = KeyError \/ e = AttributeError)).
  { intros data1 w1 Hne. apply IH. destruct Hin as [E | H]; [contradiction | exact H]. }
  rewrite for_each_cons, process_row_eq.
  destruct (Z.of_nat i <=? last_processed_index)%Z eqn:Hi.
  { apply Htail. intros [= -> ->]. apply Z.leb_le in Hi. lia. }
  destruct (dict_get "person" r) as [[| | z | person] |] eqn:Hp;
    try (eexists _, _; split; [reflexivity | tauto]).
  assert (Hne : (i, r) <> (idx, row)).
  { intros [= -> ->]. exact (Hbad person Hp). }
  destruct (fetch_row_effects sparql summary pageviews (last_segment person) r w)
    as (w1 & _ & Hrow).
  destruct (dict_get "GermanWikipedia" r);
    [destruct (dict_get "EnglishWikipedia" r) |];
    try (rewrite Hrow; now apply Htail).
  destruct Hrow as [[[pd gr] er] ->]. cbv zeta. now apply Htail.
Qed.
End WikiRuns.

(** X21.  [enrich_data] has no handler around the person cell: when a row
    beyond the checkpoint has no string there (an empty cell, a number, or
    no [person] column at all) the run ends with the [KeyError] or
    [AttributeError] of that row, and the output file is not written: it is
    as it was before the run. *)
Theorem enrich_data_aborts sparql summary pageviews
    (input_csv output_csv checkpoint_csv : string) (df : DataFrame scalar)
    (idx : nat) (w : world) :
  tables w !! input_csv = Some (Csv df) ->
  tables w !! checkpoint_csv <> Some BadCsv ->
  output_csv <> checkpoint_csv ->
  length (checkpoint_rows (tables w !! checkpoint_csv)) <= idx < df_len df ->
  (forall s, df_at "person" idx df <> Some (SStr s)) ->
  exists e w',
    Wiki.enrich_data sparql summary pageviews input_csv output_csv checkpoint_csv w
    = (Raise e, w')
    /\ (e = KeyError \/ e = AttributeError)
    /\ tables w' !! output_csv = tables w !! output_csv.
Proof.
  intros Ht Hc Hne Hidx Hbad.
  rewrite (enrich_data_eq _ _ _ _ _ _ df w Ht Hc). cbv zeta.
  destruct (to_records_item df idx (proj2 Hidx)) as (row & Hin & Hrow).
  assert (Hlast : (Z.of_nat (length (checkpoint_rows (tables w !! checkpoint_csv))) - 1
                   < Z.of_nat idx)%Z) by lia.
  assert (Hrowbad : forall s, dict_get "person" row <> Some (SStr s))
    by (intros s; rewrite Hrow; apply Hbad).
  destruct (rows_abort sparql summary pageviews checkpoint_csv _ idx row _ Hin Hlast Hrowbad
              (checkpoint_rows (tables w !! checkpoint_csv)) w)
    as (e & w' & Hrun & He).
  pose proof (keeps_for_each [] [checkpoint_csv]
                (Wiki.process_row sparql summary pageviews checkpoint_csv
                   (Z.of_nat (length (checkpoint_rows (tables w !! checkpoint_csv))) - 1))
                (zip (seq 0 (length (to_records df))) (to_records df))
                (fun st item => keeps_process_row sparql summary pageviews
                                  [checkpoint_csv] checkpoint_csv _ st item
                                  (or_introl eq_refl))
                (checkpoint_rows (tables w !! checkpoint_csv)) w)
    as (_ & _ & _ & Hfr).
  rewrite Hrun in *. exists e, w'. split; [reflexivity | split; [exact He |]].
  apply Hfr. simpl. intros [E | []]. now apply Hne.
Qed.

Lemma enrich_data_aborts_witness :
  exists w',
    Wiki.enrich_data net_empty net_down net_down "final_combined_results.csv"
      "enriched_final_results.csv" "checkpoint.csv" no_person
    = (Raise AttributeError, w')
    /\ tables w' !! "enriched_final_results.csv" = None.
Proof.
  destruct (enrich_data_aborts (@net_empty (option string * option string))
              (@net_down (option string)) (@net_down (list Z))
              "final_combined_results.csv" "enriched_final_results.csv" "checkpoint.csv"
              (mkDF 1 [("person", [SNaN]); ("GermanWikipedia", [SNaN]);
                       ("EnglishWikipedia", [SNaN])]) 0 no_person)
    as (e & w' & Hrun & _ & Htab).
  - reflexivity.
  - discriminate.
  - discriminate.
  - vm_compute. lia.
  - intros s. discriminate.
  - exists w'. split; [| exact Htab].
    rewrite Hrun. f_equal.
    assert (E : fst (Wiki.enrich_data net_empty net_down net_down
                       "final_combined_results.csv" "enriched_final_results.csv"
                       "checkpoint.csv" no_person) = Raise AttributeError)
      by (vm_compute; reflexivity).
    rewrite Hrun in E. exact E.
Defined.

(** X22.  A row the loop of [enrich_data] processes: the occupation query is
    sent first, then the German page is fetched, then the English one, each
    in the world the one before left.  The row added is the input row with
    the six new fields set to what the three fetches returned; every other
    field of the input row keeps its value.  The checkpoint file is written,
    with all the rows so far, exactly when their number is a multiple of
    100; then the loop sleeps 0.3 seconds. *)
Theorem process_row_enriches sparql summary pageviews (checkpoint_csv : string)
    (last_processed_index : Z) (enriched_data : list (list (string * scalar)))
    (idx : nat) (row : list (string * scalar)) (person : string) (g e : scalar)
    (pd : string * string) (gr er : Z * string) (w w1 w2 w3 : world) :
  (last_processed_index < Z.of_nat idx)%Z ->
  dict_get "person" row = Some (SStr person) ->
  dict_get "GermanWikipedia" row = Some g ->
  dict_get "EnglishWikipedia" row = Some e ->
  Wiki.fetch_occupation_and_death sparql (last_segment person) w = (Ok pd, w1) ->
  Wiki.fetch_wikipedia_data summary pageviews g w1 = (Ok gr, w2) ->
  Wiki.fetch_wikipedia_data summary pageviews e w2 = (Ok er, w3) ->
  exists enriched_row,
    Wiki.process_row sparql summary pageviews checkpoint_csv last_processed_index
                     enriched_data (idx, row) w
    = (Ok (enriched_data ++ [enriched_row]),
       mkWorld (clock w3) (files w3)
               (if length (enriched_data ++ [enriched_row]) mod 100 =? 0
                then <[checkpoint_csv :=
                         csv_of (from_records (enriched_data ++ [enriched_row]))]>
                       (tables w3)
                else tables w3)
               (EvSleep 300 :: trace w3))
    /\ dict_get "occupation" enriched_row = Some (SStr (fst pd))
    /\ dict_get "date_of_death" enriched_row = Some (SStr (snd pd))
    /\ dict_get "german_total_views" enriched_row = Some (SInt (fst gr))
    /\ dict_get "german_description" enriched_row = Some (SStr (snd gr))
    /\ dict_get "english_total_views" enriched_row = Some (SInt (fst er))
    /\ dict_get "english_description" enriched_row = Some (SStr (snd er))
    /\ forall k, ~ In k enrichment_fields -> dict_get k enriched_row = dict_get k row.
Proof.
  intros Hidx Hp Hg He H1 H2 H3.
  rewrite process_row_eq. apply Z.leb_gt in Hidx. rewrite Hidx, Hp.
  rewrite (fetch_row_eq sparql summary pageviews _ _ _ _ _ _ _ _ _ _ _ Hg He H1 H2 H3).
  cbv zeta. eexists. split; [reflexivity |].
  unfold Wiki.update. cbn [foldl fst snd].
  repeat split; try (rewrite !dict_get_dict_set; reflexivity).
  intros k Hk. rewrite !dict_get_dict_set.
  repeat match goal with
         | |- context [String.eqb k ?f] =>
             destruct (String.eqb_spec k f) as [-> | _];
             [exfalso; apply Hk; unfold enrichment_fields; simpl; tauto |]
         end.
  reflexivity.
Qed.

Lemma process_row_enriches_witness :
  exists enriched_row w',
    Wiki.process_row net_empty net_down net_down "checkpoint.csv" (-1) []
      (0, [("person", SStr "http://www.wikidata.org/entity/Q1");
           ("GermanWikipedia", SNaN); ("EnglishWikipedia", SNaN)]) empty_world
    = (Ok [enriched_row], w')
    /\ dict_get "occupation" enriched_row = Some (SStr Wiki.NO_OCCUPATION)
    /\ dict_get "person" enriched_row = Some (SStr "http://www.wikidata.org/entity/Q1").
Proof.
  destruct (process_row_enriches (@net_empty (option string * option string))
              (@net_down (option string)) (@net_down (list Z)) "checkpoint.csv" (-1) []
              0 [("person", SStr "http://www.wikidata.org/entity/Q1");
                 ("GermanWikipedia", SNaN); ("EnglishWikipedia", SNaN)]
              "http://www.wikidata.org/entity/Q1" SNaN SNaN
              (Wiki.NO_OCCUPATION, Wiki.NO_DEATH) (0%Z, Wiki.NO_DESCRIPTION)
              (0%Z, Wiki.NO_DESCRIPTION) empty_world
              (traced (EvLog WARNING (MsgNoPersonData "Q1"))
                      (sent (ReqSparql (QOccupation "Q1")) empty_world))
              (traced (EvLog WARNING (MsgNoPersonData "Q1"))
                      (sent (ReqSparql (QOccupation "Q1")) empty_world))
              (traced (EvLog WARNING (MsgNoPersonData "Q1"))
                      (sent (ReqSparql (QOccupation "Q1")) empty_world)))
    as (enriched_row & Hrun & Hocc & _ & _ & _ & _ & _ & Hother);
    try reflexivity.
  exists enriched_row. eexists. split; [exact Hrun | split; [exact Hocc |]].
  rewrite Hother; [reflexivity |].
  unfold enrichment_fields. simpl. intros H.
  repeat (destruct H as [H | H]; [discriminate |]). exact H.
Defined.

(** X23.  When every row of the input file is complete (a string in the
    person cell, both page columns there) and the checkpoint file, if any,
    parses, [enrich_data] ends normally, whatever the providers answer: the
    output file holds the rows of the checkpoint followed by one new row for
    each input row whose position is not below the number of checkpoint
    rows. *)
Theorem enrich_data_full_run sparql summary pageviews
    (input_csv output_csv checkpoint_csv : string) (df : DataFrame scalar) (w : world) :
  tables w !! input_csv = Some (Csv df) ->
  tables w !! checkpoint_csv <> Some BadCsv ->
  Forall complete_row (to_records df) ->
  exists new w',
    Wiki.enrich_data sparql summary pageviews input_csv output_csv checkpoint_csv w
    = (Ok tt, w')
    /\ tables w' !! output_csv
       = Some (csv_of (from_records (checkpoint_rows (tables w !! checkpoint_csv) ++ new)))
    /\ length new = df_len df - length (checkpoint_rows (tables w !! checkpoint_csv)).
Proof.
  intros Ht Hc Hrows.
  rewrite (enrich_data_eq _ _ _ _ _ _ df w Ht Hc). cbv zeta.
  destruct (rows_all_added sparql summary pageviews checkpoint_csv
              (length (checkpoint_rows (tables w !! checkpoint_csv)))
              (to_records df) Hrows 0
              (checkpoint_rows (tables w !! checkpoint_csv)) w)
    as (new & w1 & -> & Hlen).
  exists new. eexists. split; [reflexivity | split].
  - simpl. apply lookup_insert_eq.
  - rewrite Hlen, length_to_records. lia.
Qed.

Lemma enrich_data_full_run_witness :
  exists new w',
    Wiki.enrich_data net_empty net_down net_down "final_combined_results.csv"
      "enriched_final_results.csv" "checkpoint.csv" one_person = (Ok tt, w')
    /\ tables w' !! "enriched_final_results.csv" = Some (csv_of (from_records new))
    /\ length new = 1.
Proof.
  destruct (enrich_data_full_run (@net_empty (option string * option string))
              (@net_down (option string)) (@net_down (list Z))
              "final_combined_results.csv" "enriched_final_results.csv" "checkpoint.csv"
              (mkDF 1 [("person", [SStr "http://www.wikidata.org/entity/Q1"]);
                       ("GermanWikipedia", [SStr "https://de.wikipedia.org/wiki/A"]);
                       ("EnglishWikipedia", [SNaN])]) one_person)
    as (new & w' & Hrun & Htab & Hlen).
  - reflexivity.
  - discriminate.
  - repeat constructor; eexists; reflexivity.
  - exists new, w'. split; [exact Hrun | split; [exact Htab | exact Hlen]].
Defined.

(** X24.  After a run of [enrich_data] that ends normally (input file and
    checkpoint file readable, output file not the checkpoint file) the
    output file holds a list of rows that begins with the rows of the
    checkpoint the run started from, and the checkpoint file is as it was or
    holds the first rows of that list, more of them than before and a
    multiple of 100 in number. *)
Theorem enrich_data_checkpoint sparql summary pageviews
    (input_csv output_csv checkpoint_csv : string) (df : DataFrame scalar) (w w' : world) :
  tables w !! input_csv = Some (Csv df) ->
  tables w !! checkpoint_csv <> Some BadCsv ->
  output_csv <> checkpoint_csv ->
  Wiki.enrich_data sparql summary pageviews input_csv output_csv checkpoint_csv w
  = (Ok tt, w') ->
  exists enriched,
    tables w' !! output_csv = Some (csv_of (from_records enriched))
    /\ checkpoint_rows (tables w !! checkpoint_csv) `prefix_of` enriched
    /\ (tables w' !! checkpoint_csv = tables w !! checkpoint_csv
        \/ exists saved,
            saved `prefix_of` enriched
            /\ length (checkpoint_rows (tables w !! checkpoint_csv)) < length saved
            /\ length saved mod 100 = 0
            /\ tables w' !! checkpoint_csv = Some (csv_of (from_records saved))).
Proof.
  intros Ht Hc Hne. rewrite (enrich_data_eq _ _ _ _ _ _ df w Ht Hc). cbv zeta.
  destruct (for_each _ _ _ _) as [[enriched | e |] w1] eqn:Hrun;
    [| discriminate | discriminate].
  destruct (rows_checkpoint _ _ _ _ _ _ _ _ _ _ Hrun) as [Hpre Hck].
  unfold to_csv. intros H. apply ok_pair_inv in H as [_ <-].
  exists enriched. cbn [tables]. split; [apply lookup_insert_eq | split; [exact Hpre |]].
  rewrite lookup_insert_ne by exact Hne. exact Hck.
Qed.

Lemma enrich_data_checkpoint_witness :
  let w' := snd (Wiki.enrich_data net_empty net_down net_down "final_combined_results.csv"
                   "enriched_final_results.csv" "checkpoint.csv" many_persons) in
  (exists enriched saved,
      tables w' !! "enriched_final_results.csv" = Some (csv_of (from_records enriched))
      /\ tables w' !! "checkpoint.csv" = Some (csv_of (from_records saved))
      /\ saved `prefix_of` enriched
      /\ 0 < length saved
      /\ length saved mod 100 = 0)
  /\ (exists checkpoint_df,
         tables w' !! "checkpoint.csv" = Some (Csv checkpoint_df)
         /\ df_len checkpoint_df = 100)
  /\ (exists output_df,
         tables w' !! "enriched_final_results.csv" = Some (Csv output_df)
         /\ df_len output_df = 101).
Proof.
  intros w'.
  assert (Hsaved : exists checkpoint_df,
             tables w' !! "checkpoint.csv" = Some (Csv checkpoint_df)
             /\ df_len checkpoint_df = 100)
    by (eexists; split; vm_compute; reflexivity).
  split; [| split; [exact Hsaved | eexists; split; vm_compute; reflexivity]].
  destruct (enrich_data_checkpoint (@net_empty (option string * option string))
              (@net_down (option string)) (@net_down (list Z))
              "final_combined_results.csv" "enriched_final_results.csv" "checkpoint.csv"
              (mkDF 101
                 [("person",
                   map (fun i : nat =>
                          SStr ("http://www.wikidata.org/entity/Q" +:+ pretty i))
                       (seq 1 101));
                  ("GermanWikipedia", repeat SNaN 101);
                  ("EnglishWikipedia", repeat SNaN 101)]) many_persons w')
    as (enriched & Hout & _ & Hck).
  - reflexivity.
  - discriminate.
  - discriminate.
  - vm_compute. reflexivity.
  - destruct Hck as [Hsame | (saved & Hpre & Hlt & Hmod & Hs)].
    + exfalso. destruct Hsaved as (checkpoint_df & E & _).
      rewrite E in Hsame. discriminate.
    + exists enriched, saved.
      split; [exact Hout | split; [exact Hs | split; [exact Hpre | split; [| exact Hmod]]]].
      simpl in Hlt. lia.
Defined.

(** ** [wiki_birth.py] and [wiki_german_de.py]: the scopes *)

Lemma query_attempts_requests net backoff max_retries (attempts : list nat)
    (q : query) (w : world) :
  exists evs,
    trace (snd (query_attempts net backoff max_retries attempts q w)) = evs ++ trace w
    /\ forall r, In (EvRequest r) evs -> r = ReqSparql q.
Proof.
  revert w. induction attempts as [| a rest IH]; intros w.
  - exists [EvLog ERROR MsgMaxRetries]. split; [reflexivity |]. intros r [[=] | []].
  - rewrite query_attempts_cons.
    assert (H1 : forall r, In (EvRequest r) [EvRequest (ReqSparql q)] -> r = ReqSparql q)
      by (intros r [[= <-] | []]; reflexivity).
    destruct (net (clock w) (ReqSparql q)) as [e | [| b bs]];
      try (exists [EvRequest (ReqSparql q)]; split; [reflexivity | exact H1]).
    destruct e; try (exists [EvRequest (ReqSparql q)]; split; [reflexivity | exact H1]).
    match goal with |- context [query_attempts _ _ _ _ _ ?w1] =>
      destruct (IH w1) as (evs & Ht & Hr) end.
    eexists (evs ++ [_; _; _]). rewrite <- app_assoc. split; [exact Ht |].
    intros r Hin. apply in_app_or in Hin as [Hin | [[=] | [[=] | Hin]]]; auto.
Qed.

Section Scopes.
Variable net : nat -> request -> response (list binding).
Variable dict_repr : list (string * value) -> string.
Variable validate : bool.

Local Abbreviation page := (BatchLoop.page net dict_repr validate).
Local Abbreviation while_true := (BatchLoop.while_true net dict_repr validate).
Local Abbreviation for_years := (BatchLoop.for_years net dict_repr validate).

Lemma page_requests (start_year end_year : Z) (st : BatchLoop.locals) (w : world) :
  exists evs,
    trace (snd (page start_year end_year st w)) = evs ++ trace w
    /\ forall r, In (EvRequest r) evs ->
                 exists after, r = ReqSparql (QYears start_year end_year after).
Proof.
  rewrite page_eq. unfold query_wikidata.
  destruct (query_attempts_requests net BatchLoop.backoff BatchLoop.MAX_RETRIES
              (seq 0 BatchLoop.MAX_RETRIES)
              (BatchLoop.page_query dict_repr start_year end_year st) w)
    as (evs & Ht & Hr).
  assert (Hq : forall r, In (EvRequest r) evs ->
                         exists after, r = ReqSparql (QYears start_year end_year after)).
  { intros r Hin. rewrite (Hr r Hin). unfold BatchLoop.page_query. eauto. }
  assert (Hlog : forall l m r, In (EvRequest r) (EvLog l m :: evs) ->
                   exists after, r = ReqSparql (QYears start_year end_year after)).
  { intros l m r [[=] | Hin]. now apply Hq. }
  destruct (query_attempts _ _ _ _ _ w) as [[[df |] | e |] w1]; cbn [snd] in *;
    try (exists evs; split; [exact Ht | exact Hq]).
  - destruct (df_empty df); [exists evs; split; [exact Ht | exact Hq] |].
    destruct (cursor_fields (process_results df)) as [[lb lp] |].
    + cbv zeta. cbn [snd].
      destruct (negb validate || _); destruct (_ mod _ =? 0); cbn [traced saved trace].
      * eexists (_ :: evs). rewrite Ht. split; [reflexivity |].
        intros r [[=] | Hin]. now apply Hq.
      * exists evs. split; [exact Ht | exact Hq].
      * eexists (_ :: _ :: evs). rewrite Ht. split; [reflexivity |].
        intros r [[=] | [[=] | Hin]]. now apply Hq.
      * eexists (_ :: evs). rewrite Ht. split; [reflexivity | apply Hlog].
    + eexists (_ :: evs). cbn [snd traced trace]. rewrite Ht.
      split; [reflexivity | apply Hlog].
  - eexists (_ :: evs). cbn [snd traced trace]. rewrite Ht.
    split; [reflexivity | apply Hlog].
Qed.

Lemma while_true_requests (fuel : nat) (start_year end_year : Z)
    (st : BatchLoop.locals) (w : world) :
  exists evs,
    trace (snd (while_true fuel start_year end_year st w)) = evs ++ trace w
    /\ forall r, In (EvRequest r) evs ->
                 exists after, r = ReqSparql (QYears start_year end_year after).
Proof.
  revert st w. induction fuel as [| fuel IH]; intros st w.
  - exists []. split; [reflexivity | intros r []].
  - rewrite while_true_succ.
    destruct (page_requests start_year end_year st w) as (evs & Ht & Hr).
    destruct (page start_year end_year st w) as [[[[] st1] | e |] w1]; cbn [snd] in *;
      try (exists evs; split; [exact Ht | exact Hr]).
    destruct (IH st1 w1) as (evs' & Ht' & Hr').
    exists (evs' ++ evs). rewrite Ht', Ht, app_assoc. split; [reflexivity |].
    intros r Hin. apply in_app_or in Hin as [Hin | Hin]; auto.
Qed.

Lemma scope_init_trace (st : BatchLoop.locals) (w : world) :
  snd (BatchLoop.scope_init st w) = w.
Proof.
  unfold BatchLoop.scope_init, BatchLoop.load_pointer, read_pointer, get_files. munfold.
  destruct (files w !! BatchLoop.POINTER_FILE) as [[content |] |]; try reflexivity.
  destruct (String.eqb _ _); [reflexivity |].
  destruct (split_on _ _) as [| x [| y [| z l]]]; reflexivity.
Qed.

Lemma for_years_requests (fuel : nat) (years : list Z) (st : BatchLoop.locals) (w : world) :
  exists evs,
    trace (snd (for_years fuel years st w)) = evs ++ trace w
    /\ forall r, In (EvRequest r) evs ->
                 exists start_year after,
                   In start_year years
                   /\ r = ReqSparql (QYears start_year (start_year + 19) after).
Proof.
  revert st w. induction years as [| y years IH]; intros st w.
  - exists []. split; [reflexivity | intros r []].
  - cbn [BatchLoop.for_years]. cbv zeta. rewrite bind_eq.
    pose proof (scope_init_trace st w) as Hs.
    destruct (BatchLoop.scope_init st w) as [[st1 | e |] w1]; cbn [snd] in Hs; subst w1;
      try (exists []; split; [reflexivity | intros r []]).
    rewrite bind_eq.
    destruct (while_true_requests fuel y (y + 19) st1 w) as (evs & Ht & Hr).
    assert (Hr' : forall r, In (EvRequest r) evs ->
                    exists start_year after,
                      In start_year (y :: years)
                      /\ r = ReqSparql (QYears start_year (start_year + 19) after)).
    { intros r Hin. destruct (Hr r Hin) as [after ->]. exists y, after. split; [now left | reflexivity]. }
    destruct (while_true fuel y (y + 19) st1 w) as [[[c st2] | e |] w2]; cbn [snd] in *;
      try (exists evs; split; [exact Ht | exact Hr']).
    assert (Hnext : exists evs0,
               trace (snd (for_years fuel years st2 w2)) = evs0 ++ trace w
               /\ forall r, In (EvRequest r) evs0 ->
                    exists start_year after,
                      In start_year (y :: years)
                      /\ r = ReqSparql (QYears start_year (start_year + 19) after)).
    { destruct (IH st2 w2) as (evs2 & Ht2 & Hr2).
      exists (evs2 ++ evs). rewrite Ht2, Ht, app_assoc. split; [reflexivity |].
      intros r Hin. apply in_app_or in Hin as [Hin | Hin]; [| now apply Hr'].
      destruct (Hr2 r Hin) as (y' & after & Hy & ->).
      exists y', after. split; [now right | reflexivity]. }
    destruct c; [exact Hnext | exact Hnext |].
    exists evs. split; [exact Ht | exact Hr'].
Qed.
End Scopes.

Lemma in_YEARS (y : Z) :
  In y BatchLoop.YEARS <-> exists i, (0 <= i < 26)%Z /\ y = (1525 + 20 * i)%Z.
Proof.
  unfold BatchLoop.YEARS. rewrite in_map_iff. split.
  - intros (i & <- & Hi). apply in_seq in Hi. exists (Z.of_nat i). split; [lia | reflexivity].
  - intros (i & Hi & ->). exists (Z.to_nat i). split; [f_equal; lia | apply in_seq; lia].
Qed.

(** X25.  The scopes of [fetch_data], in [wiki_birth.py] and in
    [wiki_german_de.py]: every query a run sends is for a window of twenty
    birth years that starts at one of the years of
    [range(1525, 2026, 20)]; these windows are pairwise disjoint and cover
    exactly the years 1525 to 2044. *)
Theorem scopes_cover net dict_repr validate (fuel : nat) (st : BatchLoop.locals)
    (w : world) :
  (exists evs,
      trace (snd (BatchLoop.for_years net dict_repr validate fuel BatchLoop.YEARS st w))
      = evs ++ trace w
      /\ forall r, In (EvRequest r) evs ->
                   exists start_year after,
                     In start_year BatchLoop.YEARS
                     /\ r = ReqSparql (QYears start_year (start_year + 19) after))
  /\ (forall year : Z,
         (1525 <= year <= 2044)%Z
         <-> exists start_year,
               In start_year BatchLoop.YEARS /\ (start_year <= year <= start_year + 19)%Z)
  /\ (forall y1 y2 year : Z,
         In y1 BatchLoop.YEARS -> In y2 BatchLoop.YEARS ->
         (y1 <= year <= y1 + 19)%Z -> (y2 <= year <= y2 + 19)%Z -> y1 = y2).
Proof.
  split; [apply for_years_requests | split].
  - intros year. split.
    + intros Hy. exists (1525 + 20 * ((year - 1525) / 20))%Z.
      pose proof (Z.div_mod (year - 1525) 20 ltac:(lia)) as Hd.
      pose proof (Z.mod_pos_bound (year - 1525) 20 ltac:(lia)) as Hm.
      split; [| lia]. apply in_YEARS. exists ((year - 1525) / 20)%Z. split; [| reflexivity].
      split; [apply Z.div_pos; lia | apply Z.div_lt_upper_bound; lia].
    + intros (y & Hin & Hy). apply in_YEARS in Hin as (i & Hi & ->). lia.
  - intros y1 y2 year H1 H2 Hy1 Hy2.
    apply in_YEARS in H1 as (i & Hi & ->). apply in_YEARS in H2 as (j & Hj & ->). lia.
Qed.

Lemma scopes_cover_witness :
  exists start_year,
    In start_year BatchLoop.YEARS /\ (start_year <= 2000 <= start_year + 19)%Z.
Proof.
  apply (proj1 (proj2 (scopes_cover net_down plain_repr true 0 start_locals empty_world))
               2000%Z).
  lia.
Defined.

(** ** [translation.py] *)

Section TranslationFacts.
Variable translator : nat -> scalar -> option string.

Lemma apply_translate_length (calls : nat) (series : list scalar) :
  length (Translation.apply_translate translator calls series) = length series.
Proof.
  revert calls. induction series as [| x rest IH]; intros calls; [reflexivity |].
  simpl. destruct (notna x); simpl; now rewrite IH.
Qed.

Lemma apply_translate_lookup (series : list scalar) (calls i : nat) (x : scalar) :
  series !! i = Some x ->
  Translation.apply_translate translator calls series !! i
  = Some (if notna x
          then Translation.translate_text translator (calls + calls_before i series) x
          else x).
Proof.
  revert calls i. induction series as [| y rest IH]; intros calls i; [discriminate |].
  destruct i as [| i].
  - intros [= ->]. simpl. unfold calls_before. simpl. rewrite Nat.add_0_r.
    destruct (notna x); reflexivity.
  - intros H. change ((y :: rest) !! S i) with (rest !! i) in H.
    unfold calls_before. cbn [Translation.apply_translate take List.filter].
    destruct (notna y).
    + change ((?a :: ?l) !! S i) with (l !! i). rewrite (IH (S calls) i H).
      unfold calls_before. cbn [length]. now rewrite Nat.add_succ_r.
    + change ((?a :: ?l) !! S i) with (l !! i). now rewrite (IH calls i H).
Qed.
End TranslationFacts.

Lemma dict_get_dict_set_eq {A : Type} (k : string) (v : A) (d : list (string * A)) :
  dict_get k (dict_set k v d) = Some v.
Proof. rewrite dict_get_dict_set. now rewrite String.eqb_refl. Qed.

(** X26.  The script [translation.py]: without the input file, or without
    the column [occupation] in it, it raises and writes nothing.  Otherwise
    it writes the table with one column set, [translated_occupation], as
    long as [occupation]; every other column is as it was.  A null cell
    stays as it is and costs no call; a cell that is not null becomes the
    text the translator returns for it, at the call numbered by the cells
    before it that are not null, and stays as it is when that call
    raises. *)
Theorem translation_column translator (dir : gmap string csv_file) :
  (dir !! Translation.INPUT = None -> Translation.script translator dir = Raise OSError)
  /\ forall data,
      dir !! Translation.INPUT = Some (Csv data) ->
      (df_getitem "occupation" data = None ->
       Translation.script translator dir = Raise KeyError)
      /\ forall occupation,
          df_getitem "occupation" data = Some occupation ->
          exists data' translated,
            Translation.script translator dir
            = Ok (<[Translation.OUTPUT := csv_of data']> dir)
            /\ df_len data' = df_len data
            /\ df_getitem "translated_occupation" data' = Some translated
            /\ length translated = length occupation
            /\ (forall col, col <> "translated_occupation" ->
                            df_getitem col data' = df_getitem col data)
            /\ (forall i x,
                   occupation !! i = Some x ->
                   translated !! i
                   = Some (if notna x
                           then match translator (calls_before i occupation) x with
                                | Some result_text => SStr result_text
                                | None => x
                                end
                           else x)).
Proof.
  split.
  - intros H. unfold Translation.script. now rewrite H.
  - intros data Hd. split.
    + intros Hc. unfold Translation.script. now rewrite Hd, Hc.
    + intros occupation Hc. unfold Translation.script. rewrite Hd, Hc.
      eexists _, _. split; [reflexivity |]. split; [reflexivity |].
      split; [apply dict_get_dict_set_eq |].
      split; [apply apply_translate_length |]. split.
      * intros col Hne. unfold df_getitem, Translation.setitem. cbn [df_series].
        rewrite dict_get_dict_set. apply String.eqb_neq in Hne. now rewrite Hne.
      * intros i x Hx. exact (apply_translate_lookup translator occupation 0 i x Hx).
Qed.

Lemma translation_column_witness :
  exists data',
    Translation.script (fun n _ => if n =? 0 then Some "painter" else None)
      {[Translation.INPUT := Csv (mkDF 3 [("occupation", [SStr "Maler"; SNaN; SStr "Arzt"])])]}
    = Ok (<[Translation.OUTPUT := csv_of data']>
            {[Translation.INPUT :=
                Csv (mkDF 3 [("occupation", [SStr "Maler"; SNaN; SStr "Arzt"])])]})
    /\ df_getitem "translated_occupation" data'
       = Some [SStr "painter"; SNaN; SStr "Arzt"].
Proof.
  destruct (proj2 (translation_column (fun n _ => if n =? 0 then Some "painter" else None)
                     {[Translation.INPUT :=
                         Csv (mkDF 3 [("occupation", [SStr "Maler"; SNaN; SStr "Arzt"])])]})
                  (mkDF 3 [("occupation", [SStr "Maler"; SNaN; SStr "Arzt"])]))
    as [_ H]; [vm_compute; reflexivity |].
  destruct (H [SStr "Maler"; SNaN; SStr "Arzt"] eq_refl)
    as (data' & translated & Hrun & _ & Hcol & Hlen & _ & Hcells).
  exists data'. split; [exact Hrun |]. rewrite Hcol. f_equal.
  pose proof (Hcells 0 _ eq_refl) as H0. pose proof (Hcells 1 _ eq_refl) as H1.
  pose proof (Hcells 2 _ eq_refl) as H2.
  destruct translated as [| a [| b [| c [| d l]]]]; try discriminate.
  simpl in H0, H1, H2. injection H0 as ->. injection H1 as ->. injection H2 as ->.
  reflexivity.
Defined.

(** ** [wiki_birth.py] and [wiki_german_de.py]: a run that finds a pointer file *)

Section FirstRequest.
Variable net : nat -> request -> response (list binding).
Variable dict_repr : list (string * value) -> string.
Variable validate : bool.

Local Abbreviation page := (BatchLoop.page net dict_repr validate).
Local Abbreviation while_true := (BatchLoop.while_true net dict_repr validate).
Local Abbreviation for_years := (BatchLoop.for_years net dict_repr validate).

Lemma after_request (r : request) (w w1 w' : world) :
  trace w1 = EvRequest r :: trace w -> touches [BatchLoop.POINTER_FILE] [] w1 w' ->
  exists evs, trace w' = evs ++ EvRequest r :: trace w.
Proof. intros H1 (_ & [evs Ht] & _). exists evs. now rewrite Ht, H1. Qed.

Lemma query_attempts_first backoff max_retries (a : nat) (rest : list nat)
    (q : query) (w : world) :
  exists evs,
    trace (snd (query_attempts net backoff max_retries (a :: rest) q w))
    = evs ++ EvRequest (ReqSparql q) :: trace w.
Proof.
  rewrite query_attempts_cons.
  destruct (net (clock w) (ReqSparql q)) as [e | [| b bs]]; try (now exists []).
  destruct e; try (now exists []).
  match goal with |- context [query_attempts _ _ _ _ _ ?w1] =>
    destruct (keeps_query_attempts [BatchLoop.POINTER_FILE] [] net backoff max_retries
                rest q w1) as (_ & [evs Ht] & _) end.
  eexists (evs ++ [_; _]). rewrite Ht, <- app_assoc. reflexivity.
Qed.

Lemma page_first (start_year end_year : Z) (st : BatchLoop.locals) (w : world) :
  exists evs,
    trace (snd (page start_year end_year st w))
    = evs ++ EvRequest (ReqSparql (BatchLoop.page_query dict_repr start_year end_year st))
          :: trace w.
Proof.
  rewrite page_eq. unfold query_wikidata.
  destruct (query_attempts_first BatchLoop.backoff BatchLoop.MAX_RETRIES 0
              (seq 1 (BatchLoop.MAX_RETRIES - 1))
              (BatchLoop.page_query dict_repr start_year end_year st) w) as (evs & Ht).
  change (0 :: seq 1 (BatchLoop.MAX_RETRIES - 1)) with (seq 0 BatchLoop.MAX_RETRIES) in Ht.
  destruct (query_attempts _ _ _ _ _ w) as [[[df |] | e |] w1]; cbn [snd] in *;
    try (exists evs; exact Ht).
  - destruct (df_empty df); [exists evs; exact Ht |].
    destruct (cursor_fields (process_results df)) as [[lb lp] |].
    + cbv zeta. cbn [snd].
      destruct (negb validate || _); destruct (_ mod _ =? 0); cbn [traced saved trace];
        rewrite Ht;
        first [ now exists evs | now eexists (_ :: evs) | now eexists (_ :: _ :: evs) ].
    + eexists (_ :: evs). cbn [snd traced trace]. now rewrite Ht.
  - eexists (_ :: evs). cbn [snd traced trace]. now rewrite Ht.
Qed.

Lemma while_true_first (fuel : nat) (start_year end_year : Z)
    (st : BatchLoop.locals) (w : world) :
  exists evs,
    trace (snd (while_true (S fuel) start_year end_year st w))
    = evs ++ EvRequest (ReqSparql (BatchLoop.page_query dict_repr start_year end_year st))
          :: trace w.
Proof.
  rewrite while_true_succ. destruct (page_first start_year end_year st w) as (evs & Ht).
  destruct (page start_year end_year st w) as [[[[] st1] | e |] w1]; cbn [snd] in *;
    try (exists evs; exact Ht).
  destruct (keeps_while_true net dict_repr validate fuel start_year end_year st1 w1)
    as (_ & [evs' Ht'] & _).
  exists (evs' ++ evs). now rewrite Ht', Ht, app_assoc.
Qed.

Lemma for_years_first (fuel : nat) (start_year : Z) (years : list Z)
    (st st1 : BatchLoop.locals) (w : world) :
  BatchLoop.scope_init st w = (Ok st1, w) ->
  exists evs,
    trace (snd (for_years (S fuel) (start_year :: years) st w))
    = evs ++ EvRequest (ReqSparql (BatchLoop.page_query dict_repr start_year
                                                        (start_year + 19) st1))
          :: trace w.
Proof.
  intros Hs. cbn [BatchLoop.for_years]. cbv zeta. rewrite bind_eq, Hs, bind_eq.
  destruct (while_true_first fuel start_year (start_year + 19) st1 w) as (evs & Ht).
  destruct (while_true (S fuel) start_year (start_year + 19) st1 w)
    as [[[c st2] | e |] w2]; cbn [snd] in *; try (exists evs; exact Ht).
  assert (Hnext : exists evs0,
             trace (snd (for_years (S fuel) years st2 w2))
             = evs0 ++ EvRequest (ReqSparql (BatchLoop.page_query dict_repr start_year
                                                                  (start_year + 19) st1))
                   :: trace w).
  { destruct (keeps_for_years net dict_repr validate (S fuel) years st2 w2)
      as (_ & [evs' Ht'] & _).
    exists (evs' ++ evs). now rewrite Ht', Ht, app_assoc. }
  destruct c; [exact Hnext | exact Hnext | exists evs; exact Ht].
Qed.
End FirstRequest.

(** X27.  The pointer file does not say which scope its cursor belongs to,
    and no run removes it: when [fetch_data] starts and finds in it a line
    [b|p] of two strings that are not empty (without a further ["|"],
    without carriage return, without white space at either end), the first
    query it sends is for the first scope, the birth years 1525 to 1544,
    paginated after that cursor. *)
Theorem first_query_uses_saved_cursor net dict_repr validate (fuel : nat)
    (b p : string) (w : world) :
  files w !! BatchLoop.POINTER_FILE = Some (Text (b +:+ "|" +:+ p)) ->
  contains_char CR (b +:+ "|" +:+ p) = false ->
  begins_with_space (b +:+ "|" +:+ p) = false ->
  ends_with_space (b +:+ "|" +:+ p) = false ->
  contains_char "|"%char b = false -> contains_char "|"%char p = false ->
  b <> EmptyString -> p <> EmptyString ->
  exists evs,
    trace (snd (BatchLoop.fetch_data net dict_repr validate (S fuel) w))
    = evs ++ EvRequest (ReqSparql (QYears 1525 1544 (Some (b, p)))) :: trace w.
Proof.
  intros Hf Hcr Hbs Hes Hb Hp Hbne Hpne.
  assert (Hs : BatchLoop.scope_init (BatchLoop.mkLocals [] 0 (Atom SNone) (Atom SNone)) w
               = (Ok (BatchLoop.mkLocals [] 0 (Atom (SStr b)) (Atom (SStr p))), w)).
  { unfold BatchLoop.scope_init, BatchLoop.load_pointer.
    rewrite bind_eq, (read_pointer_text _ _ _ Hf), (strip_clean _ Hcr Hbs Hes).
    change ("|" +:+ p) with (String "|"%char p).
    now rewrite append_sep_nonempty, (split_on_app_sep _ _ _ Hb), (split_on_id _ _ Hp). }
  unfold BatchLoop.fetch_data. rewrite bind_eq.
  destruct (for_years_first net dict_repr validate fuel 1525
              (map (fun i => (1525 + 20 * Z.of_nat i)%Z) (seq 1 25)) _ _ w Hs)
    as (evs & Ht).
  change (1525%Z :: map (fun i => (1525 + 20 * Z.of_nat i)%Z) (seq 1 25))
    with BatchLoop.YEARS in Ht.
  assert (Hq : BatchLoop.page_query dict_repr 1525 (1525 + 19)
                 (BatchLoop.mkLocals [] 0 (Atom (SStr b)) (Atom (SStr p)))
               = QYears 1525 1544 (Some (b, p))).
  { unfold BatchLoop.page_query. cbn [BatchLoop.last_birthdate BatchLoop.last_person truthy].
    apply String.eqb_neq in Hbne, Hpne. now rewrite Hbne, Hpne. }
  rewrite Hq in Ht.
  destruct (BatchLoop.for_years _ _ _ _ _ _ w) as [[[c st] | e |] w1]; cbn [snd] in *;
    try (exists evs; exact Ht).
  destruct c; try (exists evs; exact Ht);
    unfold BatchLoop.save_final; destruct (BatchLoop.all_results st);
    eexists (_ :: evs); cbn [snd log emit trace]; now rewrite Ht.
Qed.

Lemma first_query_uses_saved_cursor_witness :
  exists evs,
    trace (snd (BatchLoop.fetch_data net_down plain_repr true 1
                  (fresh {["pointer.txt" := Text "2040-01-01T00:00:00Z|Q9"]} ∅)))
    = evs ++ [EvRequest (ReqSparql (QYears 1525 1544
                                           (Some ("2040-01-01T00:00:00Z", "Q9"))))].
Proof.
  exact (first_query_uses_saved_cursor net_down plain_repr true 0
           "2040-01-01T00:00:00Z" "Q9"
           (fresh {["pointer.txt" := Text "2040-01-01T00:00:00Z|Q9"]} ∅)
           eq_refl eq_refl eq_refl eq_refl eq_refl eq_refl
           ltac:(discriminate) ltac:(discriminate)).
Defined.
